(** * wokkel.muc — the XMPP Multi-User Chat client handler

A shallow embedding of [src/wokkel/muc.py]: the room and roster data
model, the presence and message handlers of [MUCClient], its
send-and-await primitive and the operations built on it, followed by
the properties of the specification that concern them.

Python objects that are shared and mutated ([Room] and [Deferred]
instances, the class attributes [MUCClient.rooms] and
[MUCClient._deferreds]) live in an explicit store; methods are
functions in a state-and-exception monad over that store. *)

From stdpp Require Import gmap strings list fin_maps.
From Stdlib Require Import Ascii.

Open Scope string_scope.
Open Scope list_scope.
Open Scope nat_scope.

(** ** Python values, exceptions and results *)

Module py.

(** [str.lower()], on byte strings. *)
Definition lower_ascii (c : ascii) : ascii :=
  let n := nat_of_ascii c in
  if ((65 <=? n) && (n <=? 90))%nat then ascii_of_nat (n + 32) else c.

Fixpoint lower (s : string) : string :=
  match s with
  | EmptyString => EmptyString
  | String c s' => String (lower_ascii c) (lower s')
  end.

(** Truth value of an optional string ([if frm:], [if self.user:]). *)
Definition truthy (o : option string) : bool :=
  match o with
  | Some (String _ _) => true
  | _ => false
  end.

(** The exceptions the module can raise or hand to an errback.
    [DanglingReference] is the model's own: a reference that points
    outside the store, which no Python execution produces. *)
Inductive Exn : Type :=
  | AttributeError (what : string)
  | KeyError (key : string)
  | Exception (msg : string)
  | InvalidFormat (jidstring : string)
  | AlreadyCalledError
  | TimeoutError (msg : string)
  | DanglingReference.

Inductive Res (A : Type) : Type :=
  | Ok (a : A)
  | Raise (e : Exn).
Arguments Ok {A} a.
Arguments Raise {A} e.

Definition res_bind {A B} (r : Res A) (k : A → Res B) : Res B :=
  match r with
  | Ok a => k a
  | Raise e => Raise e
  end.

End py.
Export py.

Notation "'let?' x := e 'in' k" := (res_bind e (λ x, k))
  (at level 10, x name, e at level 100, k at level 200, only parsing).

(** ** twisted.words.protocols.jabber.jid *)

Module jid.

(** Modelled from the spec: a Jabber ID [local@domain/resource] with
    its bare and full forms (section 6 and glossary). *)
Record JID : Type := mk {
  user : option string;
  host : string;
  resource : option string
}.

(** [JID.userhost()] and [JID.full()]. *)
Definition userhost (j : JID) : string :=
  if truthy (user j) then default "" (user j) +:+ "@" +:+ host j
  else host j.

Definition full (j : JID) : string :=
  if truthy (resource j) then userhost j +:+ "/" +:+ default "" (resource j)
  else userhost j.

(** The parsing and normalisation of addresses is supplied by the
    library the handler is built on; the handler and its properties are
    generic in it. [internJID] raises [InvalidFormat] on a string that
    is not an address. *)
Class Facility : Type := { internJID : string → Res JID }.

End jid.
Export (hints) jid.

(** ** twisted.words.xish.domish *)

Module domish.

(** Modelled from the spec: the XML element tree the handler works on
    (section 6): an element has a name, a namespace, attributes, and
    children that are elements or character data. *)
Inductive Element : Type :=
  | Elem (name : string) (uri : option string)
         (attributes : gmap string string) (children : list Node)
with Node : Type :=
  | NElem (e : Element)
  | NText (s : string).

Definition name (e : Element) : string := let 'Elem n _ _ _ := e in n.
Definition uri (e : Element) : option string := let 'Elem _ u _ _ := e in u.
Definition attributes (e : Element) : gmap string string :=
  let 'Elem _ _ a _ := e in a.
Definition children (e : Element) : list Node := let 'Elem _ _ _ c := e in c.

(** [Element((uri, name))] *)
Definition new (uri : option string) (name : string) : Element :=
  Elem name uri ∅ [].

Definition hasAttribute (e : Element) (k : string) : bool :=
  bool_decide (is_Some (attributes e !! k)).

Definition getAttribute (e : Element) (k : string) : option string :=
  attributes e !! k.

(** [e[k]], which raises [KeyError] on a missing attribute. *)
Definition getitem (e : Element) (k : string) : Res string :=
  match attributes e !! k with
  | Some v => Ok v
  | None => Raise (KeyError k)
  end.

(** [e[k] = v] *)
Definition setitem (e : Element) (k v : string) : Element :=
  Elem (name e) (uri e) (<[k := v]> (attributes e)) (children e).

Definition addChild (e : Element) (n : Node) : Element :=
  Elem (name e) (uri e) (attributes e) (children e ++ [n]).

(** [e.addElement(name, defaultUri, content)]: the child inherits the
    parent's namespace when none is given; the element with the child
    appended comes back. *)
Definition make_child (e : Element) (nm : string) (defaultUri : option string)
    (content : option string) : Element :=
  Elem nm (match defaultUri with Some u => Some u | None => uri e end) ∅
       (if truthy content then [NText (default "" content)] else []).

Definition addElement (e : Element) (nm : string) (defaultUri : option string)
    (content : option string) : Element :=
  addChild e (NElem (make_child e nm defaultUri content)).

(** [e.elements()]: the children that are elements. *)
Definition elements (e : Element) : list Element :=
  omap (λ n, match n with NElem c => Some c | NText _ => None end) (children e).

(** [e.<key>]: the first child element of that name, [None] without one. *)
Definition child (e : Element) (key : string) : option Element :=
  head (filter (λ c, name c = key) (elements e)).

(** [unicode(e)]: the first character-data child, or the empty string. *)
Definition text (e : Element) : string :=
  default "" (head (omap (λ n, match n with NText s => Some s | NElem _ => None end)
                         (children e))).

(** [unicode(x)] for [x] an element or [None]. *)
Definition unicode (o : option Element) : string :=
  match o with
  | Some e => text e
  | None => "None"
  end.

End domish.

(** ** Namespaces and constants *)

Definition NS_MUC : string := "http://jabber.org/protocol/muc".
Definition NS_MUC_USER : string := NS_MUC +:+ "#user".
Definition NS_DELAY : string := "urn:xmpp:delay".
Definition NS_JABBER_DELAY : string := "jabber:x:delay".
Definition DEFER_TIMEOUT : nat := 30.

(** ** The room and roster data model *)

Module User.

Record t : Type := mk {
  nick : string;
  user_jid : option jid.JID;
  affiliation : string;
  role : string;
  status : option string;
  show : option string
}.

(** [User(nick)] *)
Definition init (nick : string) : t := mk nick None "none" "none" None None.

End User.

Module Room.

(** [Room.status] starts as the integer [0] and later holds whatever
    [getAttribute('code', None)] gave. *)
Inductive Status : Type :=
  | StatusInt (n : nat)
  | StatusCode (code : option string).

Record t : Type := mk {
  state : option string;
  name : string;
  server : string;
  nick : string;
  status : Status;
  entity_id : jid.JID;
  roster : gmap string User.t
}.

Definition set_state (v : option string) (r : t) : t :=
  mk v (name r) (server r) (nick r) (status r) (entity_id r) (roster r).
Definition set_nick (v : string) (r : t) : t :=
  mk (state r) (name r) (server r) v (status r) (entity_id r) (roster r).
Definition set_status (v : Status) (r : t) : t :=
  mk (state r) (name r) (server r) (nick r) v (entity_id r) (roster r).
Definition set_entity_id (v : jid.JID) (r : t) : t :=
  mk (state r) (name r) (server r) (nick r) (status r) v (roster r).
Definition set_roster (v : gmap string User.t) (r : t) : t :=
  mk (state r) (name r) (server r) (nick r) (status r) (entity_id r) v.

Section WithJID.
Context `{jid.Facility}.

(** [Room.__init__]: the occupant address is computed on construction,
    so an ill-formed address makes the constructor raise. *)
Definition init (name server nick : string) (state : option string) : Res t :=
  let? j := jid.internJID (name +:+ "@" +:+ server +:+ "/" +:+ nick) in
  Ok (mk state name server nick (StatusInt 0) j ∅).

(** [Room.entityId()]: recompute, store and return the occupant address. *)
Definition entityId (r : t) : Res (jid.JID * t) :=
  let? j := jid.internJID (name r +:+ "@" +:+ server r +:+ "/" +:+ nick r) in
  Ok (j, set_entity_id j r).

End WithJID.

Definition addUser (r : t) (user : User.t) : t :=
  set_roster (<[lower (User.nick user) := user]> (roster r)) r.

Definition inRoster (r : t) (user : User.t) : bool :=
  bool_decide (is_Some (roster r !! lower (User.nick user))).

(** [getUser] lower-cases its argument before the lookup; called with
    [None] (an address without a resource) that is an attribute access
    on [None]. *)
Definition getUser (r : t) (nick : option string) : Res (option User.t) :=
  match nick with
  | Some n => Ok (roster r !! lower n)
  | None => Raise (AttributeError "lower")
  end.

Definition removeUser (r : t) (user : User.t) : t :=
  if inRoster r user then set_roster (delete (lower (User.nick user)) (roster r)) r
  else r.

End Room.

(** ** datetime *)

Module datetime.

Record t : Type := mk {
  year : nat; month : nat; day : nat;
  hour : nat; minute : nat; second : nat
}.

Definition digit (n : nat) : ascii := ascii_of_nat (48 + n `mod` 10).

(** [n] in decimal on [width] digits, zero-padded. *)
Fixpoint digits (width n : nat) : string :=
  match width with
  | 0 => EmptyString
  | S w => digits w (n `div` 10) +:+ String (digit n) EmptyString
  end.

(** [stamp.strftime('%Y%m%dT%H:%M:%S')], the compact form
    [CCYYMMDDThh:mm:ss] of section 6. *)
Definition strftime_compact (stamp : t) : string :=
  digits 4 (year stamp) +:+ digits 2 (month stamp) +:+ digits 2 (day stamp)
  +:+ "T" +:+ digits 2 (hour stamp) +:+ ":" +:+ digits 2 (minute stamp)
  +:+ ":" +:+ digits 2 (second stamp).

End datetime.

(** ** Values, deferreds and the process state *)

(** What is handed to a hook or stored as the result of a deferred. A
    room is handed over by reference. *)
Inductive Value : Type :=
  | VNone
  | VBool (b : bool)
  | VStr (s : string)
  | VRoom (room : nat)
  | VUser (u : User.t)
  | VJID (j : jid.JID)
  | VElement (e : domish.Element)
  | VExn (e : Exn).

(** The state of a [defer.Deferred] once it has been called: [callback]
    leaves a [Success], [errback] a [Failure] wrapping its argument. *)
Inductive Outcome : Type :=
  | Success (v : Value)
  | Failure (v : Value).

(** A call of one of the overridable event hooks of the handler. *)
Inductive HookCall : Type :=
  | Hook (name : string) (args : list Value).

(** The stanza shapes the one-time observers are registered on:
    [PRESENCE+"[@from='%s']"] and
    [PRESENCE+"[@from='%s' and @type='unavailable']"]. *)
Inductive Pattern : Type :=
  | PresenceFrom (frm : string)
  | PresenceFromUnavailable (frm : string).

(** The bound methods registered with them, with their extra arguments. *)
Inductive Callback : Type :=
  | CbJoinedRoom (d : nat)
  | CbChanged (d : nat) (room_jid : jid.JID)
  | CbLeftRoom (d : nat).

(** What all handlers of a process share: the class attributes
    [MUCClient.rooms] and [MUCClient._deferreds] (declared in the class
    body and never rebound on an instance), the objects they refer to,
    the reactor with its pending [callLater] calls (time due and the
    deferred whose [onTimeout] it runs), the wall clock and the error
    log. *)
Record Process : Type := mkProcess {
  rooms : gmap string nat;
  _deferreds : list nat;
  room_store : list Room.t;
  deferred_store : list (option Outcome);
  seconds : nat;
  delayed : list (nat * nat);
  now : datetime.t;
  errlog : list Exn
}.

(** What one handler instance owns: its stream (stanzas sent, the
    observers registered on it), the hooks called on it, and whether
    the host has put a [receivedGroupChat] on it: the class has a
    default for every other hook and none for this one. *)
Record Handler : Type := mkHandler {
  output : list domish.Element;
  observing : bool;
  onetime : list (Pattern * Callback);
  hooks : list HookCall;
  has_receivedGroupChat : bool
}.

Record State : Type := mkState { proc : Process; self : Handler }.

Definition initial_process (clock : datetime.t) : Process :=
  mkProcess ∅ [] [] [] 0 [] clock [].
Definition new_handler : Handler := mkHandler [] false [] [] false.

Definition with_proc (f : Process → Process) (s : State) : State :=
  mkState (f (proc s)) (self s).
Definition with_self (f : Handler → Handler) (s : State) : State :=
  mkState (proc s) (f (self s)).

Definition set_rooms (v : gmap string nat) (p : Process) : Process :=
  mkProcess v (_deferreds p) (room_store p) (deferred_store p) (seconds p)
            (delayed p) (now p) (errlog p).
Definition set_deferreds (v : list nat) (p : Process) : Process :=
  mkProcess (rooms p) v (room_store p) (deferred_store p) (seconds p)
            (delayed p) (now p) (errlog p).
Definition set_room_store (v : list Room.t) (p : Process) : Process :=
  mkProcess (rooms p) (_deferreds p) v (deferred_store p) (seconds p)
            (delayed p) (now p) (errlog p).
Definition set_deferred_store (v : list (option Outcome)) (p : Process) : Process :=
  mkProcess (rooms p) (_deferreds p) (room_store p) v (seconds p)
            (delayed p) (now p) (errlog p).
Definition set_seconds (v : nat) (p : Process) : Process :=
  mkProcess (rooms p) (_deferreds p) (room_store p) (deferred_store p) v
            (delayed p) (now p) (errlog p).
Definition set_delayed (v : list (nat * nat)) (p : Process) : Process :=
  mkProcess (rooms p) (_deferreds p) (room_store p) (deferred_store p) (seconds p)
            v (now p) (errlog p).
Definition set_errlog (v : list Exn) (p : Process) : Process :=
  mkProcess (rooms p) (_deferreds p) (room_store p) (deferred_store p) (seconds p)
            (delayed p) (now p) v.

Definition set_output (v : list domish.Element) (h : Handler) : Handler :=
  mkHandler v (observing h) (onetime h) (hooks h) (has_receivedGroupChat h).
Definition set_observing (v : bool) (h : Handler) : Handler :=
  mkHandler (output h) v (onetime h) (hooks h) (has_receivedGroupChat h).
Definition set_onetime (v : list (Pattern * Callback)) (h : Handler) : Handler :=
  mkHandler (output h) (observing h) v (hooks h) (has_receivedGroupChat h).
Definition set_hooks (v : list HookCall) (h : Handler) : Handler :=
  mkHandler (output h) (observing h) (onetime h) v (has_receivedGroupChat h).
Definition set_has_receivedGroupChat (v : bool) (h : Handler) : Handler :=
  mkHandler (output h) (observing h) (onetime h) (hooks h) v.

(** ** The monad of methods: state passing with exceptions

A method that raises leaves the state as it was at the raise. *)

Definition M (A : Type) : Type := State → Res A * State.

Definition ret {A} (a : A) : M A := λ s, (Ok a, s).
Definition raise {A} (e : Exn) : M A := λ s, (Raise e, s).
Definition bind {A B} (m : M A) (k : A → M B) : M B :=
  λ s, match m s with
       | (Ok a, s') => k a s'
       | (Raise e, s') => (Raise e, s')
       end.
Definition lift {A} (r : Res A) : M A := λ s, (r, s).
Definition gets {A} (f : State → A) : M A := λ s, (Ok (f s), s).
Definition modify (f : State → State) : M unit := λ s, (Ok tt, f s).

Notation "'let*' x := e 'in' k" := (bind e (λ x, k))
  (at level 10, x name, e at level 100, k at level 200, only parsing).
Notation "e1 ;; e2" := (bind e1 (λ _, e2))
  (at level 100, e2 at level 200, right associativity, only parsing).

(** Modelled from the spec: the stream and the reactor run a callback
    on their own turn of the event loop (section 5); an exception it
    raises is logged there and goes no further. *)
Definition protect (m : M unit) : M unit :=
  λ s, match m s with
       | (Ok _, s') => (Ok tt, s')
       | (Raise e, s') => (Ok tt, with_proc (λ p, set_errlog (errlog p ++ [e]) p) s')
       end.

Fixpoint for_each {A} (l : list A) (body : A → M unit) : M unit :=
  match l with
  | [] => ret tt
  | x :: l' => body x ;; for_each l' body
  end.

(** ** Stanza builders *)

Module xmppim.

(** Modelled from the spec: the generic presence builders the MUC
    stanzas are built from (sections 4.4 and 6). [xmppim.Presence(to,
    type)] is a [presence] element with the full form of [to] and the
    [type], each when given. *)
Definition Presence (to : option jid.JID) (type : option string) : domish.Element :=
  let e := domish.new None "presence" in
  let e := match to with Some j => domish.setitem e "to" (jid.full j) | None => e end in
  match type with Some ty => domish.setitem e "type" ty | None => e end.

(** [xmppim.UnavailablePresence(to)] *)
Definition UnavailablePresence (to : option jid.JID) : domish.Element :=
  Presence to (Some "unavailable").

End xmppim.

(** [BasicPresence(to)]: an available presence with the MUC extension.
    Every call in the module leaves [show] and [statuses] at [None]. *)
Definition BasicPresence (to : option jid.JID) : domish.Element :=
  domish.addElement (xmppim.Presence to None) "x" (Some NS_MUC) None.

(** An entry of the list handed to [history]. The loop body indexes each
    entry as a message element; the archives callers keep pair the
    stanza with the time it was exchanged, as a dictionary with the keys
    ['stanza'] and ['timestamp']. *)
Inductive ArchiveEntry : Type :=
  | EntryStanza (m : domish.Element)
  | EntryRecord (stanza : domish.Element) (timestamp : datetime.t).

(** ** The stream: which stanzas an observer is called on *)

Definition is_stanza (kind : string) (type : option string) (e : domish.Element) : bool :=
  bool_decide (domish.name e = kind) && bool_decide (domish.getAttribute e "type" = type).

Definition matches (q : Pattern) (e : domish.Element) : bool :=
  match q with
  | PresenceFrom frm =>
      bool_decide (domish.name e = "presence")
      && bool_decide (domish.getAttribute e "from" = Some frm)
  | PresenceFromUnavailable frm =>
      bool_decide (domish.name e = "presence")
      && bool_decide (domish.getAttribute e "from" = Some frm)
      && bool_decide (domish.getAttribute e "type" = Some "unavailable")
  end.

(** [PRESENCE+"[not(@type) or @type='available']/x"] *)
Definition matches_x_presence (e : domish.Element) : bool :=
  (is_stanza "presence" None e || is_stanza "presence" (Some "available") e)
  && bool_decide (is_Some (domish.child e "x")).
(** [PRESENCE+"[@type='unavailable']"] and [PRESENCE+"[@type='error']"] *)
Definition matches_unavailable (e : domish.Element) : bool :=
  is_stanza "presence" (Some "unavailable") e.
Definition matches_presence_error (e : domish.Element) : bool :=
  is_stanza "presence" (Some "error") e.
(** [GROUPCHAT] and [SUBJECT] *)
Definition matches_groupchat (e : domish.Element) : bool :=
  is_stanza "message" (Some "groupchat") e && bool_decide (is_Some (domish.child e "body")).
Definition matches_subject (e : domish.Element) : bool :=
  is_stanza "message" (Some "groupchat") e && bool_decide (is_Some (domish.child e "subject")).

(** ** Deferreds and the reactor *)

Module defer.

(** [call.cancel()] when [call.active()]: the call of this deferred
    leaves the reactor. *)
Definition cancelTimeout (d : nat) : M unit :=
  modify (with_proc (λ p, set_delayed (filter (λ c, c.2 ≠ d) (delayed p)) p)).

(** Modelled from the spec: the deferred primitive (section 6), which
    is fulfilled or failed at most once and then runs what was chained
    on it. [Deferred()] makes a new one; [cancelTimeout] is the one
    callback and errback the module ever adds. *)
Definition Deferred : M nat :=
  λ s, (Ok (length (deferred_store (proc s))),
        with_proc (λ p, set_deferred_store (deferred_store p ++ [None]) p) s).

(** [d.callback(v)] and [d.errback(v)]: a second call raises. *)
Definition fire (d : nat) (o : Outcome) : M unit :=
  let* called := gets (λ s, deferred_store (proc s) !! d) in
  match called with
  | None => raise DanglingReference
  | Some (Some _) => raise AlreadyCalledError
  | Some None =>
      modify (with_proc (λ p, set_deferred_store (<[d := Some o]> (deferred_store p)) p)) ;;
      cancelTimeout d
  end.

Definition callback (d : nat) (v : Value) : M unit := fire d (Success v).
Definition errback (d : nat) (v : Value) : M unit := fire d (Failure v).

End defer.

Module reactor.

(** Modelled from the spec: the scheduler of delayed one-shot calls
    (section 6). Pending calls are kept in the order they fall due,
    calls due at the same time in the order they were made. *)
Fixpoint insert_call (c : nat * nat) (l : list (nat * nat)) : list (nat * nat) :=
  match l with
  | [] => [c]
  | c' :: l' => if (c'.1 <=? c.1)%nat then c' :: insert_call c l' else c :: l
  end.

(** [reactor.callLater(timeout, onTimeout)] for the [onTimeout] of [d]. *)
Definition callLater (timeout : nat) (d : nat) : M unit :=
  modify (with_proc (λ p, set_delayed (insert_call (seconds p + timeout, d) (delayed p)) p)).

End reactor.

(** ** The protocol handler *)

Module MUCClient.
Section WithJID.
Context `{jid.Facility}.

(** *** Access to the store *)

Definition deref (room : nat) : M Room.t :=
  λ s, match room_store (proc s) !! room with
       | Some r => (Ok r, s)
       | None => (Raise DanglingReference, s)
       end.

Definition update (room : nat) (f : Room.t → Room.t) : M unit :=
  modify (with_proc (λ p, set_room_store (alter f room (room_store p)) p)).

(** [Room(name, server, nick, state)]: a new object in the store. *)
Definition new_room (name server nick : string) (state : option string) : M nat :=
  let* r := lift (Room.init name server nick state) in
  let* room := gets (λ s, length (room_store (proc s))) in
  modify (with_proc (λ p, set_room_store (room_store p ++ [r]) p)) ;;
  ret room.

Definition send (obj : domish.Element) : M unit :=
  modify (with_self (λ h, set_output (output h ++ [obj]) h)).

Definition addOnetimeObserver (q : Pattern) (cb : Callback) : M unit :=
  modify (with_self (λ h, set_onetime (onetime h ++ [(q, cb)]) h)).

(** A call of one of the event hooks, which the host overrides: the
    call is recorded with its arguments. *)
Definition call_hook (name : string) (args : list Value) : M unit :=
  modify (with_self (λ h, set_hooks (hooks h ++ [Hook name args]) h)).

(** [self.receivedGroupChat(...)]: the class defines no method of that
    name, so that the call finds the one the host has put on the
    handler, or raises the attribute error. *)
Definition receivedGroupChat (args : list Value) : M unit :=
  let* defined := gets (λ s, has_receivedGroupChat (self s)) in
  if defined then call_hook "receivedGroupChat" args
  else raise (AttributeError "receivedGroupChat").

Definition opt_user (u : option User.t) : Value :=
  match u with Some u => VUser u | None => VNone end.
Definition opt_element (e : option domish.Element) : Value :=
  match e with Some e => VElement e | None => VNone end.
Definition opt_str (o : option string) : Value :=
  match o with Some x => VStr x | None => VNone end.

(** *** The room registry *)

Definition _setRoom (room : nat) : M unit :=
  let* r := deref room in
  modify (with_proc (λ p,
    set_rooms (<[lower (jid.userhost (Room.entity_id r)) := room]> (rooms p)) p)).

Definition _getRoom (room_jid : jid.JID) : M (option nat) :=
  gets (λ s, rooms (proc s) !! lower (jid.userhost room_jid)).

Definition _removeRoom (room_jid : jid.JID) : M unit :=
  modify (with_proc (λ p,
    if bool_decide (is_Some (rooms p !! lower (jid.userhost room_jid)))
    then set_rooms (delete (lower (jid.userhost room_jid)) (rooms p)) p
    else p)).

(** *** Inbound presence *)

Definition _userLeavesRoom (room_jid : jid.JID) : M unit :=
  let* room := _getRoom room_jid in
  match room with
  | None => ret tt
  | Some room =>
      let* r := deref room in
      let* user := lift (Room.getUser r (jid.resource room_jid)) in
      match user with
      | None => ret tt
      | Some user =>
          if Room.inRoster r user then
            update room (λ r, Room.removeUser r user) ;;
            call_hook "userLeftRoom" [VRoom room; VUser user]
          else ret tt
      end
  end.

Definition _onUnavailablePresence (prs : domish.Element) : M unit :=
  if negb (domish.hasAttribute prs "from") then ret tt
  else
    let* room_jid := lift (jid.internJID (default "" (domish.getAttribute prs "from"))) in
    _userLeavesRoom room_jid.

Definition _onPresenceError (prs : domish.Element) : M unit :=
  if negb (domish.hasAttribute prs "from") then ret tt
  else
    let* room_jid := lift (jid.internJID (default "" (domish.getAttribute prs "from"))) in
    _userLeavesRoom room_jid.

Definition _onXPresence (prs : domish.Element) : M unit :=
  if negb (domish.hasAttribute prs "from") then ret tt
  else
    let* room_jid := lift (jid.internJID (default "" (domish.getAttribute prs "from"))) in
    let status := domish.child prs "status" in
    let show := domish.child prs "show" in
    let* room := _getRoom room_jid in
    match room with
    | None => ret tt
    | Some room =>
        let* r := deref room in
        let* found := lift (Room.getUser r (jid.resource room_jid)) in
        let user :=
          match found with
          | Some user => user
          | None => User.init (default "" (jid.resource room_jid))
          end in
        if Room.inRoster r user then
          let x := domish.child prs "x" in
          let muc_status := x ≫= (λ x, domish.child x "status") in
          match muc_status with
          | Some _ => ret tt
          | None =>
              call_hook "userUpdatedStatus"
                [VRoom room; VUser user; opt_element show; opt_element status]
          end
        else
          update room (λ r, Room.addUser r user) ;;
          call_hook "userJoinedRoom" [VRoom room; VUser user]
    end.

(** *** Inbound messages *)

Definition is_delay (e : domish.Element) : bool :=
  bool_decide (domish.uri e = Some NS_DELAY)
  || bool_decide (domish.uri e = Some NS_JABBER_DELAY).

Definition _onGroupChat (msg : domish.Element) : M unit :=
  if negb (domish.hasAttribute msg "from") then ret tt
  else
    let* room_jid := lift (jid.internJID (default "" (domish.getAttribute msg "from"))) in
    let* room := _getRoom room_jid in
    match room with
    | None => ret tt
    | Some room =>
        let* r := deref room in
        let* user := lift (Room.getUser r (jid.resource room_jid)) in
        let delay := last (filter (λ e, is_delay e = true) (domish.elements msg)) in
        let body := domish.unicode (domish.child msg "body") in
        match delay with
        | None => receivedGroupChat [VRoom room; opt_user user; VStr body]
        | Some delay =>
            let* stamp := lift (domish.getitem delay "stamp") in
            call_hook "receivedHistory"
              [VRoom room; opt_user user; VStr body; VStr stamp;
               opt_str (domish.getAttribute delay "from")]
        end
    end.

Definition _onSubject (msg : domish.Element) : M unit :=
  if negb (domish.hasAttribute msg "from") then ret tt
  else
    let* frm := lift (domish.getitem msg "from") in
    let* room_jid := lift (jid.internJID frm) in
    let* room := _getRoom room_jid in
    match room with
    | None => ret tt
    | Some _ =>
        call_hook "receivedSubject"
          [VJID room_jid; VStr (domish.unicode (domish.child msg "subject"))]
    end.

(** [_makeTimeStamp(stamp=None)] *)
Definition _makeTimeStamp (stamp : option datetime.t) : M string :=
  let* stamp :=
    match stamp with
    | Some stamp => ret stamp
    | None => gets (λ s, now (proc s))
    end in
  ret (datetime.strftime_compact stamp).

(** *** Replies to join, leave, nick and status *)

Definition is_error (prs : domish.Element) : bool :=
  domish.hasAttribute prs "type"
  && bool_decide (domish.getAttribute prs "type" = Some "error").

Definition _joinedRoom (d : nat) (prs : domish.Element) : M unit :=
  let* frm := lift (domish.getitem prs "from") in
  let* room_jid := lift (jid.internJID frm) in
  if is_error prs then defer.errback d (VElement prs)
  else
    let* r := _getRoom room_jid in
    match r with
    | None => raise (Exception "Room Not Found")
    | Some r =>
        update r (Room.set_state (Some "joined")) ;;
        let status := domish.child prs "x" ≫= (λ x, domish.child x "status") in
        match status with
        | Some status =>
            update r (Room.set_status (Room.StatusCode (domish.getAttribute status "code")))
        | None => ret tt
        end ;;
        defer.callback d (VRoom r)
    end.

Definition _leftRoom (d : nat) (prs : domish.Element) : M unit :=
  let* frm := lift (domish.getitem prs "from") in
  let* room_jid := lift (jid.internJID frm) in
  if is_error prs then defer.errback d (VElement prs)
  else
    let* r := _getRoom room_jid in
    match r with
    | None => raise (Exception "Room Not Found")
    | Some _ =>
        _removeRoom room_jid ;;
        defer.callback d (VBool true)
    end.

Definition _changed (d : nat) (room_jid : jid.JID) (prs : domish.Element) : M unit :=
  let* r := _getRoom room_jid in
  defer.callback d (match r with Some r => VRoom r | None => VNone end).

(** *** Send and await *)

(** The loop of [onTimeout]: [for xd in self._deferreds] walks the list
    by position while [pop(i)] shortens it under the iterator; [i] is
    both the counter of the body and the position of the iterator.
    The fuel bounds the number of iterations. *)
Fixpoint onTimeout_loop (fuel i : nat) (d : nat) : M unit :=
  match fuel with
  | 0 => ret tt
  | S fuel =>
      let* l := gets (λ s, _deferreds (proc s)) in
      match l !! i with
      | None => ret tt
      | Some xd =>
          (if bool_decide (d = xd) then
             modify (with_proc (λ p, set_deferreds (delete i (_deferreds p)) p)) ;;
             defer.errback d (VExn (TimeoutError "Timeout waiting for response."))
           else ret tt) ;;
          onTimeout_loop fuel (S i) d
      end
  end.

Definition onTimeout (d : nat) : M unit :=
  let* l := gets (λ s, _deferreds (proc s)) in
  onTimeout_loop (length l) 0 d.

(** [sendDeferred(obj, timeout)]. The [d.addBoth(cancelTimeout)] of the
    source is part of every deferred of the model: [defer.fire] runs
    [cancelTimeout] on the call made here. *)
Definition sendDeferred (obj : domish.Element) (timeout : nat) : M nat :=
  let* d := defer.Deferred in
  modify (with_proc (λ p, set_deferreds (_deferreds p ++ [d]) p)) ;;
  reactor.callLater timeout d ;;
  send obj ;;
  ret d.

(** *** Outbound operations *)

(** [r.entityId()] on the room object [room]. *)
Definition entityId (room : nat) : M jid.JID :=
  let* r := deref room in
  let* res := lift (Room.entityId r) in
  update room (λ _, res.2) ;;
  ret res.1.

Definition join (server room nick : string) : M nat :=
  let* r := new_room room server nick (Some "joining") in
  _setRoom r ;;
  let* room_obj := deref r in
  let p := BasicPresence (Some (Room.entity_id room_obj)) in
  let* d := sendDeferred p DEFER_TIMEOUT in
  addOnetimeObserver (PresenceFrom (jid.full (Room.entity_id room_obj))) (CbJoinedRoom d) ;;
  ret d.

Definition nick (room_jid : jid.JID) (new_nick : string) : M nat :=
  let* r := _getRoom room_jid in
  match r with
  | None => raise (Exception "Room not found")
  | Some r =>
      update r (Room.set_nick new_nick) ;;
      let* entity_id := entityId r in
      let p := BasicPresence (Some entity_id) in
      let* d := sendDeferred p DEFER_TIMEOUT in
      let* room_obj := deref r in
      addOnetimeObserver (PresenceFrom (jid.full (Room.entity_id room_obj)))
                         (CbChanged d room_jid) ;;
      ret d
  end.

Definition leave (room_jid : jid.JID) : M nat :=
  let* r := _getRoom room_jid in
  match r with
  | None => raise (AttributeError "entity_id")
  | Some r =>
      let* room_obj := deref r in
      let p := xmppim.UnavailablePresence (Some (Room.entity_id room_obj)) in
      let* d := sendDeferred p DEFER_TIMEOUT in
      addOnetimeObserver (PresenceFromUnavailable (jid.full (Room.entity_id room_obj)))
                         (CbLeftRoom d) ;;
      ret d
  end.

Definition status (room_jid : jid.JID) (show status : option string) : M nat :=
  let* r := _getRoom room_jid in
  match r with
  | None => raise (Exception "Room not found")
  | Some r =>
      let* entity_id := entityId r in
      let p := BasicPresence (Some entity_id) in
      let p := match status with
               | Some _ => domish.addElement p "status" None status
               | None => p
               end in
      let p := match show with
               | Some _ => domish.addElement p "show" None show
               | None => p
               end in
      let* d := sendDeferred p DEFER_TIMEOUT in
      let* room_obj := deref r in
      addOnetimeObserver (PresenceFrom (jid.full (Room.entity_id room_obj)))
                         (CbChanged d room_jid) ;;
      ret d
  end.

(** The body of the loop of [history], on one entry. On a dictionary
    the assignment [m['type'] = ...] adds a key and the lookup
    [m['to']] then finds none. *)
Definition history_entry (to : string) (m : ArchiveEntry) : M unit :=
  match m with
  | EntryRecord _ _ => raise (KeyError "to")
  | EntryStanza m =>
      let m := domish.setitem m "type" "groupchat" in
      let* mto := lift (domish.getitem m "to") in
      let m := domish.setitem m "to" to in
      let* stamp := _makeTimeStamp None in
      let d := domish.make_child m "delay" (Some NS_DELAY) None in
      let d := domish.setitem d "stamp" stamp in
      let d := domish.setitem d "from" mto in
      send (domish.addChild m (domish.NElem d))
  end.

Definition history (to : string) (message_list : list ArchiveEntry) : M unit :=
  for_each message_list (history_entry to).

(** *** Events: connection, inbound stanzas, time *)

Definition connectionInitialized : M unit :=
  modify (with_self (set_observing true)) ;;
  call_hook "initialized" [].

Definition run_callback (cb : Callback) (obj : domish.Element) : M unit :=
  match cb with
  | CbJoinedRoom d => _joinedRoom d obj
  | CbChanged d room_jid => _changed d room_jid obj
  | CbLeftRoom d => _leftRoom d obj
  end.

Definition when (b : bool) (m : M unit) : M unit := if b then m else ret tt.

(** Modelled from the spec: the stream hands an inbound stanza to the
    observers it matches (section 6): first the one-time observers,
    registered with priority 1, each of which is then dropped, next the
    five observers of [connectionInitialized]. *)
Definition call_onetime (obj : domish.Element) : M unit :=
  let* pending := gets (λ s, onetime (self s)) in
  modify (with_self (set_onetime (filter (λ o, matches o.1 obj = false) pending))) ;;
  for_each (filter (λ o, matches o.1 obj = true) pending)
           (λ o, protect (run_callback o.2 obj)).

Definition call_observers (obj : domish.Element) : M unit :=
  let* observing := gets (λ s, observing (self s)) in
  when observing (
    when (matches_x_presence obj) (protect (_onXPresence obj)) ;;
    when (matches_unavailable obj) (protect (_onUnavailablePresence obj)) ;;
    when (matches_presence_error obj) (protect (_onPresenceError obj)) ;;
    when (matches_groupchat obj) (protect (_onGroupChat obj)) ;;
    when (matches_subject obj) (protect (_onSubject obj))).

Definition deliver (obj : domish.Element) : M unit :=
  call_onetime obj ;;
  call_observers obj.

(** Modelled from the spec: the scheduler lets [amount] time units
    pass and runs the calls that have fallen due, in order. *)
Definition advance (amount : nat) : M unit :=
  modify (with_proc (λ p, set_seconds (seconds p + amount) p)) ;;
  let* t := gets (λ s, seconds (proc s)) in
  let* calls := gets (λ s, delayed (proc s)) in
  modify (with_proc (set_delayed (filter (λ c, ¬ (c.1 ≤ t)%nat) calls))) ;;
  for_each (filter (λ c, (c.1 ≤ t)%nat) calls) (λ c, protect (onTimeout c.2)).

End WithJID.
End MUCClient.

(** ** An address parser to run the handler on concrete stanzas *)

Module twisted_jid.

(** The parts of [s] before and after the first [c]. *)
Fixpoint split_first (c : ascii) (s : string) : option (string * string) :=
  match s with
  | EmptyString => None
  | String a s' =>
      if bool_decide (a = c) then Some (EmptyString, s')
      else match split_first c s' with
           | Some (before, after) => Some (String a before, after)
           | None => None
           end
  end.

Definition or_None (s : string) : option string :=
  match s with EmptyString => None | _ => Some s end.

Definition parse (jidstring : string) : option string * string * option string :=
  match split_first "/" jidstring with
  | None =>
      match split_first "@" jidstring with
      | None => (None, jidstring, None)
      | Some (u, h) => (or_None u, h, None)
      end
  | Some (before, res) =>
      match split_first "@" before with
      | Some (u, h) => (or_None u, h, or_None res)
      | None => (None, before, or_None res)
      end
  end.

(** Modelled from the spec: the Jabber ID facility the handler relies on
    (parse and normalise [local@domain/resource], section 6). The local
    part and the domain are case-folded, the resource is kept as it
    is, and an address without a domain is refused. *)
Definition internJID (jidstring : string) : Res jid.JID :=
  let '(u, h, r) := parse jidstring in
  match h with
  | EmptyString => Raise (InvalidFormat jidstring)
  | _ => Ok (jid.mk (lower <$> u) (lower h) r)
  end.

End twisted_jid.

#[export] Instance twisted_facility : jid.Facility :=
  {| jid.internJID := twisted_jid.internJID |}.

(** ** Fixtures: the room, addresses and stanzas of the test suite *)

Module fixtures.

Definition roomIdentifier : string := "test".
Definition service : string := "conference.example.org".
Definition nick : string := "Nick".
Definition occupantJID : jid.JID := jid.mk (Some "test") service (Some "Nick").
Definition roomJID : jid.JID := jid.mk (Some "test") service None.
Definition userJID : jid.JID := jid.mk (Some "test") "example.org" (Some "Testing").

Definition clock : datetime.t := datetime.mk 2009 3 14 15 9 26.

Definition start : State := mkState (initial_process clock) new_handler.

(** A handler that went through [connectionInitialized]. *)
Definition connected : State := (MUCClient.connectionInitialized start).2.

(** The state [_createRoom] of the test suite sets up: the room
    registered, as [Room(roomIdentifier, service, nick)]. *)
Definition createRoom : M unit :=
  let* r := MUCClient.new_room roomIdentifier service nick None in
  MUCClient._setRoom r.

Definition element (name : string) (uri : option string)
    (attrs : list (string * string)) (children : list domish.Node) : domish.Element :=
  domish.Elem name uri (list_to_map attrs) children.

(** [<presence from=... type='error'><error type='auth'><forbidden/></error></presence>] *)
Definition forbidden (frm : string) : domish.Element :=
  element "presence" None [("from", frm); ("type", "error")]
    [domish.NElem (element "error" None [("type", "auth")]
      [domish.NElem (element "forbidden" (Some "urn:ietf:params:xml:ns:xmpp-stanzas") [] [])])].

(** The presence the service echoes on a join. *)
Definition joined (frm : string) : domish.Element :=
  element "presence" None [("from", frm)]
    [domish.NElem (element "x" (Some NS_MUC_USER) []
      [domish.NElem (element "item" (Some NS_MUC_USER)
                       [("affiliation", "member"); ("role", "participant")] [])])].

(** The same with the status code of a room that was just created. *)
Definition created (frm : string) : domish.Element :=
  element "presence" None [("from", frm)]
    [domish.NElem (element "x" (Some NS_MUC_USER) []
      [domish.NElem (element "item" (Some NS_MUC_USER)
                       [("affiliation", "owner"); ("role", "moderator")] []);
       domish.NElem (element "status" (Some NS_MUC_USER) [("code", "201")] [])])].

(** [<presence to=... from=... type='unavailable'/>] *)
Definition unavailable (frm : string) : domish.Element :=
  element "presence" None
    [("to", jid.full userJID); ("from", frm); ("type", "unavailable")] [].

Definition groupchat (frm : string) (children : list domish.Node) : domish.Element :=
  element "message" None [("to", "test@test.com"); ("from", frm); ("type", "groupchat")]
    children.

Definition body (s : string) : domish.Node :=
  domish.NElem (element "body" None [] [domish.NText s]).
Definition subject (s : string) : domish.Node :=
  domish.NElem (element "subject" None [] [domish.NText s]).

(** The room set up on a connected handler, and with the occupant
    [Nick] in its roster. *)
Definition room_ready : State := (createRoom connected).2.
Definition with_user : State :=
  (MUCClient.update 0 (λ r, Room.addUser r (User.init nick)) room_ready).2.

(** The same handler once the host has given it a [receivedGroupChat],
    as [test_receivedGroupChat] does. *)
Definition hosted (s : State) : State := with_self (set_has_receivedGroupChat true) s.

(** A connected handler with a join to another room under way. *)
Definition busy : State := (MUCClient.join service "other" nick connected).2.

(** A second handler of the same process, and the state as that handler
    sees it: what the class holds is common to both. *)
Definition other_handler : Handler := new_handler.
Definition seen_by (h : Handler) (s : State) : State := mkState (proc s) h.

(** The archive of one-to-one messages of [test_oneToOneChat]. *)
Definition archived1 : domish.Element :=
  element "message" None [("to", "testing@example.com"); ("type", "chat")] [body "test"].
Definition archived2 : domish.Element :=
  element "message" None [("to", "testing2@example.com"); ("type", "chat")] [body "yo"].
Definition stamp1 : datetime.t := datetime.mk 2002 10 13 23 58 37.
Definition stamp2 : datetime.t := datetime.mk 2002 10 13 23 58 43.

(** A [delay] child as the service sends it with the history of a room. *)
Definition delay (stamp frm : string) : domish.Node :=
  domish.NElem (element "delay" (Some NS_DELAY) [("stamp", stamp); ("from", frm)] []).

(** The roster of the room at address [room] of the store. *)
Definition roster_of (room : nat) (s : State) : option (list (string * User.t)) :=
  (λ r, map_to_list (Room.roster r)) <$> room_store (proc s) !! room.

(** The [delay] child of a stanza that was sent: its [stamp] and [from]. *)
Definition delay_of (e : domish.Element) : option (option string * option string) :=
  (λ d, (domish.getAttribute d "stamp", domish.getAttribute d "from"))
    <$> domish.child e "delay".

End fixtures.

(** ** Predicates of the properties *)

(** Every key of the roster is the lower-cased nickname of its occupant. *)
Definition roster_keys_lowered (r : Room.t) : Prop :=
  map_Forall (λ k u, k = lower (User.nick u)) (Room.roster r).

(** Two spellings of one nickname: they differ in letter case only. *)
Definition same_nickname (n1 n2 : string) : Prop := lower n1 = lower n2.

(** The deferred a one-time observer calls. *)
Definition callback_deferred (cb : Callback) : nat :=
  match cb with
  | CbJoinedRoom d | CbChanged d _ | CbLeftRoom d => d
  end.

(** Every deferred the class list or the reactor refers to is in the
    store: no reference dangles. *)
Definition store_closed (p : Process) : Prop :=
  Forall (λ d, d < length (deferred_store p)) (_deferreds p)
  ∧ Forall (λ c : nat * nat, c.2 < length (deferred_store p)) (delayed p).

(** The same with the deferreds the observers of the handler call. *)
Definition state_closed (s : State) : Prop :=
  store_closed (proc s)
  ∧ Forall (λ o : Pattern * Callback,
              callback_deferred o.2 < length (deferred_store (proc s)))
           (onetime (self s)).

(** The occurrences of [d] in the list of deferreds, and the calls of the
    reactor that are the [onTimeout] of [d]. *)
Definition occurrences (d : nat) (l : list nat) : list nat := filter (λ x, x = d) l.
Definition calls_for (d : nat) (l : list (nat * nat)) : list (nat * nat) :=
  filter (λ c, c.2 = d) l.

(** What [onTimeout] fails a deferred with. *)
Definition timed_out : Outcome := Failure (VExn (TimeoutError "Timeout waiting for response.")).

(** The state the [onTimeout] of [d] leaves when it has found [d] once
    and uncalled: [l] is what is left of the list. *)
Definition after_timeout (d : nat) (l : list nat) (s : State) : State :=
  with_proc (λ p,
    set_delayed (filter (λ c, c.2 ≠ d) (delayed p))
      (set_deferred_store (<[d := Some timed_out]> (deferred_store p))
        (set_deferreds l p))) s.

(** One step of the stream or the reactor running a list of callbacks. *)
Definition run_protected {A} (g : A → M unit) (s : State) (c : A) : State := (protect (g c) s).2.

(** The room a join creates and the state a join leaves. *)
Definition joining_room (server room nick : string) (j : jid.JID) : Room.t :=
  Room.mk (Some "joining") room server nick (Room.StatusInt 0) j ∅.

Definition after_join (server room nick : string) (j : jid.JID) (s : State) : State :=
  let r := length (room_store (proc s)) in
  let d := length (deferred_store (proc s)) in
  mkState
    (mkProcess (<[lower (jid.userhost j) := r]> (rooms (proc s)))
               (_deferreds (proc s) ++ [d])
               (room_store (proc s) ++ [joining_room server room nick j])
               (deferred_store (proc s) ++ [None])
               (seconds (proc s))
               (reactor.insert_call (seconds (proc s) + DEFER_TIMEOUT, d) (delayed (proc s)))
               (now (proc s)) (errlog (proc s)))
    (mkHandler (output (self s) ++ [BasicPresence (Some j)])
               (observing (self s))
               (onetime (self s) ++ [(PresenceFrom (jid.full j), CbJoinedRoom d)])
               (hooks (self s))
               (has_receivedGroupChat (self s))).

(** The [status] child of the MUC extension of a presence, and the room
    once [_joinedRoom] has gone through it. *)
Definition echo_status (prs : domish.Element) : option domish.Element :=
  domish.child prs "x" ≫= (λ x, domish.child x "status").

Definition joined_room (prs : domish.Element) (r : Room.t) : Room.t :=
  let r := Room.set_state (Some "joined") r in
  match echo_status prs with
  | Some status => Room.set_status (Room.StatusCode (domish.getAttribute status "code")) r
  | None => r
  end.

(** A computation that never raises. *)
Definition returns (m : M unit) : Prop := ∀ s, (m s).1 = Ok tt.

(** [m] takes every state to one that [R] relates to it. *)
Definition keeps (R : State → State → Prop) {A} (m : M A) : Prop :=
  ∀ s, R s (m s).2.

(** The relations the lemmas on [keeps] are about: they hold between a
    state and itself, compose, and look neither at the hooks that were
    called nor at the error log. *)
Class Frame (R : State → State → Prop) : Prop := {
  frame_refl : ∀ s, R s s;
  frame_trans : ∀ s1 s2 s3, R s1 s2 → R s2 s3 → R s1 s3;
  frame_hooks : ∀ s l, R s (with_self (set_hooks l) s);
  frame_log : ∀ s l, R s (with_proc (set_errlog l) s)
}.

(** What the roster and message handlers leave alone: the deferreds, the
    reactor, the registry, the pending observers, and the state and
    status of every room. *)
Definition reply_frame (s s' : State) : Prop :=
  deferred_store (proc s') = deferred_store (proc s)
  ∧ _deferreds (proc s') = _deferreds (proc s)
  ∧ delayed (proc s') = delayed (proc s)
  ∧ seconds (proc s') = seconds (proc s)
  ∧ rooms (proc s') = rooms (proc s)
  ∧ onetime (self s') = onetime (self s)
  ∧ ∀ a r, room_store (proc s) !! a = Some r →
      ∃ r', room_store (proc s') !! a = Some r'
            ∧ Room.state r' = Room.state r ∧ Room.status r' = Room.status r.

(** A step that leaves no reference to a deferred dangling. *)
Definition closed_step (s s' : State) : Prop :=
  state_closed s → state_closed s'.

(** What a step that has nothing to do with the deferred [d] leaves
    alone, as long as time stands still: whether [d] was called and with
    what, its place in the list of pending deferreds, its call in the
    reactor; and the step adds no observer that calls [d]. *)
Definition waits (d : nat) (s s' : State) : Prop :=
  d < length (deferred_store (proc s)) →
  d < length (deferred_store (proc s'))
  ∧ deferred_store (proc s') !! d = deferred_store (proc s) !! d
  ∧ occurrences d (_deferreds (proc s')) = occurrences d (_deferreds (proc s))
  ∧ calls_for d (delayed (proc s')) = calls_for d (delayed (proc s))
  ∧ seconds (proc s') = seconds (proc s)
  ∧ ∀ o : Pattern * Callback,
      o ∈ onetime (self s') → callback_deferred o.2 = d → o ∈ onetime (self s).

(** What can happen to a handler: a call of one of its operations, a
    stanza coming in, time passing. *)
Inductive Event : Type :=
  | Connect
  | Join (server room nick : string)
  | Nick (room_jid : jid.JID) (new_nick : string)
  | Leave (room_jid : jid.JID)
  | Status (room_jid : jid.JID) (show status : option string)
  | History (to : string) (message_list : list ArchiveEntry)
  | Deliver (obj : domish.Element)
  | Advance (amount : nat).

Definition run `{jid.Facility} (ev : Event) (s : State) : State :=
  match ev with
  | Connect => (MUCClient.connectionInitialized s).2
  | Join server room nick => (MUCClient.join server room nick s).2
  | Nick room_jid new_nick => (MUCClient.nick room_jid new_nick s).2
  | Leave room_jid => (MUCClient.leave room_jid s).2
  | Status room_jid show status => (MUCClient.status room_jid show status s).2
  | History to message_list => (MUCClient.history to message_list s).2
  | Deliver obj => (MUCClient.deliver obj s).2
  | Advance amount => (MUCClient.advance amount s).2
  end.

Definition run_all `{jid.Facility} (trace : list Event) (s : State) : State :=
  foldl (λ s ev, run ev s) s trace.

(** The states a handler of a new process gets to. *)
Inductive reachable `{jid.Facility} : State → Prop :=
  | reachable_start (clock : datetime.t) (hosted : bool) :
      reachable (mkState (initial_process clock)
                         (set_has_receivedGroupChat hosted new_handler))
  | reachable_run (ev : Event) (s : State) :
      reachable s → reachable (run ev s).

(** The time that passes in a trace. *)
Definition elapsed (trace : list Event) : nat :=
  foldr (λ ev t, match ev with Advance amount => amount + t | _ => t end) 0 trace.

(** An event that is not the arrival of a stanza the observer [q] is
    called on. *)
Definition no_reply (q : Pattern) (ev : Event) : Prop :=
  match ev with
  | Deliver obj => matches q obj = false
  | _ => True
  end.

(** What holds of the deferred [d] of a join made at time [t0] once [t]
    more time units have passed without a reply: before the timeout it
    is uncalled, pending and has its call in the reactor; from the
    timeout on it is failed and gone from both. Throughout, only the
    observer [q] of the join calls it. *)
Definition awaiting (d : nat) (q : Pattern) (t0 t : nat) (s : State) : Prop :=
  d < length (deferred_store (proc s))
  ∧ seconds (proc s) = t0 + t
  ∧ (∀ o : Pattern * Callback,
       o ∈ onetime (self s) → callback_deferred o.2 = d → o.1 = q)
  ∧ (t < DEFER_TIMEOUT →
       deferred_store (proc s) !! d = Some None
       ∧ occurrences d (_deferreds (proc s)) = [d]
       ∧ calls_for d (delayed (proc s)) = [(t0 + DEFER_TIMEOUT, d)])
  ∧ (DEFER_TIMEOUT ≤ t →
       deferred_store (proc s) !! d = Some (Some timed_out)
       ∧ occurrences d (_deferreds (proc s)) = []
       ∧ calls_for d (delayed (proc s)) = []).


(** ** Error conditions, message and presence stanzas *)

Module error.

(** Modelled from the spec: the generic stanza error (section 6) a MUC
    error extends, with its condition, its text and its
    application-specific condition element. (The library derives the
    error type from the condition.) *)
Record StanzaError : Type := mk {
  condition : string;
  text : option string;
  appCondition : option domish.Element
}.

End error.

Module muc.

(** [del e[k]], which raises [KeyError] on a missing attribute. *)
Definition delitem (e : domish.Element) (k : string) : Res domish.Element :=
  match domish.attributes e !! k with
  | Some _ =>
      Ok (domish.Elem (domish.name e) (domish.uri e) (delete k (domish.attributes e))
                      (domish.children e))
  | None => Raise (KeyError k)
  end.

(** A change made through [e.<key>], the reference to the first child
    element of that name: the change shows in the parent. *)
Fixpoint alter_child (f : domish.Element → domish.Element) (key : string)
    (l : list domish.Node) : list domish.Node :=
  match l with
  | [] => []
  | domish.NElem c :: l' =>
      if bool_decide (domish.name c = key) then domish.NElem (f c) :: l'
      else domish.NElem c :: alter_child f key l'
  | domish.NText t :: l' => domish.NText t :: alter_child f key l'
  end.

(** [MUCError(condition, mucCondition, feature, text)], with
    [mucCondition] the name of the application condition. *)
Definition MUCError (condition mucCondition : string) (feature text : option string)
    : error.StanzaError :=
  let appCondition := domish.new (Some NS_MUC) mucCondition in
  let appCondition :=
    if truthy feature then domish.setitem appCondition "feature" (default "" feature)
    else appCondition in
  error.mk condition text (Some appCondition).

(** [BadRequest(mucCondition, text)] hands [text] on in third place. *)
Definition BadRequest (mucCondition : string) (text : option string) : error.StanzaError :=
  MUCError "bad-request" mucCondition text None.

Definition Unsupported (feature : option string) (text : option string)
    : error.StanzaError :=
  MUCError "feature-not-implemented" "unsupported" feature text.

(** The [to] of a [GroupChat]: a [jid.JID] or an address already
    written out. *)
Inductive Address : Type :=
  | AddrJID (j : jid.JID)
  | AddrStr (s : string).

(** [GroupChat(to, body, subject, frm)] *)
Definition GroupChat (to : Address) (body subject frm : option string) : domish.Element :=
  let e := domish.new None "message" in
  let e := domish.setitem e "type" "groupchat" in
  let e := domish.setitem e "to"
             (match to with AddrJID j => jid.userhost j | AddrStr s => s end) in
  let e := if truthy frm then domish.setitem e "from" (default "" frm) else e in
  let e := if truthy body then domish.addElement e "body" None body else e in
  if truthy subject then domish.addElement e "subject" None subject else e.

(** [PrivateChat(to, body, frm)], with [to] a string. *)
Definition PrivateChat (to : string) (body frm : option string) : domish.Element :=
  let e := domish.new None "message" in
  let e := domish.setitem e "type" "chat" in
  let e := domish.setitem e "to" to in
  let e := if truthy frm then domish.setitem e "from" (default "" frm) else e in
  if truthy body then domish.addElement e "body" None body else e.

(** [InviteMessage(to, reason, full_jid, body, frm, password)] *)
Definition InviteMessage (to : string) (reason full_jid body frm password : option string)
    : Res domish.Element :=
  let? e := delitem (PrivateChat to body frm) "type" in
  let x := domish.make_child e "x" (Some NS_MUC_USER) None in
  let invite := domish.make_child x "invite" None None in
  let invite :=
    if truthy full_jid then domish.setitem invite "to" (default "" full_jid) else invite in
  let invite :=
    if truthy reason then domish.addElement invite "reason" None reason else invite in
  let invite :=
    if truthy password then domish.addElement invite "password" None password else invite in
  Ok (domish.addChild e (domish.NElem (domish.addChild x (domish.NElem invite)))).

(** [HistoryMessage(to, stamp, body, subject, frm, h_frm)] *)
Definition HistoryMessage (to : Address) (stamp : string)
    (body subject frm h_frm : option string) : domish.Element :=
  let e := GroupChat to body subject frm in
  let d := domish.make_child e "delay" (Some NS_DELAY) None in
  let d := domish.setitem d "stamp" stamp in
  let d := if truthy h_frm then domish.setitem d "from" (default "" h_frm) else d in
  domish.addChild e (domish.NElem d).

(** [UserPresence(to, type, frm, affiliation, role)] *)
Definition UserPresence (to : option jid.JID) (type frm affiliation role : option string)
    : domish.Element :=
  let e := xmppim.Presence to type in
  let e := if truthy frm then domish.setitem e "from" (default "" frm) else e in
  let x := domish.make_child e "x" (Some NS_MUC_USER) None in
  let x :=
    if truthy affiliation then domish.setitem x "affiliation" (default "" affiliation)
    else x in
  let x := if truthy role then domish.setitem x "role" (default "" role) else x in
  domish.addChild e (domish.NElem x).

(** [PasswordPresence(to, password)]: the password goes into the child
    [self.x] of the presence. *)
Definition PasswordPresence (to : jid.JID) (password : string) : Res domish.Element :=
  let e := BasicPresence (Some to) in
  match domish.child e "x" with
  | None => Raise (AttributeError "addElement")
  | Some _ =>
      Ok (domish.Elem (domish.name e) (domish.uri e) (domish.attributes e)
            (alter_child (λ x, domish.addElement x "password" None (Some password)) "x"
                         (domish.children e)))
  end.

(** [PresenceError(error, to, frm)] *)
Definition PresenceError (error : domish.Element) (to : option jid.JID)
    (frm : option string) : domish.Element :=
  let e := xmppim.Presence to (Some "error") in
  let e := if truthy frm then domish.setitem e "from" (default "" frm) else e in
  let e := domish.addElement e "x" (Some NS_MUC) None in
  domish.addChild e (domish.NElem error).

End muc.

(** ** [MUCClient], continued: the operations that await nothing *)

Module Messaging.

(** [_sendMessage(msg, children)], with [children] elements. *)
Definition _sendMessage (msg : domish.Element) (children : option (list domish.Element))
    : M unit :=
  let msg :=
    match children with
    | Some (c :: l) => foldl (λ m c, domish.addChild m (domish.NElem c)) msg (c :: l)
    | _ => msg
    end in
  MUCClient.send msg.

Definition groupChat (to : muc.Address) (message : string)
    (children : option (list domish.Element)) : M unit :=
  _sendMessage (muc.GroupChat to (Some message) None None) children.

Definition chat (to : string) (message : string) (children : option (list domish.Element))
    : M unit :=
  _sendMessage (muc.PrivateChat to (Some message) None) children.

Definition invite (to : string) (reason full_jid : option string) : M unit :=
  let* msg := lift (muc.InviteMessage to reason full_jid None None None) in
  _sendMessage msg None.

Definition password (to : jid.JID) (password : string) : M unit :=
  let* p := lift (muc.PasswordPresence to password) in
  MUCClient.send p.

Definition subject (to : muc.Address) (subject : string) : M unit :=
  MUCClient.send (muc.GroupChat to None (Some subject) None).

End Messaging.

(** ** A stricter address parser *)

Module strict_jid.

(** The preparation of addresses in the library also refuses characters
    that are not allowed in an address: here, the control characters. *)
Fixpoint has_control (s : string) : bool :=
  match s with
  | EmptyString => false
  | String a s' => (nat_of_ascii a <? 32)%nat || has_control s'
  end.

Definition internJID (jidstring : string) : Res jid.JID :=
  if has_control jidstring then Raise (InvalidFormat jidstring)
  else twisted_jid.internJID jidstring.

Definition facility : jid.Facility := {| jid.internJID := internJID |}.

End strict_jid.

(** ** Predicates of the further properties *)

(** The state once a hook was called. *)
Definition hook_called (name : string) (args : list Value) (s : State) : State :=
  with_self (λ h, set_hooks (hooks h ++ [Hook name args]) h) s.

(** The state once stanzas were sent. *)
Definition sent (stanzas : list domish.Element) (s : State) : State :=
  with_self (λ h, set_output (output h ++ stanzas) h) s.

(** The key of the registry for an address. *)
Definition room_key (room_jid : jid.JID) : string := lower (jid.userhost room_jid).

(** A stanza as the room relays it: with the address of the occupant
    that sent it as its [from]. *)
Definition relayed (frm : string) (msg : domish.Element) : domish.Element :=
  domish.setitem msg "from" frm.

(** A step that takes no deferred from the list of pending deferreds. *)
Definition pending_grows (s s' : State) : Prop :=
  _deferreds (proc s) `prefix_of` _deferreds (proc s').
(** * Properties *)

(** ** The roster *)

Lemma getUser_addUser (r : Room.t) (u : User.t) (n : string) :
  same_nickname (User.nick u) n →
  Room.getUser (Room.addUser r u) (Some n) = Ok (Some u).
Proof.
  unfold same_nickname. intros Hn. cbn. rewrite <- Hn.
  by rewrite lookup_insert_eq.
Qed.

Lemma addUser_keys_lowered (r : Room.t) (u : User.t) :
  roster_keys_lowered r → roster_keys_lowered (Room.addUser r u).
Proof.
  unfold roster_keys_lowered. cbn. intros Hr.
  by apply map_Forall_insert_2.
Qed.

Lemma removeUser_keys_lowered (r : Room.t) (u : User.t) :
  roster_keys_lowered r → roster_keys_lowered (Room.removeUser r u).
Proof.
  unfold roster_keys_lowered, Room.removeUser. intros Hr.
  destruct (Room.inRoster r u); [| done]. cbn.
  by apply map_Forall_delete.
Qed.

Lemma init_keys_lowered `{jid.Facility} (name server nick : string)
    (state : option string) (r : Room.t) :
  Room.init name server nick state = Ok r → roster_keys_lowered r.
Proof.
  unfold Room.init, res_bind. destruct (jid.internJID _); [| done].
  intros [= <-]. unfold roster_keys_lowered. cbn. apply map_Forall_empty.
Qed.

(** C8: an occupant added under one spelling of a nickname is found under
    any other spelling that differs in letter case only; and the roster of
    a new room, and every roster [addUser] or [removeUser] leaves, has
    only lower-cased nicknames of its occupants as keys. *)
Theorem C8_roster_case_insensitive :
  (∀ (r : Room.t) (u : User.t) (n : string),
     same_nickname (User.nick u) n →
     Room.getUser (Room.addUser r u) (Some n) = Ok (Some u))
  ∧ (∀ (F : jid.Facility) name server nick state r,
       Room.init name server nick state = Ok r → roster_keys_lowered r)
  ∧ (∀ (r : Room.t) (u : User.t),
       roster_keys_lowered r →
       roster_keys_lowered (Room.addUser r u) ∧ roster_keys_lowered (Room.removeUser r u)).
Proof.
  split; [exact getUser_addUser |].
  split; [intros F; exact (@init_keys_lowered F) |].
  intros r u Hr. split; [by apply addUser_keys_lowered | by apply removeUser_keys_lowered].
Qed.

Lemma C8_roster_case_insensitive_witness :
  let r := Room.mk None "test" "conference.example.org" "Nick"
             (Room.StatusInt 0) fixtures.occupantJID ∅ in
  let u := User.init "Nick" in
  Room.getUser (Room.addUser r u) (Some "nICK") = Ok (Some u)
  ∧ roster_keys_lowered r
  ∧ roster_keys_lowered (Room.addUser r u)
  ∧ roster_keys_lowered (Room.removeUser (Room.addUser r u) u).
Proof.
  intros r u. destruct C8_roster_case_insensitive as (Hfound & Hinit & Hkept).
  assert (Hr : roster_keys_lowered r).
  { apply (Hinit twisted_facility "test" "conference.example.org" "Nick" None).
    vm_compute. reflexivity. }
  split; [apply Hfound; reflexivity|].
  split; [exact Hr|].
  split; [apply Hkept, Hr | apply Hkept, Hkept, Hr].
Defined.

(** ** Operations on a room that is not registered *)

(** C6: [nick] and [status] on a room that is not in the registry raise
    "Room not found" at once; nothing is sent and nothing else changes. *)
Theorem C6_nick_status_room_not_found `{jid.Facility} (s : State) (room_jid : jid.JID)
    (new_nick : string) (show status : option string) :
  rooms (proc s) !! lower (jid.userhost room_jid) = None →
  MUCClient.nick room_jid new_nick s = (Raise (Exception "Room not found"), s)
  ∧ MUCClient.status room_jid show status s = (Raise (Exception "Room not found"), s).
Proof.
  intros Hroom.
  unfold MUCClient.nick, MUCClient.status, MUCClient._getRoom, bind, gets, raise.
  by rewrite Hroom.
Qed.

Lemma C6_nick_status_room_not_found_witness :
  MUCClient.nick fixtures.roomJID "newNick" fixtures.connected
    = (Raise (Exception "Room not found"), fixtures.connected)
  ∧ MUCClient.status fixtures.roomJID (Some "xa") (Some "testing MUC") fixtures.connected
    = (Raise (Exception "Room not found"), fixtures.connected).
Proof.
  apply C6_nick_status_room_not_found. reflexivity.
Defined.

(** C10: [leave] on a room that is not in the registry raises the
    attribute error of [r.entity_id] on [None]: the caller gets an
    exception, no deferred is made and nothing is sent. *)
Theorem C10_leave_unknown_room_raises `{jid.Facility} (s : State) (room_jid : jid.JID) :
  rooms (proc s) !! lower (jid.userhost room_jid) = None →
  MUCClient.leave room_jid s = (Raise (AttributeError "entity_id"), s).
Proof.
  intros Hroom.
  unfold MUCClient.leave, MUCClient._getRoom, bind, gets, raise.
  by rewrite Hroom.
Qed.

Lemma C10_leave_unknown_room_raises_witness :
  MUCClient.leave fixtures.roomJID fixtures.connected
  = (Raise (AttributeError "entity_id"), fixtures.connected).
Proof.
  apply C10_leave_unknown_room_raises. reflexivity.
Defined.

(** ** The handler on the stanzas of the test suite *)

Section Scenarios.
Import fixtures.

(** C1: after a join, an error presence from the bare room address does
    not reach the deferred of the join, which stays uncalled: the
    one-time observer is registered on the full occupant address only.
    Sent from the occupant address, the error fails the deferred with
    the presence element itself. *)
Theorem C1_join_error_from_room_jid_leaves_join_pending :
  ∃ s1 : State,
    MUCClient.join service roomIdentifier nick connected = (Ok 0, s1)
    ∧ onetime (self s1) = [(PresenceFrom "test@conference.example.org/Nick", CbJoinedRoom 0)]
    ∧ deferred_store (proc s1) !! 0 = Some None
    ∧ deferred_store (proc (MUCClient.deliver (forbidden (jid.full roomJID)) s1).2) !! 0
      = Some None
    ∧ deferred_store (proc (MUCClient.deliver (forbidden (jid.full occupantJID)) s1).2) !! 0
      = Some (Some (Failure (VElement (forbidden (jid.full occupantJID))))).
Proof.
  exists (MUCClient.join service roomIdentifier nick connected).2.
  repeat split; vm_compute; reflexivity.
Qed.

(** C2: on a subject message from an occupant of a registered room,
    [receivedSubject] is called with two arguments, the address of the
    sender and the text of the subject; neither the room object nor
    the occupant is passed. *)
Theorem C2_receivedSubject_gets_sender_address_and_text :
  (λ r, Room.getUser r (Some nick)) <$> room_store (proc with_user) !! 0
    = Some (Ok (Some (User.init nick)))
  ∧ hooks (self (MUCClient.deliver
                   (groupchat (jid.full occupantJID) [subject "test"]) with_user).2)
    = (hooks (self with_user) ++ [Hook "receivedSubject" [VJID occupantJID; VStr "test"]])%list.
Proof.
  split; vm_compute; reflexivity.
Qed.

(** C3: a room registered by a join on one handler is found by the
    lookup of another handler of the same process. *)
Theorem C3_room_joined_on_one_handler_seen_by_other :
  (MUCClient._getRoom roomJID (seen_by other_handler start)).1 = Ok None
  ∧ (MUCClient._getRoom roomJID
       (seen_by other_handler (MUCClient.join service roomIdentifier nick start).2)).1
    = Ok (Some 0).
Proof.
  split; vm_compute; reflexivity.
Qed.

(** C4: [history] stamps each message it resends with the reading of the
    clock at the time of the call, whatever the time the message was
    exchanged; on the archive records that carry that time it raises
    before anything is sent. *)
Theorem C4_history_stamps_with_current_time :
  now (proc connected) = datetime.mk 2009 3 14 15 9 26
  ∧ delay_of <$> output (self (MUCClient.history (jid.full roomJID)
                                 [EntryStanza archived1; EntryStanza archived2] connected).2)
    = [Some (Some "20090314T15:09:26", Some "testing@example.com");
       Some (Some "20090314T15:09:26", Some "testing2@example.com")]
  ∧ datetime.strftime_compact stamp1 = "20021013T23:58:37"
  ∧ MUCClient.history (jid.full roomJID)
      [EntryRecord archived1 stamp1; EntryRecord archived2 stamp2] connected
    = (Raise (KeyError "to"), connected).
Proof.
  repeat split; vm_compute; reflexivity.
Qed.

(** C5: on a groupchat message from the bare address of a registered
    room, [_onGroupChat] raises the attribute error of [nick.lower()] on
    [None]; no hook is called. *)
Theorem C5_groupchat_from_room_raises :
  MUCClient._onGroupChat (groupchat (jid.full roomJID) [body "test"]) room_ready
    = (Raise (AttributeError "lower"), room_ready)
  ∧ hooks (self (MUCClient.deliver (groupchat (jid.full roomJID) [body "test"]) room_ready).2)
    = hooks (self room_ready)
  ∧ errlog (proc (MUCClient.deliver (groupchat (jid.full roomJID) [body "test"]) room_ready).2)
    = [AttributeError "lower"].
Proof.
  repeat split; vm_compute; reflexivity.
Qed.

End Scenarios.

(** ** Running protected callbacks *)

Lemma protect_returns (m : M unit) (s : State) : protect m s = (Ok tt, (protect m s).2).
Proof. unfold protect. by destruct (m s) as [[[]|e] s']. Qed.

Lemma returns_protect (m : M unit) : returns (protect m).
Proof. intros s. by rewrite protect_returns. Qed.

Lemma returns_when (b : bool) (m : M unit) : returns m → returns (MUCClient.when b m).
Proof. intros Hm. by destruct b. Qed.

Lemma returns_bind (m : M unit) (k : unit → M unit) :
  returns m → (∀ u, returns (k u)) → returns (bind m k).
Proof.
  intros Hm Hk s. unfold bind. specialize (Hm s).
  destruct (m s) as [[u|e] s1]; [apply Hk | done].
Qed.

Lemma for_each_protect {A} (g : A → M unit) (l : list A) (s : State) :
  for_each l (λ c, protect (g c)) s = (Ok tt, foldl (run_protected g) s l).
Proof.
  revert s. induction l as [|c l IH]; intros s; [done|].
  cbn. unfold bind. rewrite protect_returns. apply IH.
Qed.

(** ** Relations every step of a computation keeps *)

Section Keeps.
Context (R : State → State → Prop) `{!Frame R}.

Lemma keeps_ret {A} (a : A) : keeps R (ret a).
Proof. intros s. apply frame_refl. Qed.

Lemma keeps_raise {A} (e : Exn) : keeps R (raise (A := A) e).
Proof. intros s. apply frame_refl. Qed.

Lemma keeps_lift {A} (r : Res A) : keeps R (lift r).
Proof. intros s. apply frame_refl. Qed.

Lemma keeps_gets {A} (f : State → A) : keeps R (gets f).
Proof. intros s. apply frame_refl. Qed.

Lemma keeps_bind {A B} (m : M A) (k : A → M B) :
  keeps R m → (∀ a, keeps R (k a)) → keeps R (bind m k).
Proof.
  intros Hm Hk s. unfold bind. specialize (Hm s).
  destruct (m s) as [[a|e] s1]; [|exact Hm].
  eapply frame_trans; [exact Hm | apply Hk].
Qed.

Lemma keeps_when (b : bool) (m : M unit) : keeps R m → keeps R (MUCClient.when b m).
Proof. intros Hm. destruct b; [exact Hm | apply keeps_ret]. Qed.

Lemma keeps_protect (m : M unit) : keeps R m → keeps R (protect m).
Proof.
  intros Hm s. unfold protect. specialize (Hm s).
  destruct (m s) as [[[]|e] s1]; [exact Hm|].
  eapply frame_trans; [exact Hm | exact (frame_log s1 (errlog (proc s1) ++ [e]))].
Qed.

Lemma keeps_for_each {A} (l : list A) (body : A → M unit) :
  (∀ x, keeps R (body x)) → keeps R (for_each l body).
Proof.
  intros Hbody. induction l as [|x l IH]; [apply keeps_ret|].
  cbn. apply keeps_bind; [apply Hbody | intros _; exact IH].
Qed.

Lemma keeps_for_each_Forall {A} (l : list A) (body : A → M unit) :
  Forall (λ x, keeps R (body x)) l → keeps R (for_each l body).
Proof.
  induction 1 as [|x l Hx Hl IH]; [apply keeps_ret|].
  cbn. apply keeps_bind; [exact Hx | intros _; exact IH].
Qed.

Lemma keeps_call_hook (name : string) (args : list Value) :
  keeps R (MUCClient.call_hook name args).
Proof. intros s. exact (frame_hooks s (hooks (self s) ++ [Hook name args])). Qed.

Lemma keeps_receivedGroupChat (args : list Value) :
  keeps R (MUCClient.receivedGroupChat args).
Proof.
  unfold MUCClient.receivedGroupChat. apply keeps_bind; [apply keeps_gets|].
  intros []; [apply keeps_call_hook | apply keeps_raise].
Qed.

Lemma keeps_foldl {A} (g : A → M unit) (l : list A) (s : State) :
  (∀ x, keeps R (g x)) → R s (foldl (run_protected g) s l).
Proof.
  intros Hg. revert s. induction l as [|x l IH]; intros s; [apply frame_refl|].
  cbn [foldl]. eapply frame_trans; [|apply IH]. by apply keeps_protect.
Qed.

Lemma keeps_foldl_Forall {A} (g : A → M unit) (l : list A) (s : State) :
  Forall (λ x, keeps R (g x)) l → R s (foldl (run_protected g) s l).
Proof.
  intros Hg. revert s. induction Hg as [|x l Hx Hl IH]; intros s; [apply frame_refl|].
  cbn [foldl]. eapply frame_trans; [|apply IH]. by apply keeps_protect.
Qed.

End Keeps.

(** ** Lists of deferreds and of calls *)

Lemma occurrences_delete_ne (d x : nat) (l : list nat) (i : nat) :
  l !! i = Some x → x ≠ d → occurrences d (delete i l) = occurrences d l.
Proof.
  unfold occurrences. revert i. induction l as [|y l IH]; intros [|i] Hi Hx; try done.
  - injection Hi as ->. change (delete 0 (x :: l)) with l.
    by rewrite filter_cons_False.
  - change (delete (S i) (y :: l)) with (y :: delete i l).
    change ((y :: l) !! S i) with (l !! i) in Hi.
    destruct (decide (y = d)) as [->|Hy].
    + rewrite !filter_cons_True by done. f_equal. by apply IH.
    + rewrite !filter_cons_False by done. by apply IH.
Qed.

Lemma occurrences_nil (d : nat) (l : list nat) : occurrences d l = [] ↔ d ∉ l.
Proof.
  unfold occurrences. induction l as [|y l IH]; [split; [intros _; apply not_elem_of_nil | done]|].
  destruct (decide (y = d)) as [->|Hy].
  - rewrite filter_cons_True by done. split; [done|]. intros Hn. exfalso. apply Hn. left.
  - rewrite filter_cons_False by done. rewrite IH. rewrite not_elem_of_cons.
    split; [intros Hn; split; [congruence | done] | by intros [_ Hn]].
Qed.

Lemma occurrences_once (d : nat) (l : list nat) :
  occurrences d l = [d] → ∃ l1 l2, l = l1 ++ d :: l2 ∧ (d ∉ l1) ∧ (d ∉ l2).
Proof.
  induction l as [|y l IH]; [done|]. unfold occurrences in *.
  destruct (decide (y = d)) as [->|Hy].
  - rewrite filter_cons_True by done. intros [= Hl].
    exists [], l. split; [done|]. split; [apply not_elem_of_nil | by apply occurrences_nil].
  - rewrite filter_cons_False by done. intros Hl.
    destruct (IH Hl) as (l1 & l2 & -> & H1 & H2).
    exists (y :: l1), l2. split; [done|]. split; [|done].
    rewrite not_elem_of_cons. split; [congruence | done].
Qed.

Lemma insert_call_split (c : nat * nat) (l : list (nat * nat)) :
  ∃ l1 l2, l = (l1 ++ l2) ∧ reactor.insert_call c l = (l1 ++ c :: l2).
Proof.
  induction l as [|c' l (l1 & l2 & -> & IH)]; [by exists [], []|].
  cbn. destruct (c'.1 <=? c.1).
  - exists (c' :: l1), l2. by rewrite IH.
  - by exists [], (c' :: l1 ++ l2).
Qed.

Section AdvanceRuns.
Context `{jid.Facility}.

Lemma advance_runs (amount : nat) (s : State) :
  MUCClient.advance amount s
  = (Ok tt,
     foldl (run_protected (λ c, MUCClient.onTimeout c.2))
       (with_proc (set_delayed (filter (λ c, ¬ c.1 ≤ seconds (proc s) + amount)
                                       (delayed (proc s))))
          (with_proc (λ p, set_seconds (seconds p + amount) p) s))
       (filter (λ c, c.1 ≤ seconds (proc s) + amount) (delayed (proc s)))).
Proof.
  unfold MUCClient.advance, bind, modify, gets. cbn.
  by rewrite for_each_protect.
Qed.

End AdvanceRuns.

(** ** What the roster and message handlers leave alone *)

#[export] Instance reply_frame_Frame : Frame reply_frame.
Proof.
  split.
  - intros s. repeat (split; [done|]). intros a r Hr. by exists r.
  - intros s1 s2 s3 (Hd1 & Hl1 & Hc1 & Ht1 & Hr1 & Ho1 & Hs1)
      (Hd2 & Hl2 & Hc2 & Ht2 & Hr2 & Ho2 & Hs2).
    repeat (split; [congruence|]).
    intros a r Hr. destruct (Hs1 a r Hr) as (r' & Hr' & Hst & Hcode).
    destruct (Hs2 a r' Hr') as (r'' & Hr'' & Hst' & Hcode').
    exists r''. split; [done|]. split; congruence.
  - intros s l. repeat (split; [done|]). intros a r Hr. by exists r.
  - intros s l. repeat (split; [done|]). intros a r Hr. by exists r.
Qed.

Section Reply.
Context `{jid.Facility}.

Lemma reply_update (room : nat) (f : Room.t → Room.t) :
  (∀ r, Room.state (f r) = Room.state r ∧ Room.status (f r) = Room.status r) →
  keeps reply_frame (MUCClient.update room f).
Proof.
  intros Hf s. repeat (split; [done|]). intros a r Hr. cbn.
  rewrite list_lookup_alter. case_decide as Ha; [subst a|by exists r].
  rewrite Hr. exists (f r). split; [done|]. apply Hf.
Qed.

Lemma reply_deref (room : nat) : keeps reply_frame (MUCClient.deref room).
Proof. intros s. unfold MUCClient.deref. case_match; apply frame_refl. Qed.

Lemma reply_userLeavesRoom (room_jid : jid.JID) :
  keeps reply_frame (MUCClient._userLeavesRoom room_jid).
Proof.
  unfold MUCClient._userLeavesRoom, MUCClient._getRoom.
  apply keeps_bind; [apply _ | apply keeps_gets, _ |]. intros [room|]; [|apply keeps_ret, _].
  apply keeps_bind; [apply _ | apply reply_deref |]. intros r.
  apply keeps_bind; [apply _ | apply keeps_lift, _ |]. intros [user|]; [|apply keeps_ret, _].
  case_match; [|apply keeps_ret, _].
  apply keeps_bind; [apply _ | | intros; apply keeps_call_hook, _].
  apply reply_update. intros r0. unfold Room.removeUser. by case_match.
Qed.

Lemma reply_presence_from (prs : domish.Element) :
  keeps reply_frame (MUCClient._onUnavailablePresence prs)
  ∧ keeps reply_frame (MUCClient._onPresenceError prs).
Proof.
  split.
  - unfold MUCClient._onUnavailablePresence. case_match; [apply keeps_ret, _|].
    apply keeps_bind; [apply _ | apply keeps_lift, _ |].
    intros room_jid. apply reply_userLeavesRoom.
  - unfold MUCClient._onPresenceError. case_match; [apply keeps_ret, _|].
    apply keeps_bind; [apply _ | apply keeps_lift, _ |].
    intros room_jid. apply reply_userLeavesRoom.
Qed.

Lemma reply_onXPresence (prs : domish.Element) :
  keeps reply_frame (MUCClient._onXPresence prs).
Proof.
  unfold MUCClient._onXPresence, MUCClient._getRoom. case_match; [apply keeps_ret, _|].
  apply keeps_bind; [apply _ | apply keeps_lift, _ |]. intros room_jid.
  apply keeps_bind; [apply _ | apply keeps_gets, _ |]. intros [room|]; [|apply keeps_ret, _].
  apply keeps_bind; [apply _ | apply reply_deref |]. intros r.
  apply keeps_bind; [apply _ | apply keeps_lift, _ |]. intros found. cbv zeta.
  destruct (Room.inRoster r _).
  - destruct (_ ≫= _); [apply keeps_ret, _ | apply keeps_call_hook, _].
  - apply keeps_bind; [apply _ | | intros; apply keeps_call_hook, _].
    by apply reply_update.
Qed.

Lemma reply_onGroupChat (msg : domish.Element) :
  keeps reply_frame (MUCClient._onGroupChat msg).
Proof.
  unfold MUCClient._onGroupChat, MUCClient._getRoom. case_match; [apply keeps_ret, _|].
  apply keeps_bind; [apply _ | apply keeps_lift, _ |]. intros room_jid.
  apply keeps_bind; [apply _ | apply keeps_gets, _ |]. intros [room|]; [|apply keeps_ret, _].
  apply keeps_bind; [apply _ | apply reply_deref |]. intros r.
  apply keeps_bind; [apply _ | apply keeps_lift, _ |]. intros user. cbv zeta.
  destruct (last _); [|apply keeps_receivedGroupChat, _].
  apply keeps_bind; [apply _ | apply keeps_lift, _ |]. intros stamp. apply keeps_call_hook, _.
Qed.

Lemma reply_onSubject (msg : domish.Element) :
  keeps reply_frame (MUCClient._onSubject msg).
Proof.
  unfold MUCClient._onSubject, MUCClient._getRoom. case_match; [apply keeps_ret, _|].
  apply keeps_bind; [apply _ | apply keeps_lift, _ |]. intros frm.
  apply keeps_bind; [apply _ | apply keeps_lift, _ |]. intros room_jid.
  apply keeps_bind; [apply _ | apply keeps_gets, _ |]. intros [room|]; [|apply keeps_ret, _].
  apply keeps_call_hook, _.
Qed.

Lemma reply_call_observers (obj : domish.Element) :
  keeps reply_frame (MUCClient.call_observers obj).
Proof.
  unfold MUCClient.call_observers.
  apply keeps_bind; [apply _ | apply keeps_gets, _ |]. intros observing.
  apply keeps_when; [apply _|].
  repeat (apply keeps_bind;
            [apply _ | apply keeps_when; [apply _|]; apply keeps_protect; [apply _|]
            | intros _]);
    [apply reply_onXPresence | apply reply_presence_from | apply reply_presence_from
    | apply reply_onGroupChat |].
  apply keeps_when; [apply _|]. apply keeps_protect; [apply _|]. apply reply_onSubject.
Qed.

Lemma call_observers_returns (obj : domish.Element) (s : State) :
  MUCClient.call_observers obj s = (Ok tt, (MUCClient.call_observers obj s).2).
Proof.
  assert (Hret : returns (MUCClient.call_observers obj)).
  { unfold MUCClient.call_observers. intros s0. unfold bind at 1, gets.
    apply returns_when.
    repeat (apply returns_bind; [apply returns_when, returns_protect | intros _]).
    apply returns_when, returns_protect. }
  specialize (Hret s). by destruct (MUCClient.call_observers obj s) as [res s'], Hret.
Qed.

(** ** The reply to a join *)


Lemma filter_none_matching (obj : domish.Element) (l : list (Pattern * Callback)) :
  Forall (λ o, matches o.1 obj = false) l →
  filter (λ o, matches o.1 obj = true) l = []
  ∧ filter (λ o, matches o.1 obj = false) l = l.
Proof.
  induction 1 as [|o l Ho Hl [IH1 IH2]]; [done|].
  rewrite filter_cons_False by congruence. rewrite filter_cons_True by done.
  by rewrite IH1, IH2.
Qed.

Lemma call_onetime_runs (obj : domish.Element) (q : Pattern) (cb : Callback)
    (pending : list (Pattern * Callback)) (s : State) :
  onetime (self s) = pending ++ [(q, cb)] →
  Forall (λ o, matches o.1 obj = false) pending →
  matches q obj = true →
  MUCClient.call_onetime obj s
  = (Ok tt, (protect (MUCClient.run_callback cb obj) (with_self (set_onetime pending) s)).2).
Proof.
  intros Hs Hpending Hq.
  destruct (filter_none_matching obj pending Hpending) as [Hnone Hall].
  unfold MUCClient.call_onetime, bind, gets, modify. rewrite Hs, !filter_app, Hnone, Hall.
  rewrite filter_cons_True by done. rewrite filter_cons_False by (cbn; congruence).
  cbn. unfold bind. rewrite app_nil_r.
  by rewrite protect_returns.
Qed.

End Reply.

(** ** What a join does *)

Section JoinRuns.
Context `{jid.Facility}.

Lemma join_runs (server room nick : string) (j : jid.JID) (s : State) :
  jid.internJID (room +:+ "@" +:+ server +:+ "/" +:+ nick) = Ok j →
  MUCClient.join server room nick s
  = (Ok (length (deferred_store (proc s))), after_join server room nick j s).
Proof.
  intros Hj.
  unfold MUCClient.join, MUCClient.new_room, MUCClient._setRoom, MUCClient.deref,
    MUCClient.sendDeferred, MUCClient.addOnetimeObserver, MUCClient.send,
    reactor.callLater, defer.Deferred, Room.init, res_bind, bind, lift, gets, modify, ret.
  rewrite Hj. cbn.
  rewrite (list_lookup_middle _ [] _ _ eq_refl). cbn.
  rewrite (list_lookup_middle _ [] _ _ eq_refl). cbn.
  reflexivity.
Qed.

End JoinRuns.



(** ** No reference to a deferred ever dangles *)

#[export] Instance closed_step_Frame : Frame closed_step.
Proof. split; unfold closed_step; [done | auto | done | done]. Qed.

Lemma closed_step_same (s s' : State) :
  deferred_store (proc s') = deferred_store (proc s) →
  _deferreds (proc s') = _deferreds (proc s) →
  delayed (proc s') = delayed (proc s) →
  onetime (self s') = onetime (self s) →
  closed_step s s'.
Proof. unfold closed_step, state_closed, store_closed. by intros -> -> -> ->. Qed.

Lemma reply_frame_closed (s s' : State) : reply_frame s s' → closed_step s s'.
Proof. intros (Hd & Hl & Hc & _ & _ & Ho & _). by apply closed_step_same. Qed.

Lemma keeps_reply_closed {A} (m : M A) : keeps reply_frame m → keeps closed_step m.
Proof. intros Hm s. apply reply_frame_closed, Hm. Qed.

Lemma Forall_insert_call (P : nat * nat → Prop) (c : nat * nat) (l : list (nat * nat)) :
  P c → Forall P l → Forall P (reactor.insert_call c l).
Proof.
  intros Hc Hl. destruct (insert_call_split c l) as (l1 & l2 & -> & ->).
  apply Forall_app in Hl as [Hl1 Hl2]. apply Forall_app. split; [done|]. by constructor.
Qed.

Section Closed.
Context `{jid.Facility}.

Lemma closed_modify_rooms (f : Process → Process) :
  (∀ p, deferred_store (f p) = deferred_store p ∧ _deferreds (f p) = _deferreds p
        ∧ delayed (f p) = delayed p) →
  keeps closed_step (modify (with_proc f)).
Proof. intros Hf s. destruct (Hf (proc s)) as (Hd & Hl & Hc). by apply closed_step_same. Qed.

Lemma closed_update (room : nat) (f : Room.t → Room.t) :
  keeps closed_step (MUCClient.update room f).
Proof. by apply closed_modify_rooms. Qed.

Lemma closed_deref (room : nat) : keeps closed_step (MUCClient.deref room).
Proof. apply keeps_reply_closed, reply_deref. Qed.

Lemma closed_getRoom (room_jid : jid.JID) : keeps closed_step (MUCClient._getRoom room_jid).
Proof. apply keeps_gets, _. Qed.

Lemma closed_send (obj : domish.Element) : keeps closed_step (MUCClient.send obj).
Proof. intros s. by apply closed_step_same. Qed.

Lemma closed_fire (d : nat) (o : Outcome) : keeps closed_step (defer.fire d o).
Proof.
  intros s. unfold defer.fire, defer.cancelTimeout, bind, gets, modify, raise.
  destruct (deferred_store (proc s) !! d) as [[called|]|]; [by intros ? | | by intros ?].
  intros [[Hlist Hcalls] Hobs]. repeat split; cbn; rewrite length_insert; [done| |done].
  rewrite Forall_forall in *. intros c Hc%list_elem_of_filter. apply Hcalls, Hc.
Qed.

Lemma closed_joinedRoom (d : nat) (prs : domish.Element) :
  keeps closed_step (MUCClient._joinedRoom d prs).
Proof.
  unfold MUCClient._joinedRoom.
  apply keeps_bind; [apply _ | apply keeps_lift, _ |]. intros frm.
  apply keeps_bind; [apply _ | apply keeps_lift, _ |]. intros room_jid.
  case_match; [apply closed_fire|].
  apply keeps_bind; [apply _ | apply closed_getRoom |]. intros [r|]; [|apply keeps_raise, _].
  apply keeps_bind; [apply _ | apply closed_update | intros _].
  apply keeps_bind; [apply _ | | intros _; apply closed_fire].
  destruct (_ ≫= _); [apply closed_update | apply keeps_ret, _].
Qed.

Lemma closed_leftRoom (d : nat) (prs : domish.Element) :
  keeps closed_step (MUCClient._leftRoom d prs).
Proof.
  unfold MUCClient._leftRoom.
  apply keeps_bind; [apply _ | apply keeps_lift, _ |]. intros frm.
  apply keeps_bind; [apply _ | apply keeps_lift, _ |]. intros room_jid.
  case_match; [apply closed_fire|].
  apply keeps_bind; [apply _ | apply closed_getRoom |]. intros [r|]; [|apply keeps_raise, _].
  apply keeps_bind; [apply _ | | intros _; apply closed_fire].
  apply closed_modify_rooms. intros p. by case_match.
Qed.

Lemma closed_changed (d : nat) (room_jid : jid.JID) (prs : domish.Element) :
  keeps closed_step (MUCClient._changed d room_jid prs).
Proof.
  unfold MUCClient._changed.
  apply keeps_bind; [apply _ | apply closed_getRoom |]. intros r. apply closed_fire.
Qed.

Lemma closed_run_callback (cb : Callback) (obj : domish.Element) :
  keeps closed_step (MUCClient.run_callback cb obj).
Proof.
  destruct cb; [apply closed_joinedRoom | apply closed_changed | apply closed_leftRoom].
Qed.

Lemma closed_deliver (obj : domish.Element) : keeps closed_step (MUCClient.deliver obj).
Proof.
  intros s. unfold MUCClient.deliver, MUCClient.call_onetime.
  unfold bind at 1 2 3, gets at 1, modify at 1.
  eapply (frame_trans (R := closed_step)).
  { instantiate (1 := with_self (set_onetime _) s).
    intros [Hstore Hobs]. split; [done|]. cbn.
    rewrite Forall_forall in *. intros o Ho%list_elem_of_filter. apply Hobs, Ho. }
  rewrite for_each_protect. cbn [fst snd].
  eapply (frame_trans (R := closed_step));
    [|apply keeps_reply_closed, reply_call_observers].
  apply (keeps_foldl closed_step). intros o. apply closed_run_callback.
Qed.

Lemma closed_sendDeferred (obj : domish.Element) (timeout : nat) :
  keeps closed_step (MUCClient.sendDeferred obj timeout).
Proof.
  intros s [[Hlist Hcalls] Hobs].
  unfold MUCClient.sendDeferred, MUCClient.send, reactor.callLater, defer.Deferred,
    bind, modify, ret.
  repeat split; cbn; rewrite length_app; cbn.
  - apply Forall_app. split; [|constructor; [lia | constructor]].
    eapply Forall_impl; [exact Hlist|]. cbn. lia.
  - apply Forall_insert_call; [cbn; lia|].
    eapply Forall_impl; [exact Hcalls|]. cbn. lia.
  - eapply Forall_impl; [exact Hobs|]. cbn. lia.
Qed.

(** The deferred [sendDeferred] returns is in the store; an observer that
    calls it can be added. *)
Lemma closed_send_and_observe (p : domish.Element) (k : nat → M nat) :
  (∀ d s, state_closed s → d < length (deferred_store (proc s)) → state_closed (k d s).2) →
  keeps closed_step (bind (MUCClient.sendDeferred p DEFER_TIMEOUT) k).
Proof.
  intros Hk s Hs. pose proof (closed_sendDeferred p DEFER_TIMEOUT s Hs) as Hs1.
  unfold bind. revert Hs1.
  unfold MUCClient.sendDeferred, MUCClient.send, reactor.callLater, defer.Deferred,
    bind, modify, ret.
  intros Hs1. apply Hk; [exact Hs1|]. cbn. rewrite length_app. cbn. lia.
Qed.

Lemma closed_observe (q : Pattern) (cb : Callback) (d : nat) (s : State) :
  callback_deferred cb = d →
  state_closed s → d < length (deferred_store (proc s)) →
  state_closed (bind (MUCClient.addOnetimeObserver q cb) (λ _, ret d) s).2.
Proof.
  intros Hcb [Hstore Hobs] Hd. split; [done|]. cbn.
  apply Forall_app. split; [done|]. constructor; [cbn; lia | done].
Qed.

Lemma closed_new_room (name server nick : string) (state : option string) :
  keeps closed_step (MUCClient.new_room name server nick state).
Proof.
  unfold MUCClient.new_room.
  apply keeps_bind; [apply _ | apply keeps_lift, _ |]. intros r.
  apply keeps_bind; [apply _ | apply keeps_gets, _ |]. intros room.
  apply keeps_bind; [apply _ | by apply closed_modify_rooms | intros _; apply keeps_ret, _].
Qed.

Lemma closed_setRoom (room : nat) : keeps closed_step (MUCClient._setRoom room).
Proof.
  unfold MUCClient._setRoom.
  apply keeps_bind; [apply _ | apply closed_deref |]. intros r.
  by apply closed_modify_rooms.
Qed.

Lemma closed_entityId (room : nat) : keeps closed_step (MUCClient.entityId room).
Proof.
  unfold MUCClient.entityId.
  apply keeps_bind; [apply _ | apply closed_deref |]. intros r.
  apply keeps_bind; [apply _ | apply keeps_lift, _ |]. intros res.
  apply keeps_bind; [apply _ | apply closed_update | intros _; apply keeps_ret, _].
Qed.

Lemma closed_observe_after_deref (room : nat) (q : jid.JID → Pattern) (cb : Callback)
    (d : nat) (s : State) :
  callback_deferred cb = d →
  state_closed s → d < length (deferred_store (proc s)) →
  state_closed
    (bind (MUCClient.deref room)
       (λ room_obj, bind (MUCClient.addOnetimeObserver (q (Room.entity_id room_obj)) cb)
                         (λ _, ret d)) s).2.
Proof.
  intros Hcb Hs Hd. unfold bind at 1, MUCClient.deref.
  destruct (room_store (proc s) !! room) as [room_obj|]; [|done].
  by apply closed_observe.
Qed.

Lemma closed_onTimeout (d : nat) : keeps closed_step (MUCClient.onTimeout d).
Proof.
  unfold MUCClient.onTimeout.
  apply keeps_bind; [apply _ | apply keeps_gets, _ |]. intros l.
  generalize 0. induction (length l) as [|fuel IH]; intros i; [apply keeps_ret, _|].
  cbn [MUCClient.onTimeout_loop].
  apply keeps_bind; [apply _ | apply keeps_gets, _ |]. intros l'.
  destruct (l' !! i); [|apply keeps_ret, _].
  apply keeps_bind; [apply _ | | intros _; apply IH].
  case_bool_decide; [|apply keeps_ret, _].
  apply keeps_bind; [apply _ | | intros _; apply closed_fire].
  intros s0 [[Hlist Hcalls] Hobs]. repeat split; [|done|done]. cbn.
  rewrite Forall_forall in *. intros x Hx. by eapply Hlist, list_elem_of_delete_inv.
Qed.

Lemma closed_run (ev : Event) (s : State) : closed_step s (run ev s).
Proof.
  destruct ev; cbn [run].
  - apply (keeps_bind closed_step); [|intros _; apply keeps_call_hook, _].
    intros s0. by apply closed_step_same.
  - unfold MUCClient.join.
    apply (keeps_bind closed_step); [apply closed_new_room|]. intros r.
    apply keeps_bind; [apply _ | apply closed_setRoom | intros _].
    apply keeps_bind; [apply _ | apply closed_deref |]. intros room_obj.
    apply closed_send_and_observe. intros d s0. by apply closed_observe.
  - unfold MUCClient.nick.
    apply (keeps_bind closed_step); [apply closed_getRoom|].
    intros [r|]; [|apply keeps_raise, _].
    apply keeps_bind; [apply _ | apply closed_update | intros _].
    apply keeps_bind; [apply _ | apply closed_entityId |]. intros entity_id.
    apply closed_send_and_observe. intros d s0.
    by apply (closed_observe_after_deref r (λ j, PresenceFrom (jid.full j))).
  - unfold MUCClient.leave.
    apply (keeps_bind closed_step); [apply closed_getRoom|].
    intros [r|]; [|apply keeps_raise, _].
    apply keeps_bind; [apply _ | apply closed_deref |]. intros room_obj.
    apply closed_send_and_observe. intros d s0. by apply closed_observe.
  - unfold MUCClient.status.
    apply (keeps_bind closed_step); [apply closed_getRoom|].
    intros [r|]; [|apply keeps_raise, _].
    apply keeps_bind; [apply _ | apply closed_entityId |]. intros entity_id.
    apply closed_send_and_observe. intros d s0.
    by apply (closed_observe_after_deref r (λ j, PresenceFrom (jid.full j))).
  - unfold MUCClient.history.
    apply (keeps_for_each closed_step). intros [m|stanza timestamp]; [|apply keeps_raise, _].
    unfold MUCClient.history_entry, MUCClient._makeTimeStamp.
    apply keeps_bind; [apply _ | apply keeps_lift, _ |]. intros mto.
    apply keeps_bind; [apply _ | | intros stamp; apply closed_send].
    apply keeps_bind; [apply _ | apply keeps_gets, _ | intros stamp; apply keeps_ret, _].
  - apply closed_deliver.
  - rewrite advance_runs. cbn [snd].
    eapply (frame_trans (R := closed_step)); [|apply (keeps_foldl closed_step)].
    + intros [[Hlist Hcalls] Hobs]. repeat split; [done| |done]. cbn.
      rewrite Forall_forall in *. intros c Hc%list_elem_of_filter. apply Hcalls, Hc.
    + intros c. apply closed_onTimeout.
Qed.

(** In every state a handler gets to, every deferred that the list of
    pending deferreds, the reactor or an observer refers to is in the
    store. *)
Lemma reachable_closed (s : State) : reachable s → state_closed s.
Proof.
  induction 1 as [clock | ev s Hs IH].
  - repeat split; constructor.
  - by apply closed_run.
Qed.

End Closed.

(** ** Waiting for the reply to a join *)

#[export] Instance waits_Frame (d : nat) : Frame (waits d).
Proof.
  split.
  - intros s Hd. by repeat split.
  - intros s1 s2 s3 H12 H23 Hd.
    destruct (H12 Hd) as (Hd2 & Hs2 & Hl2 & Hc2 & Ht2 & Ho2).
    destruct (H23 Hd2) as (Hd3 & Hs3 & Hl3 & Hc3 & Ht3 & Ho3).
    split; [done|]. repeat (split; [congruence|]). auto.
  - intros s l Hd. by repeat split.
  - intros s l Hd. by repeat split.
Qed.

Lemma waits_same (d : nat) (s s' : State) :
  deferred_store (proc s') = deferred_store (proc s) →
  _deferreds (proc s') = _deferreds (proc s) →
  delayed (proc s') = delayed (proc s) →
  seconds (proc s') = seconds (proc s) →
  onetime (self s') = onetime (self s) →
  waits d s s'.
Proof. unfold waits. intros -> -> -> -> -> Hd. by repeat split. Qed.

Lemma reply_frame_waits (d : nat) (s s' : State) : reply_frame s s' → waits d s s'.
Proof. intros (Hd & Hl & Hc & Ht & _ & Ho & _). by apply waits_same. Qed.

Lemma keeps_reply_waits (d : nat) {A} (m : M A) : keeps reply_frame m → keeps (waits d) m.
Proof. intros Hm s. apply reply_frame_waits, Hm. Qed.

Lemma calls_for_filter_other (d d' : nat) (l : list (nat * nat)) :
  d' ≠ d → calls_for d (filter (λ c, c.2 ≠ d') l) = calls_for d l.
Proof.
  intros Hd. unfold calls_for. induction l as [|c l IH]; [done|].
  destruct (decide (c.2 = d')) as [Hc|Hc].
  - rewrite (filter_cons_False (λ c, c.2 ≠ d')) by tauto.
    rewrite (filter_cons_False (λ c, c.2 = d) c) by congruence. exact IH.
  - rewrite (filter_cons_True (λ c, c.2 ≠ d')) by done.
    destruct (decide (c.2 = d)).
    + rewrite !(filter_cons_True (λ c, c.2 = d)) by done. by rewrite IH.
    + rewrite !(filter_cons_False (λ c, c.2 = d)) by done. exact IH.
Qed.

Lemma calls_for_insert_other (d : nat) (c : nat * nat) (l : list (nat * nat)) :
  c.2 ≠ d → calls_for d (reactor.insert_call c l) = calls_for d l.
Proof.
  intros Hc. destruct (insert_call_split c l) as (l1 & l2 & -> & ->).
  unfold calls_for. rewrite !filter_app. by rewrite filter_cons_False.
Qed.

Lemma calls_for_once (d : nat) (c : nat * nat) (l : list (nat * nat)) :
  calls_for d l = [c] →
  ∃ l1 l2, l = l1 ++ c :: l2 ∧ Forall (λ c, c.2 ≠ d) l1 ∧ Forall (λ c, c.2 ≠ d) l2.
Proof.
  unfold calls_for. induction l as [|c' l IH]; [done|].
  destruct (decide (c'.2 = d)) as [Hc|Hc].
  - rewrite filter_cons_True by done. intros [= -> Hl].
    exists [], l. split; [done|]. split; [constructor|].
    apply Forall_forall. intros x Hx Hxd.
    eapply (filter_nil_not_elem_of (λ c, c.2 = d)); [exact Hl | exact Hxd | exact Hx].
  - rewrite filter_cons_False by done. intros Hl.
    destruct (IH Hl) as (l1 & l2 & -> & H1 & H2).
    exists (c' :: l1), l2. split; [done|]. split; [by constructor | done].
Qed.

Lemma calls_for_none (d : nat) (l : list (nat * nat)) :
  calls_for d l = [] ↔ Forall (λ c, c.2 ≠ d) l.
Proof.
  unfold calls_for. rewrite Forall_forall. split.
  - intros Hl c Hc Hcd. by eapply (filter_nil_not_elem_of (λ c, c.2 = d)).
  - intros Hl. induction l as [|c l IH]; [done|].
    rewrite filter_cons_False; [|apply Hl; left].
    apply IH. intros x Hx. apply Hl. by right.
Qed.

Section Waits.
Context `{jid.Facility}.
Variable d : nat.

Lemma waits_modify_rooms (f : Process → Process) :
  (∀ p, deferred_store (f p) = deferred_store p ∧ _deferreds (f p) = _deferreds p
        ∧ delayed (f p) = delayed p ∧ seconds (f p) = seconds p) →
  keeps (waits d) (modify (with_proc f)).
Proof.
  intros Hf s. destruct (Hf (proc s)) as (Hd & Hl & Hc & Ht). by apply waits_same.
Qed.

Lemma waits_update (room : nat) (f : Room.t → Room.t) :
  keeps (waits d) (MUCClient.update room f).
Proof. by apply waits_modify_rooms. Qed.

Lemma waits_deref (room : nat) : keeps (waits d) (MUCClient.deref room).
Proof. apply keeps_reply_waits, reply_deref. Qed.

Lemma waits_getRoom (room_jid : jid.JID) : keeps (waits d) (MUCClient._getRoom room_jid).
Proof. apply keeps_gets, _. Qed.

Lemma waits_send (obj : domish.Element) : keeps (waits d) (MUCClient.send obj).
Proof. intros s. by apply waits_same. Qed.

Lemma waits_fire (d' : nat) (o : Outcome) : d' ≠ d → keeps (waits d) (defer.fire d' o).
Proof.
  intros Hne s. unfold defer.fire, defer.cancelTimeout, bind, gets, modify, raise.
  destruct (deferred_store (proc s) !! d') as [[called|]|];
    [apply frame_refl | | apply frame_refl].
  intros Hd. cbn. rewrite length_insert. split; [done|].
  split; [by apply list_lookup_insert_ne|]. split; [done|].
  split; [by apply calls_for_filter_other|]. done.
Qed.

Lemma waits_run_callback (cb : Callback) (obj : domish.Element) :
  callback_deferred cb ≠ d → keeps (waits d) (MUCClient.run_callback cb obj).
Proof.
  intros Hcb. destruct cb as [d'|d' room_jid|d']; cbn in Hcb; cbn [MUCClient.run_callback].
  - unfold MUCClient._joinedRoom.
    apply keeps_bind; [apply _ | apply keeps_lift, _ |]. intros frm.
    apply keeps_bind; [apply _ | apply keeps_lift, _ |]. intros room_jid.
    case_match; [by apply waits_fire|].
    apply keeps_bind; [apply _ | apply waits_getRoom |].
    intros [r|]; [|apply keeps_raise, _].
    apply keeps_bind; [apply _ | apply waits_update | intros _].
    apply keeps_bind; [apply _ | | intros _; by apply waits_fire].
    destruct (_ ≫= _); [apply waits_update | apply keeps_ret, _].
  - unfold MUCClient._changed.
    apply keeps_bind; [apply _ | apply waits_getRoom |]. intros r. by apply waits_fire.
  - unfold MUCClient._leftRoom.
    apply keeps_bind; [apply _ | apply keeps_lift, _ |]. intros frm.
    apply keeps_bind; [apply _ | apply keeps_lift, _ |]. intros room_jid.
    case_match; [by apply waits_fire|].
    apply keeps_bind; [apply _ | apply waits_getRoom |].
    intros [r|]; [|apply keeps_raise, _].
    apply keeps_bind; [apply _ | | intros _; by apply waits_fire].
    apply waits_modify_rooms. intros p. by case_match.
Qed.

(** A stanza that only observers of other deferreds are called on. *)
Lemma waits_deliver (obj : domish.Element) (s : State) :
  (∀ o : Pattern * Callback,
     o ∈ onetime (self s) → matches o.1 obj = true → callback_deferred o.2 ≠ d) →
  waits d s (MUCClient.deliver obj s).2.
Proof.
  intros Hothers. unfold MUCClient.deliver, MUCClient.call_onetime.
  unfold bind at 1 2 3, gets at 1, modify at 1.
  eapply (frame_trans (R := waits d)).
  { instantiate (1 := with_self (set_onetime _) s).
    intros Hd. repeat (split; [done|]). cbn. intros o Ho%list_elem_of_filter _. apply Ho. }
  rewrite for_each_protect. cbn [fst snd].
  eapply (frame_trans (R := waits d));
    [|apply keeps_reply_waits, reply_call_observers].
  apply (keeps_foldl_Forall (waits d)). apply Forall_forall.
  intros o [Hmatch Ho]%list_elem_of_filter. apply waits_run_callback. by apply Hothers.
Qed.

Lemma waits_sendDeferred (obj : domish.Element) (timeout : nat) :
  keeps (waits d) (MUCClient.sendDeferred obj timeout).
Proof.
  intros s Hd.
  unfold MUCClient.sendDeferred, MUCClient.send, reactor.callLater, defer.Deferred,
    bind, modify, ret.
  cbn. rewrite length_app. cbn. split; [lia|].
  split; [by apply lookup_app_l|].
  split; [unfold occurrences; rewrite filter_app, filter_cons_False by lia;
          by rewrite filter_nil, app_nil_r|].
  split; [apply calls_for_insert_other; cbn; lia|]. done.
Qed.

(** The deferred [sendDeferred] returns is a new one. *)
Lemma waits_send_and_observe (p : domish.Element) (k : nat → M nat) :
  (∀ d', d' ≠ d → keeps (waits d) (k d')) →
  keeps (waits d) (bind (MUCClient.sendDeferred p DEFER_TIMEOUT) k).
Proof.
  intros Hk s Hd. pose proof (waits_sendDeferred p DEFER_TIMEOUT s) as Hs1.
  unfold bind. revert Hs1.
  unfold MUCClient.sendDeferred, MUCClient.send, reactor.callLater, defer.Deferred,
    bind, modify, ret.
  intros Hs1. eapply (frame_trans (R := waits d)); [exact Hs1 | apply Hk; lia | done].
Qed.

Lemma waits_observe (q : Pattern) (cb : Callback) (d' : nat) :
  callback_deferred cb ≠ d →
  keeps (waits d) (bind (MUCClient.addOnetimeObserver q cb) (λ _, ret d')).
Proof.
  intros Hcb s Hd. repeat (split; [done|]). cbn.
  intros o [Ho|Ho%list_elem_of_singleton]%elem_of_app Hod; [done|]. by subst o.
Qed.

Lemma waits_observe_after_deref (room : nat) (q : jid.JID → Pattern) (cb : Callback)
    (d' : nat) :
  callback_deferred cb ≠ d →
  keeps (waits d)
    (bind (MUCClient.deref room)
       (λ room_obj, bind (MUCClient.addOnetimeObserver (q (Room.entity_id room_obj)) cb)
                         (λ _, ret d'))).
Proof.
  intros Hcb. apply keeps_bind; [apply _ | apply waits_deref |].
  intros room_obj. by apply waits_observe.
Qed.

Lemma waits_entityId (room : nat) : keeps (waits d) (MUCClient.entityId room).
Proof.
  unfold MUCClient.entityId.
  apply keeps_bind; [apply _ | apply waits_deref |]. intros r.
  apply keeps_bind; [apply _ | apply keeps_lift, _ |]. intros res.
  apply keeps_bind; [apply _ | apply waits_update | intros _; apply keeps_ret, _].
Qed.

(** The operations of the handler leave the deferred of a join made
    before alone. *)
Lemma waits_run (ev : Event) (s : State) :
  match ev with Deliver _ | Advance _ => False | _ => True end →
  waits d s (run ev s).
Proof.
  destruct ev; intros Hev; try done; cbn [run].
  - unfold MUCClient.join, MUCClient.new_room, MUCClient._setRoom.
    apply (keeps_bind (waits d)).
    { apply keeps_bind; [apply _ | apply keeps_lift, _ |]. intros r.
      apply keeps_bind; [apply _ | apply keeps_gets, _ |]. intros ref.
      apply keeps_bind; [apply _ | by apply waits_modify_rooms | intros _; apply keeps_ret, _]. }
    intros r. apply keeps_bind; [apply _ | | intros _].
    { apply keeps_bind; [apply _ | apply waits_deref |]. intros room_obj.
      by apply waits_modify_rooms. }
    apply keeps_bind; [apply _ | apply waits_deref |]. intros room_obj.
    apply waits_send_and_observe. intros d' Hd'. by apply waits_observe.
  - unfold MUCClient.nick.
    apply (keeps_bind (waits d)); [apply waits_getRoom|].
    intros [r|]; [|apply keeps_raise, _].
    apply keeps_bind; [apply _ | apply waits_update | intros _].
    apply keeps_bind; [apply _ | apply waits_entityId |]. intros entity_id.
    apply waits_send_and_observe. intros d' Hd'.
    by apply (waits_observe_after_deref r (λ j, PresenceFrom (jid.full j))).
  - unfold MUCClient.leave.
    apply (keeps_bind (waits d)); [apply waits_getRoom|].
    intros [r|]; [|apply keeps_raise, _].
    apply keeps_bind; [apply _ | apply waits_deref |]. intros room_obj.
    apply waits_send_and_observe. intros d' Hd'. by apply waits_observe.
  - unfold MUCClient.status.
    apply (keeps_bind (waits d)); [apply waits_getRoom|].
    intros [r|]; [|apply keeps_raise, _].
    apply keeps_bind; [apply _ | apply waits_entityId |]. intros entity_id.
    apply waits_send_and_observe. intros d' Hd'.
    by apply (waits_observe_after_deref r (λ j, PresenceFrom (jid.full j))).
  - unfold MUCClient.history.
    apply (keeps_for_each (waits d)). intros [m|stanza timestamp]; [|apply keeps_raise, _].
    unfold MUCClient.history_entry, MUCClient._makeTimeStamp.
    apply keeps_bind; [apply _ | apply keeps_lift, _ |]. intros mto.
    apply keeps_bind; [apply _ | | intros stamp; apply waits_send].
    apply keeps_bind; [apply _ | apply keeps_gets, _ | intros stamp; apply keeps_ret, _].
Qed.

End Waits.

(** ** The timeout of a deferred *)

Lemma calls_for_filter (d : nat) (Q : nat * nat → Prop) `{∀ c, Decision (Q c)}
    (l : list (nat * nat)) :
  calls_for d (filter Q l) = filter Q (calls_for d l).
Proof.
  unfold calls_for. induction l as [|c l IH]; [done|].
  destruct (decide (Q c)) as [Hq|Hq], (decide (c.2 = d)) as [Hc|Hc].
  - rewrite (filter_cons_True Q c l), !(filter_cons_True (λ c, c.2 = d)) by done.
    rewrite (filter_cons_True Q) by done. by rewrite IH.
  - rewrite (filter_cons_True Q c l), !(filter_cons_False (λ c, c.2 = d)) by done. exact IH.
  - rewrite (filter_cons_False Q c l), (filter_cons_True (λ c, c.2 = d)) by done.
    rewrite (filter_cons_False Q) by done. exact IH.
  - rewrite (filter_cons_False Q c l), (filter_cons_False (λ c, c.2 = d)) by done. exact IH.
Qed.

Lemma awaiting_waits (d : nat) (q : Pattern) (t0 t : nat) (s s' : State) :
  waits d s s' → awaiting d q t0 t s → awaiting d q t0 t s'.
Proof.
  intros Hw (Hd & Ht & Hobs & Hpre & Hpost).
  destruct (Hw Hd) as (Hd' & Hs & Hl & Hc & Hsec & Ho).
  split; [done|]. split; [congruence|]. split; [auto|].
  rewrite Hs, Hl, Hc. by split.
Qed.

Section Timeout.
Context `{jid.Facility}.

Lemma fire_deferreds (d : nat) (o : Outcome) (s : State) :
  _deferreds (proc (defer.fire d o s).2) = _deferreds (proc s).
Proof.
  unfold defer.fire, defer.cancelTimeout, bind, gets, modify, raise.
  by destruct (deferred_store (proc s) !! d) as [[called|]|].
Qed.

(** The fuel [onTimeout] gives its loop is never used up before the
    iterator is: any fuel that covers what is left of the list gives the
    same run. *)
Lemma onTimeout_loop_enough (d : nat) (fuel fuel' i : nat) (s : State) :
  length (_deferreds (proc s)) - i ≤ fuel →
  length (_deferreds (proc s)) - i ≤ fuel' →
  MUCClient.onTimeout_loop fuel i d s = MUCClient.onTimeout_loop fuel' i d s.
Proof.
  revert fuel' i s. induction fuel as [|fuel IH]; intros [|fuel'] i s Hfuel Hfuel';
    cbn [MUCClient.onTimeout_loop]; [done | | |].
  - unfold bind, gets. by rewrite lookup_ge_None_2 by lia.
  - unfold bind, gets. by rewrite lookup_ge_None_2 by lia.
  - unfold bind, gets, modify, ret, defer.errback. cbn beta.
    destruct (_deferreds (proc s) !! i) as [xd|] eqn:Hi; [|done].
    apply lookup_lt_Some in Hi as Hlt.
    case_bool_decide as Hx; [|apply IH; lia].
    set (s1 := with_proc _ s).
    pose proof (fire_deferreds d
                  (Failure (VExn (TimeoutError "Timeout waiting for response."))) s1) as Hl.
    destruct (defer.fire d _ s1) as [[[]|e] s2]; [|done].
    cbn in Hl. assert (Hlen := length_delete (_deferreds (proc s)) i (mk_is_Some _ _ Hi)).
    apply IH; rewrite Hl; lia.
Qed.

(** The timeout of another deferred. *)
Lemma onTimeout_loop_waits (d d' : nat) (fuel i : nat) (s : State) :
  d' ≠ d → waits d s (MUCClient.onTimeout_loop fuel i d' s).2.
Proof.
  intros Hd. revert i s. induction fuel as [|fuel IH]; intros i s; [apply frame_refl|].
  cbn [MUCClient.onTimeout_loop].
  unfold bind, gets, modify, ret, defer.errback. cbn beta.
  destruct (_deferreds (proc s) !! i) as [xd|] eqn:Hi; [|apply frame_refl].
  case_bool_decide as Hx; [subst xd | apply IH].
  set (s1 := with_proc _ s).
  assert (Hpop : waits d s s1).
  { intros Hlt. repeat (split; [done|]). split; [|done].
    cbn. by eapply occurrences_delete_ne. }
  pose proof (waits_fire d d'
                (Failure (VExn (TimeoutError "Timeout waiting for response."))) Hd s1) as Hfire.
  destruct (defer.fire d' _ s1) as [[[]|e] s2]; cbn [snd] in *.
  - eapply (frame_trans (R := waits d)); [exact Hpop|].
    eapply (frame_trans (R := waits d)); [exact Hfire | apply IH].
  - eapply (frame_trans (R := waits d)); [exact Hpop | exact Hfire].
Qed.

Lemma waits_onTimeout (d d' : nat) : d' ≠ d → keeps (waits d) (MUCClient.onTimeout d').
Proof.
  intros Hd s. unfold MUCClient.onTimeout, bind, gets. by apply onTimeout_loop_waits.
Qed.

Lemma waits_timeouts (d : nat) (calls : list (nat * nat)) (s : State) :
  calls_for d calls = [] →
  waits d s (foldl (run_protected (λ c, MUCClient.onTimeout c.2)) s calls).
Proof.
  intros Hcalls%calls_for_none. apply (keeps_foldl_Forall (waits d)).
  eapply Forall_impl; [exact Hcalls|]. intros c Hc. by apply waits_onTimeout.
Qed.

Lemma onTimeout_loop_absent (d : nat) (fuel i : nat) (s : State) :
  d ∉ _deferreds (proc s) → MUCClient.onTimeout_loop fuel i d s = (Ok tt, s).
Proof.
  intros Hd. revert i. induction fuel as [|fuel IH]; intros i; [done|].
  cbn [MUCClient.onTimeout_loop]. unfold bind, gets, ret. cbn.
  destruct (_deferreds (proc s) !! i) as [xd|] eqn:Hi; [|done].
  case_bool_decide as Hx; [|apply IH].
  subst xd. exfalso. apply Hd. by eapply list_elem_of_lookup_2.
Qed.

Lemma onTimeout_loop_fires (d : nat) (fuel i : nat) (l1 l2 : list nat) (s : State) :
  _deferreds (proc s) = l1 ++ d :: l2 →
  d ∉ l1 → d ∉ l2 →
  i ≤ length l1 → length l1 - i < fuel →
  deferred_store (proc s) !! d = Some None →
  MUCClient.onTimeout_loop fuel i d s = (Ok tt, after_timeout d (l1 ++ l2) s).
Proof.
  intros Hl H1 H2. revert i. induction fuel as [|fuel IH]; intros i Hi Hfuel Hd; [lia|].
  cbn [MUCClient.onTimeout_loop].
  unfold bind, gets, modify, ret, defer.errback, defer.fire, defer.cancelTimeout, raise.
  cbn. rewrite Hl.
  destruct (decide (i = length l1)) as [->|Hne].
  - rewrite list_lookup_middle by done. rewrite bool_decide_eq_true_2 by done.
    cbn. rewrite Hd. cbn.
    rewrite onTimeout_loop_absent.
    + unfold after_timeout, with_proc. cbn. rewrite Hl. by rewrite delete_middle.
    + cbn. rewrite Hl, delete_middle. rewrite not_elem_of_app. done.
  - assert (Hlt : i < length l1) by lia.
    rewrite lookup_app_l by done.
    destruct (lookup_lt_is_Some_2 l1 i Hlt) as [xd Hxd]. rewrite Hxd.
    rewrite bool_decide_eq_false_2.
    + apply IH; [lia | lia | done].
    + intros ->. apply H1. by eapply list_elem_of_lookup_2.
Qed.

(** The timeout of a deferred that is uncalled and once in the list of
    pending deferreds fails it and takes it from the list. *)
Lemma onTimeout_fires (d : nat) (s : State) :
  deferred_store (proc s) !! d = Some None →
  occurrences d (_deferreds (proc s)) = [d] →
  ∃ l : list nat, (d ∉ l) ∧ (protect (MUCClient.onTimeout d) s).2 = after_timeout d l s.
Proof.
  intros Hd Hocc.
  destruct (occurrences_once d _ Hocc) as (l1 & l2 & Hl & H1 & H2).
  exists (l1 ++ l2). split; [by rewrite not_elem_of_app|].
  unfold protect, MUCClient.onTimeout, bind, gets.
  by rewrite (onTimeout_loop_fires d _ 0 l1 l2 s Hl H1 H2);
    [| lia | rewrite Hl, length_app; cbn; lia | done].
Qed.

(** Time passing while the reply to a join is awaited. *)
Lemma awaiting_advance (d : nat) (q : Pattern) (t0 t amount : nat) (s : State) :
  awaiting d q t0 t s → awaiting d q t0 (t + amount) (MUCClient.advance amount s).2.
Proof.
  intros (Hd & Ht & Hobs & Hpre & Hpost). rewrite advance_runs. cbn [snd].
  set (due := λ c : nat * nat, c.1 ≤ seconds (proc s) + amount).
  set (s0 := with_proc (set_delayed _) _).
  set (calls := filter due (delayed (proc s))).
  assert (Hcalls : calls_for d calls = filter due (calls_for d (delayed (proc s))))
    by apply calls_for_filter.
  assert (Hleft : calls_for d (delayed (proc s0))
                  = filter (λ c, ¬ due c) (calls_for d (delayed (proc s))))
    by apply calls_for_filter.
  destruct (decide (t < DEFER_TIMEOUT)) as [Hearly|Hlate].
  - destruct (Hpre Hearly) as (Hnone & Honce & Hcall).
    rewrite Hcall in Hcalls, Hleft.
    destruct (decide (t + amount < DEFER_TIMEOUT)) as [Hstill|Hover].
    + rewrite filter_cons_False in Hcalls by (unfold due; cbn; lia).
      rewrite filter_cons_True in Hleft by (unfold due; cbn; lia).
      apply (awaiting_waits d q t0 (t + amount) s0); [by apply waits_timeouts|].
      split; [done|]. split; [cbn; lia|]. split; [done|]. split; [done | lia].
    + rewrite filter_cons_True in Hcalls by (unfold due; cbn; lia).
      rewrite filter_cons_False in Hleft by (unfold due; cbn; lia).
      destruct (calls_for_once d _ _ Hcalls) as (k1 & k2 & -> & Hk1 & Hk2).
      rewrite foldl_app. cbn [foldl].
      set (sA := foldl _ s0 k1).
      assert (HA : waits d s0 sA) by by apply waits_timeouts, calls_for_none.
      destruct (HA (Hd : d < length (deferred_store (proc s0)))) as (HdA & HstoreA & HoccA & HcallsA & HsecA & HobsA).
      destruct (onTimeout_fires d sA) as (l & Hl & HB);
        [by rewrite HstoreA | by rewrite HoccA |].
      unfold run_protected at 2. cbn [snd]. rewrite HB.
      apply (awaiting_waits d q t0 (t + amount) (after_timeout d l sA));
        [by apply waits_timeouts, calls_for_none|].
      split; [cbn; by rewrite length_insert|]. split; [cbn; rewrite HsecA; cbn; lia|].
      split; [intros o Ho Hod; apply Hobs; [by apply HobsA | done]|]. split; [lia|]. intros _.
      split; [cbn; by apply list_lookup_insert_eq|].
      split; [by apply occurrences_nil|].
      cbn. apply calls_for_none, Forall_forall. intros c Hc%list_elem_of_filter. apply Hc.
  - destruct Hpost as (Hfailed & Hgone & Hnocall); [lia|].
    rewrite Hnocall in Hcalls, Hleft.
    apply (awaiting_waits d q t0 (t + amount) s0); [by apply waits_timeouts|].
    split; [done|]. split; [cbn; lia|]. split; [done|]. split; [lia | done].
Qed.

(** One event that is not the reply. *)
Lemma awaiting_run (d : nat) (q : Pattern) (t0 t : nat) (ev : Event) (s : State) :
  no_reply q ev → awaiting d q t0 t s → awaiting d q t0 (t + elapsed [ev]) (run ev s).
Proof.
  intros Hev Hs.
  destruct ev as [| | | | | |obj|amount];
    try (cbn [elapsed foldr]; rewrite Nat.add_0_r;
         apply (awaiting_waits d q t0 t s); [by apply waits_run | done]).
  - cbn [elapsed foldr run]. rewrite Nat.add_0_r.
    apply (awaiting_waits d q t0 t s); [|done].
    apply waits_deliver. intros o Ho Hmatch Hod.
    destruct Hs as (_ & _ & Hobs & _). rewrite (Hobs o Ho Hod) in Hmatch.
    cbn in Hev. congruence.
  - cbn [elapsed foldr run]. rewrite Nat.add_0_r. by apply awaiting_advance.
Qed.

Lemma elapsed_cons (ev : Event) (trace : list Event) :
  elapsed (ev :: trace) = elapsed [ev] + elapsed trace.
Proof. unfold elapsed. cbn [foldr]. destruct ev; lia. Qed.

Lemma awaiting_run_all (d : nat) (q : Pattern) (t0 t : nat) (trace : list Event) (s : State) :
  Forall (no_reply q) trace → awaiting d q t0 t s →
  awaiting d q t0 (t + elapsed trace) (run_all trace s).
Proof.
  intros Htrace. revert t s. induction Htrace as [|ev trace Hev _ IH]; intros t s Hs.
  - cbn. by rewrite Nat.add_0_r.
  - rewrite elapsed_cons, Nat.add_assoc. apply IH. by apply awaiting_run.
Qed.

(** The state a join leaves awaits its reply. *)
Lemma awaiting_after_join (server room nick : string) (j : jid.JID) (s : State) :
  state_closed s →
  awaiting (length (deferred_store (proc s))) (PresenceFrom (jid.full j))
    (seconds (proc s)) 0 (after_join server room nick j s).
Proof.
  intros ((Hlist & Hcalls) & Hcbs). set (d := length (deferred_store (proc s))).
  split; [cbn; rewrite length_app; cbn; lia|]. split; [cbn; lia|].
  split.
  { cbn. intros o [Ho|Ho%list_elem_of_singleton]%elem_of_app Hod; [|by subst o].
    eapply Forall_forall in Hcbs; [|exact Ho]. cbn in Hcbs. lia. }
  split; [intros _ | unfold DEFER_TIMEOUT; lia].
  split; [cbn; by apply list_lookup_middle|]. split.
  - cbn. unfold occurrences. rewrite filter_app.
    change (filter (λ x, x = d) (_deferreds (proc s)))
      with (occurrences d (_deferreds (proc s))).
    rewrite (proj2 (occurrences_nil d (_deferreds (proc s)))).
    + by rewrite filter_cons_True.
    + intros Hin. eapply Forall_forall in Hlist; [|exact Hin]. cbn in Hlist. lia.
  - change (delayed (proc (after_join server room nick j s)))
      with (reactor.insert_call (seconds (proc s) + DEFER_TIMEOUT, d) (delayed (proc s))).
    change (seconds (proc (after_join server room nick j s))) with (seconds (proc s)).
    destruct (insert_call_split (seconds (proc s) + DEFER_TIMEOUT, d)
                (delayed (proc s))) as (l1 & l2 & Hdelayed & ->).
    assert (Hother : calls_for d (l1 ++ l2) = []).
    { rewrite <- Hdelayed. apply calls_for_none.
      eapply Forall_impl; [exact Hcalls|]. intros c Hc. cbn in Hc. lia. }
    unfold calls_for in *. rewrite filter_app in *.
    apply app_eq_nil in Hother as [-> Hl2].
    by rewrite filter_cons_True, Hl2.
Qed.

End Timeout.

(** C9: when no presence the observer of a join is called on arrives,
    whatever else the handler is asked to do and is sent meanwhile, the
    deferred of the join stays uncalled while less than [DEFER_TIMEOUT]
    = 30 time units have passed on the reactor, and once 30 have passed
    it is failed with the timeout error, which is not the presence
    element a stanza error fails it with, and is gone from the list of
    pending deferreds. *)
Theorem C9_join_times_out `{jid.Facility} (s : State) (server room nick : string)
    (j : jid.JID) (trace : list Event) :
  jid.internJID (room +:+ "@" +:+ server +:+ "/" +:+ nick) = Ok j →
  state_closed s →
  Forall (no_reply (PresenceFrom (jid.full j))) trace →
  ∃ s1 : State,
    let d := length (deferred_store (proc s)) in
    MUCClient.join server room nick s = (Ok d, s1)
    ∧ deferred_store (proc s1) !! d = Some None
    ∧ d ∈ _deferreds (proc s1)
    ∧ (elapsed trace < DEFER_TIMEOUT →
         deferred_store (proc (run_all trace s1)) !! d = Some None)
    ∧ (DEFER_TIMEOUT ≤ elapsed trace →
         deferred_store (proc (run_all trace s1)) !! d = Some (Some timed_out)
         ∧ d ∉ _deferreds (proc (run_all trace s1)))
    ∧ (∀ prs, timed_out ≠ Failure (VElement prs)).
Proof.
  intros Hj Hclosed Htrace. exists (after_join server room nick j s).
  pose proof (awaiting_after_join server room nick j s Hclosed) as Hjoined.
  pose proof (awaiting_run_all _ _ _ _ trace _ Htrace Hjoined) as Hlater.
  destruct Hjoined as (_ & _ & _ & Hpending & _).
  destruct Hpending as (Hnone & Honce & _); [unfold DEFER_TIMEOUT; lia|].
  destruct Hlater as (_ & _ & _ & Hpre & Hpost). cbn [Nat.add] in Hpre, Hpost.
  split; [by apply join_runs|]. split; [exact Hnone|].
  split; [cbn; apply elem_of_app; right; left|].
  split; [intros Hearly; by destruct (Hpre Hearly)|].
  split; [|done].
  intros Hlate. destruct (Hpost Hlate) as (Hfailed & Hgone & _).
  split; [done | by apply occurrences_nil].
Qed.

Lemma C9_join_times_out_witness :
  let trace :=
    [Deliver (fixtures.joined "other@conference.example.org/Nick");
     Advance 12;
     Deliver (fixtures.groupchat (jid.full fixtures.occupantJID) [fixtures.body "test"]);
     Leave fixtures.roomJID;
     Advance 18] in
  ∃ s1 : State,
    MUCClient.join fixtures.service fixtures.roomIdentifier fixtures.nick fixtures.busy
      = (Ok (length (deferred_store (proc fixtures.busy))), s1)
    ∧ deferred_store (proc (run_all trace s1)) !! length (deferred_store (proc fixtures.busy))
      = Some (Some timed_out)
    ∧ length (deferred_store (proc fixtures.busy)) ∉ _deferreds (proc (run_all trace s1)).
Proof.
  intros trace.
  destruct (C9_join_times_out fixtures.busy fixtures.service fixtures.roomIdentifier
              fixtures.nick fixtures.occupantJID trace)
    as (s1 & Hjoin & _ & _ & _ & Hlate & _).
  - vm_compute. reflexivity.
  - split; [split|]; apply (bool_decide_unpack _); vm_compute; reflexivity.
  - repeat (constructor; [first [exact I | vm_compute; reflexivity]|]). constructor.
  - exists s1. destruct Hlate as [Hfailed Hgone]; [vm_compute; lia|].
    repeat split; assumption.
Defined.

(** ** The same behaviour on every input of the kind *)

Lemma append_self_inv (s t : string) : s +:+ t = s → t = "".
Proof.
  induction s as [|a s IH]; [done|].
  change (String a s +:+ t) with (String a (s +:+ t)). intros [= Heq]. by apply IH.
Qed.

Section General.
Context `{jid.Facility}.

(** A stanza that no pending one-time observer matches leaves every
    deferred as it was. *)
Lemma deliver_unmatched (obj : domish.Element) (s : State) :
  Forall (λ o, matches o.1 obj = false) (onetime (self s)) →
  deferred_store (proc (MUCClient.deliver obj s).2) = deferred_store (proc s).
Proof.
  intros Hpending.
  destruct (filter_none_matching obj _ Hpending) as [Hnone Hall].
  unfold MUCClient.deliver, MUCClient.call_onetime, bind, gets, modify.
  rewrite Hnone, Hall. cbn [for_each ret].
  by destruct (reply_call_observers obj (with_self (set_onetime (onetime (self s))) s))
    as (Hd & _).
Qed.

(** After any join to an occupant address with a nickname, a presence
    from the bare address of the room, error or not, leaves the deferred
    of the join uncalled. *)
Lemma join_reply_from_room_jid_unanswered (s : State) (server room nick : string)
    (j : jid.JID) (prs : domish.Element) :
  jid.internJID (room +:+ "@" +:+ server +:+ "/" +:+ nick) = Ok j →
  truthy (jid.resource j) = true →
  domish.getAttribute prs "from" = Some (jid.userhost j) →
  Forall (λ o, matches o.1 prs = false) (onetime (self s)) →
  ∃ s1 : State,
    MUCClient.join server room nick s = (Ok (length (deferred_store (proc s))), s1)
    ∧ deferred_store (proc (MUCClient.deliver prs s1).2) !! length (deferred_store (proc s))
      = Some None.
Proof.
  intros Hj Hres Hfrom Hpending.
  exists (after_join server room nick j s). split; [by apply join_runs|].
  rewrite deliver_unmatched; [cbn; by apply list_lookup_middle|].
  cbn. apply Forall_app. split; [done|]. constructor; [|done].
  cbn. rewrite Hfrom. rewrite (bool_decide_eq_false_2 (Some _ = Some _)); [apply andb_false_r|].
  intros [= Heq]. unfold jid.full in Heq. rewrite Hres in Heq.
  symmetry in Heq. apply append_self_inv in Heq. done.
Qed.

(** A room registered by a join on one handler is found by the lookup of
    any other handler of the process. *)
Lemma join_seen_by_any_handler (p : Process) (a b : Handler) (server room nick : string)
    (j room_jid : jid.JID) :
  jid.internJID (room +:+ "@" +:+ server +:+ "/" +:+ nick) = Ok j →
  lower (jid.userhost room_jid) = lower (jid.userhost j) →
  (MUCClient._getRoom room_jid
     (mkState (proc (MUCClient.join server room nick (mkState p a)).2) b)).1
  = Ok (Some (length (room_store p))).
Proof.
  intros Hj Hkey. rewrite (join_runs server room nick j _ Hj).
  unfold MUCClient._getRoom, gets. cbn. rewrite Hkey. by rewrite lookup_insert_eq.
Qed.

(** [_onSubject] hands the address of the sender and the text to the
    hook, for every subject message from a registered room. *)
Lemma onSubject_calls_hook_with_address (msg : domish.Element) (frm : string)
    (room_jid : jid.JID) (room : nat) (s : State) :
  domish.getAttribute msg "from" = Some frm →
  jid.internJID frm = Ok room_jid →
  rooms (proc s) !! lower (jid.userhost room_jid) = Some room →
  MUCClient._onSubject msg s
  = (Ok tt,
     with_self (λ h, set_hooks (hooks h ++
       [Hook "receivedSubject"
          [VJID room_jid; VStr (domish.unicode (domish.child msg "subject"))]]) h) s).
Proof.
  intros Hfrom Hj Hroom. unfold domish.getAttribute in Hfrom.
  unfold MUCClient._onSubject, MUCClient._getRoom, MUCClient.call_hook,
    domish.hasAttribute, domish.getitem, bind, lift, gets, modify.
  rewrite Hfrom, bool_decide_eq_true_2 by done. cbn -[jid.internJID]. by rewrite Hj, Hroom.
Qed.

(** [_onGroupChat] raises on every groupchat message from an address
    without a resource whose room is registered. *)
Lemma onGroupChat_without_resource_raises (msg : domish.Element) (frm : string)
    (room_jid : jid.JID) (room : nat) (r : Room.t) (s : State) :
  domish.getAttribute msg "from" = Some frm →
  jid.internJID frm = Ok room_jid →
  jid.resource room_jid = None →
  rooms (proc s) !! lower (jid.userhost room_jid) = Some room →
  room_store (proc s) !! room = Some r →
  MUCClient._onGroupChat msg s = (Raise (AttributeError "lower"), s).
Proof.
  intros Hfrom Hj Hres Hroom Hr. unfold domish.getAttribute in Hfrom.
  unfold MUCClient._onGroupChat, MUCClient._getRoom, MUCClient.deref,
    domish.hasAttribute, domish.getAttribute, bind, lift, gets.
  rewrite Hfrom, bool_decide_eq_true_2 by done. cbn -[jid.internJID]. by rewrite Hj, Hroom, Hr, Hres.
Qed.

(** [history] stamps every message element it resends with the reading
    of the clock, in the compact form. *)
Lemma history_entry_stamp (to mto : string) (m : domish.Element) (s : State) :
  domish.getAttribute m "to" = Some mto →
  ∃ e delay : domish.Element,
    MUCClient.history_entry to (EntryStanza m) s
    = (Ok tt, with_self (λ h, set_output (output h ++ [e]) h) s)
    ∧ domish.getAttribute e "type" = Some "groupchat"
    ∧ domish.getAttribute e "to" = Some to
    ∧ last (domish.elements e) = Some delay
    ∧ domish.uri delay = Some NS_DELAY
    ∧ domish.getAttribute delay "stamp" = Some (datetime.strftime_compact (now (proc s)))
    ∧ domish.getAttribute delay "from" = Some mto.
Proof.
  intros Hto. unfold domish.getAttribute in Hto.
  unfold MUCClient.history_entry, MUCClient._makeTimeStamp, MUCClient.send, domish.getitem,
    bind, lift, gets, modify, ret.
  cbn. rewrite lookup_insert_ne by done. rewrite Hto.
  eexists _, _. split; [reflexivity|].
  split; [cbn; rewrite lookup_insert_ne by done; apply lookup_insert_eq|].
  split; [cbn; apply lookup_insert_eq|].
  split; [unfold domish.elements; cbn; rewrite omap_app; apply last_snoc|].
  split; [done|].
  split; [cbn; rewrite lookup_insert_ne by done; apply lookup_insert_eq|].
  cbn. apply lookup_insert_eq.
Qed.

End General.

(** ** The scenarios of the test suite the handler agrees with *)

Section Examples.
Import fixtures.

(** [test_userJoinedRoom] *)
Example userJoinedRoom_example :
  let s := (MUCClient.deliver (joined (jid.full occupantJID)) room_ready).2 in
  hooks (self s)
    = hooks (self room_ready) ++ [Hook "userJoinedRoom" [VRoom 0; VUser (User.init nick)]]
  ∧ roster_of 0 s = Some [("nick", User.init nick)].
Proof. split; vm_compute; reflexivity. Qed.

(** [test_userLeftRoom] *)
Example userLeftRoom_example :
  let s := (MUCClient.deliver (unavailable (jid.full occupantJID)) with_user).2 in
  hooks (self s)
    = hooks (self with_user) ++ [Hook "userLeftRoom" [VRoom 0; VUser (User.init nick)]]
  ∧ roster_of 0 s = Some [].
Proof. split; vm_compute; reflexivity. Qed.

(** [test_receivedGroupChat] and [test_receivedHistory] *)
Example receivedGroupChat_example :
  hooks (self (MUCClient.deliver (groupchat (jid.full occupantJID) [body "test"])
                 (hosted with_user)).2)
  = hooks (self with_user)
    ++ [Hook "receivedGroupChat" [VRoom 0; VUser (User.init nick); VStr "test"]].
Proof. vm_compute; reflexivity. Qed.

Example receivedHistory_example :
  hooks (self (MUCClient.deliver
                 (groupchat (jid.full occupantJID)
                    [body "test"; delay "2002-10-13T23:58:37Z" (jid.full userJID)])
                 with_user).2)
  = hooks (self with_user)
    ++ [Hook "receivedHistory"
          [VRoom 0; VUser (User.init nick); VStr "test";
           VStr "2002-10-13T23:58:37Z"; VStr "test@example.org/Testing"]].
Proof. vm_compute; reflexivity. Qed.

(** [test_leave] *)
Example leave_example :
  let left := MUCClient.leave roomJID room_ready in
  let s := (MUCClient.deliver (unavailable (jid.full occupantJID)) left.2).2 in
  left.1 = Ok 0
  ∧ output (self left.2) = [xmppim.UnavailablePresence (Some occupantJID)]
  ∧ deferred_store (proc s) !! 0 = Some (Some (Success (VBool true)))
  ∧ rooms (proc s) !! "test@conference.example.org" = None.
Proof.
  repeat split; vm_compute; reflexivity.
Qed.

(** [test_nick] *)
Example nick_example :
  let changed := MUCClient.nick roomJID "newNick" room_ready in
  let s := (MUCClient.deliver (joined "test@conference.example.org/newNick") changed.2).2 in
  changed.1 = Ok 0
  ∧ deferred_store (proc s) !! 0 = Some (Some (Success (VRoom 0)))
  ∧ Room.nick <$> room_store (proc s) !! 0 = Some "newNick".
Proof. repeat split; vm_compute; reflexivity. Qed.

End Examples.

(** * Further properties *)

(** ** The roster *)

(** X1: [removeUser] takes the occupant out of the roster under every
    spelling of the nickname and leaves the other occupants in. *)
Theorem removeUser_forgets_nickname (r : Room.t) (u : User.t) (n : string) :
  Room.getUser (Room.removeUser r u) (Some n)
  = if bool_decide (lower (User.nick u) = lower n) then Ok None
    else Room.getUser r (Some n).
Proof.
  unfold Room.removeUser, Room.inRoster, Room.getUser.
  case_bool_decide as Hin; case_bool_decide as Hn; cbn.
  - rewrite <- Hn. by rewrite lookup_delete_eq.
  - by rewrite lookup_delete_ne.
  - rewrite <- Hn. f_equal. by apply eq_None_not_Some.
  - done.
Qed.

(** X2: adding an occupant whose nickname is a spelling of one that is in
    the roster replaces that occupant: the roster holds one entry for the
    nickname, and [inRoster] finds it under either spelling. *)
Theorem addUser_replaces (r : Room.t) (u u' : User.t) :
  same_nickname (User.nick u) (User.nick u') →
  Room.addUser (Room.addUser r u) u' = Room.addUser r u'
  ∧ Room.inRoster (Room.addUser r u) u' = true
  ∧ size (Room.roster (Room.addUser (Room.addUser r u) u'))
    = size (Room.roster (Room.addUser r u)).
Proof.
  unfold same_nickname, Room.addUser, Room.inRoster, Room.set_roster. destruct r. cbn.
  intros ->. rewrite !insert_insert_eq.
  split; [done|]. split; [|by rewrite !map_size_insert].
  apply bool_decide_eq_true_2. rewrite lookup_insert_eq. by eexists.
Qed.

Lemma addUser_replaces_witness :
  let r := Room.mk None "test" "conference.example.org" "Nick"
             (Room.StatusInt 0) fixtures.occupantJID ∅ in
  Room.addUser (Room.addUser r (User.init "Nick")) (User.init "NICK")
  = Room.addUser r (User.init "NICK").
Proof.
  intros r. apply (addUser_replaces r (User.init "Nick") (User.init "NICK")). reflexivity.
Defined.

(** ** The registry of rooms *)

(** X3: a room that was registered is found under every address whose
    bare form is a spelling of that of its occupant address, whatever
    the resource; once removed it is found no more, and removing it
    again changes nothing and raises nothing. *)
Theorem registry_round_trip `{jid.Facility} (room : nat) (r : Room.t) (room_jid : jid.JID)
    (s : State) :
  room_store (proc s) !! room = Some r →
  room_key room_jid = room_key (Room.entity_id r) →
  ∃ s1 s2 : State,
    MUCClient._setRoom room s = (Ok tt, s1)
    ∧ MUCClient._getRoom room_jid s1 = (Ok (Some room), s1)
    ∧ MUCClient._removeRoom room_jid s1 = (Ok tt, s2)
    ∧ MUCClient._getRoom room_jid s2 = (Ok None, s2)
    ∧ MUCClient._removeRoom room_jid s2 = (Ok tt, s2).
Proof.
  unfold room_key. intros Hr Hkey.
  unfold MUCClient._setRoom, MUCClient._getRoom, MUCClient._removeRoom, MUCClient.deref,
    bind, gets, modify, with_proc.
  rewrite Hr, <- Hkey.
  eexists _, _. split; [reflexivity|]. cbn.
  rewrite lookup_insert_eq. split; [reflexivity|].
  rewrite bool_decide_eq_true_2 by (by eexists). split; [reflexivity|]. cbn.
  rewrite lookup_delete_eq. split; [reflexivity|].
  by rewrite bool_decide_eq_false_2 by (by intros [? ?]).
Qed.

Lemma registry_round_trip_witness :
  ∃ s1 s2 : State,
    MUCClient._setRoom 0 fixtures.room_ready = (Ok tt, s1)
    ∧ MUCClient._getRoom (jid.mk (Some "TEST") "Conference.Example.Org" (Some "Other")) s1
      = (Ok (Some 0), s1)
    ∧ MUCClient._removeRoom (jid.mk (Some "TEST") "Conference.Example.Org" (Some "Other")) s1
      = (Ok tt, s2)
    ∧ MUCClient._getRoom (jid.mk (Some "TEST") "Conference.Example.Org" (Some "Other")) s2
      = (Ok None, s2)
    ∧ MUCClient._removeRoom (jid.mk (Some "TEST") "Conference.Example.Org" (Some "Other")) s2
      = (Ok tt, s2).
Proof.
  refine (registry_round_trip 0 _ _ fixtures.room_ready _ _);
    [vm_compute; reflexivity | vm_compute; reflexivity].
Defined.

(** ** Inbound presence and the roster *)

Section Handlers.
Context `{jid.Facility}.

Lemma userLeavesRoom_runs (j : jid.JID) (n : string) (room : nat) (r : Room.t) (s : State) :
  jid.resource j = Some n →
  rooms (proc s) !! room_key j = Some room →
  room_store (proc s) !! room = Some r →
  MUCClient._userLeavesRoom j s
  = match Room.roster r !! lower n with
    | Some u =>
        if Room.inRoster r u then
          (Ok tt,
           hook_called "userLeftRoom" [VRoom room; VUser u]
             (with_proc (λ p, set_room_store
                               (alter (λ r, Room.removeUser r u) room (room_store p)) p) s))
        else (Ok tt, s)
    | None => (Ok tt, s)
    end.
Proof.
  unfold room_key. intros Hres Hroom Hr.
  unfold MUCClient._userLeavesRoom, MUCClient._getRoom, MUCClient.deref, MUCClient.update,
    MUCClient.call_hook, bind, lift, gets, modify, ret.
  rewrite Hroom, Hr, Hres. cbn [Room.getUser].
  destruct (Room.roster r !! lower n) as [u|]; [|done].
  by destruct (Room.inRoster r u).
Qed.

Lemma presence_from_runs (prs : domish.Element) (frm : string) (s : State) :
  domish.getAttribute prs "from" = Some frm →
  MUCClient._onUnavailablePresence prs s
  = bind (lift (jid.internJID frm)) MUCClient._userLeavesRoom s
  ∧ MUCClient._onPresenceError prs s
    = bind (lift (jid.internJID frm)) MUCClient._userLeavesRoom s.
Proof.
  intros Hfrom.
  unfold MUCClient._onUnavailablePresence, MUCClient._onPresenceError, domish.hasAttribute.
  unfold domish.getAttribute in *. rewrite Hfrom.
  by rewrite bool_decide_eq_true_2 by (by eexists).
Qed.

Lemma inRoster_of_key (r : Room.t) (u : User.t) (n : string) :
  roster_keys_lowered r → Room.roster r !! lower n = Some u →
  lower (User.nick u) = lower n ∧ Room.inRoster r u = true.
Proof.
  intros Hkeys Hu. pose proof (Hkeys _ _ Hu) as Hn. cbn in Hn. split; [done|].
  unfold Room.inRoster. rewrite <- Hn, Hu. by apply bool_decide_eq_true_2.
Qed.

End Handlers.

(** X4: an unavailable presence, and as well an error presence, from an
    occupant that is in the roster of a registered room takes the
    occupant out of that roster and reports it through [userLeftRoom],
    once; the registry, the other rooms and what was sent stay as they
    were. *)
Theorem occupant_leaves `{jid.Facility} (prs : domish.Element) (frm n : string)
    (j : jid.JID) (room : nat) (r : Room.t) (u : User.t) (s : State) :
  domish.getAttribute prs "from" = Some frm →
  jid.internJID frm = Ok j →
  jid.resource j = Some n →
  rooms (proc s) !! room_key j = Some room →
  room_store (proc s) !! room = Some r →
  roster_keys_lowered r →
  Room.roster r !! lower n = Some u →
  ∃ s' : State,
    MUCClient._onUnavailablePresence prs s = (Ok tt, s')
    ∧ MUCClient._onPresenceError prs s = (Ok tt, s')
    ∧ hooks (self s') = hooks (self s) ++ [Hook "userLeftRoom" [VRoom room; VUser u]]
    ∧ room_store (proc s') !! room
      = Some (Room.set_roster (delete (lower n) (Room.roster r)) r)
    ∧ (∀ a, a ≠ room → room_store (proc s') !! a = room_store (proc s) !! a)
    ∧ rooms (proc s') = rooms (proc s)
    ∧ output (self s') = output (self s).
Proof.
  intros Hfrom Hj Hres Hroom Hr Hkeys Hu.
  destruct (inRoster_of_key r u n Hkeys Hu) as [Hn Hin].
  destruct (presence_from_runs prs frm s Hfrom) as [-> ->].
  unfold bind at 1 2, lift. rewrite Hj, (userLeavesRoom_runs j n room r s Hres Hroom Hr), Hu, Hin.
  eexists. split; [reflexivity|]. split; [reflexivity|]. cbn.
  split; [done|]. split.
  - rewrite list_lookup_alter_eq, Hr. cbn. unfold Room.removeUser. by rewrite Hin, Hn.
  - split; [|done]. intros a Ha. by rewrite list_lookup_alter_ne.
Qed.

Lemma occupant_leaves_witness :
  ∃ s' : State,
    MUCClient._onUnavailablePresence
      (fixtures.unavailable "test@conference.example.org/NICK") fixtures.with_user
    = (Ok tt, s')
    ∧ hooks (self s')
      = hooks (self fixtures.with_user)
        ++ [Hook "userLeftRoom" [VRoom 0; VUser (User.init fixtures.nick)]].
Proof.
  destruct (occupant_leaves (fixtures.unavailable "test@conference.example.org/NICK")
              "test@conference.example.org/NICK" "NICK"
              (jid.mk (Some "test") "conference.example.org" (Some "NICK")) 0
              (Room.addUser
                 (Room.mk None "test" "conference.example.org" "Nick" (Room.StatusInt 0)
                          fixtures.occupantJID ∅)
                 (User.init fixtures.nick))
              (User.init fixtures.nick) fixtures.with_user)
    as (s' & Hrun & _ & Hhooks & _); try (vm_compute; reflexivity).
  - apply map_Forall_insert_2; [reflexivity | apply map_Forall_empty].
  - by exists s'.
Defined.

Section Strangers.
Context `{jid.Facility}.

Lemma from_present (e : domish.Element) (frm : string) :
  domish.getAttribute e "from" = Some frm →
  domish.hasAttribute e "from" = true ∧ domish.getitem e "from" = Ok frm.
Proof.
  unfold domish.getAttribute, domish.hasAttribute, domish.getitem. intros ->.
  split; [by apply bool_decide_eq_true_2 | done].
Qed.

Lemma from_absent (e : domish.Element) :
  domish.getAttribute e "from" = None → domish.hasAttribute e "from" = false.
Proof.
  unfold domish.getAttribute, domish.hasAttribute. intros ->.
  apply bool_decide_eq_false_2. by intros [? ?].
Qed.

End Strangers.

Lemma observers_ignore `{jid.Facility} (e : domish.Element) (s : State) :
  (domish.getAttribute e "from" = None
   ∨ ∃ (frm : string) (j : jid.JID),
       domish.getAttribute e "from" = Some frm ∧ jid.internJID frm = Ok j
       ∧ rooms (proc s) !! room_key j = None) →
  MUCClient._onXPresence e s = (Ok tt, s)
  ∧ MUCClient._onUnavailablePresence e s = (Ok tt, s)
  ∧ MUCClient._onPresenceError e s = (Ok tt, s)
  ∧ MUCClient._onGroupChat e s = (Ok tt, s)
  ∧ MUCClient._onSubject e s = (Ok tt, s).
Proof.
  unfold room_key.
  unfold MUCClient._onXPresence, MUCClient._onUnavailablePresence, MUCClient._onPresenceError,
    MUCClient._onGroupChat, MUCClient._onSubject, MUCClient._userLeavesRoom,
    MUCClient._getRoom.
  intros [Hfrom|(frm & j & Hfrom & Hj & Hroom)].
  - by rewrite (from_absent e Hfrom).
  - destruct (from_present e frm Hfrom) as [-> Hitem]. rewrite Hitem, Hfrom.
    unfold bind, lift, gets, ret. cbn -[jid.internJID]. by rewrite Hj, Hroom.
Qed.


(** X5: a stanza without a [from], and a stanza from an address whose
    room is not registered, is ignored by each of the five observers of
    [connectionInitialized]: nothing is raised and nothing changes. *)
Theorem stranger_ignored `{jid.Facility} (e : domish.Element) (s : State) :
  (domish.getAttribute e "from" = None
   ∨ ∃ (frm : string) (j : jid.JID),
       domish.getAttribute e "from" = Some frm ∧ jid.internJID frm = Ok j
       ∧ rooms (proc s) !! room_key j = None) →
  MUCClient._onXPresence e s = (Ok tt, s)
  ∧ MUCClient._onUnavailablePresence e s = (Ok tt, s)
  ∧ MUCClient._onPresenceError e s = (Ok tt, s)
  ∧ MUCClient._onGroupChat e s = (Ok tt, s)
  ∧ MUCClient._onSubject e s = (Ok tt, s).
Proof. apply observers_ignore. Qed.

Lemma stranger_ignored_witness :
  MUCClient._onGroupChat
    (fixtures.groupchat "other@conference.example.org/Nick" [fixtures.body "test"])
    fixtures.with_user
  = (Ok tt, fixtures.with_user).
Proof.
  apply (stranger_ignored
           (fixtures.groupchat "other@conference.example.org/Nick" [fixtures.body "test"])
           fixtures.with_user).
  right. exists "other@conference.example.org/Nick",
    (jid.mk (Some "other") "conference.example.org" (Some "Nick")).
  repeat split; vm_compute; reflexivity.
Defined.

(** X6: a [from] that the address parser rejects makes each of the five
    observers raise what the parser raised, before anything changed. *)
Theorem malformed_from_raises `{jid.Facility} (e : domish.Element) (frm : string)
    (exn : Exn) (s : State) :
  domish.getAttribute e "from" = Some frm →
  jid.internJID frm = Raise exn →
  MUCClient._onXPresence e s = (Raise exn, s)
  ∧ MUCClient._onUnavailablePresence e s = (Raise exn, s)
  ∧ MUCClient._onPresenceError e s = (Raise exn, s)
  ∧ MUCClient._onGroupChat e s = (Raise exn, s)
  ∧ MUCClient._onSubject e s = (Raise exn, s).
Proof.
  intros Hfrom Hj.
  unfold MUCClient._onXPresence, MUCClient._onUnavailablePresence, MUCClient._onPresenceError,
    MUCClient._onGroupChat, MUCClient._onSubject.
  destruct (from_present e frm Hfrom) as [-> Hitem]. rewrite Hitem, Hfrom.
  unfold bind, lift. cbn -[jid.internJID]. by rewrite Hj.
Qed.

Lemma malformed_from_raises_witness :
  MUCClient._onXPresence (fixtures.joined "@/") fixtures.with_user
  = (Raise (InvalidFormat "@/"), fixtures.with_user).
Proof.
  apply (malformed_from_raises (fixtures.joined "@/") "@/" (InvalidFormat "@/")
           fixtures.with_user); vm_compute; reflexivity.
Defined.

(** X7: a presence from the bare address of a registered room makes
    [_onXPresence], [_onUnavailablePresence] and [_onPresenceError]
    raise the attribute error of [None.lower()], as [_onGroupChat] does;
    the roster and the hooks are as they were. *)
Theorem presence_without_resource_raises `{jid.Facility} (prs : domish.Element)
    (frm : string) (j : jid.JID) (room : nat) (r : Room.t) (s : State) :
  domish.getAttribute prs "from" = Some frm →
  jid.internJID frm = Ok j →
  jid.resource j = None →
  rooms (proc s) !! room_key j = Some room →
  room_store (proc s) !! room = Some r →
  MUCClient._onXPresence prs s = (Raise (AttributeError "lower"), s)
  ∧ MUCClient._onUnavailablePresence prs s = (Raise (AttributeError "lower"), s)
  ∧ MUCClient._onPresenceError prs s = (Raise (AttributeError "lower"), s).
Proof.
  unfold room_key. intros Hfrom Hj Hres Hroom Hr.
  unfold MUCClient._onXPresence, MUCClient._onUnavailablePresence, MUCClient._onPresenceError,
    MUCClient._userLeavesRoom, MUCClient._getRoom, MUCClient.deref.
  destruct (from_present prs frm Hfrom) as [-> _]. rewrite Hfrom.
  unfold bind, lift, gets. cbn -[jid.internJID]. by rewrite Hj, Hroom, Hr, Hres.
Qed.

Lemma presence_without_resource_raises_witness :
  MUCClient._onUnavailablePresence
    (fixtures.unavailable "test@conference.example.org") fixtures.with_user
  = (Raise (AttributeError "lower"), fixtures.with_user).
Proof.
  refine (proj1 (proj2 (presence_without_resource_raises
           (fixtures.unavailable "test@conference.example.org")
           "test@conference.example.org" fixtures.roomJID 0 _ fixtures.with_user
           _ _ _ _ _))); vm_compute; reflexivity.
Defined.

(** X8: the first available presence with a MUC extension from a
    nickname that is not in the roster of a registered room puts a new
    occupant of that nickname, with affiliation and role "none", into
    the roster under the lower-cased nickname and reports it through
    [userJoinedRoom]. *)
Theorem occupant_joins `{jid.Facility} (prs : domish.Element) (frm n : string)
    (j : jid.JID) (room : nat) (r : Room.t) (s : State) :
  domish.getAttribute prs "from" = Some frm →
  jid.internJID frm = Ok j →
  jid.resource j = Some n →
  rooms (proc s) !! room_key j = Some room →
  room_store (proc s) !! room = Some r →
  Room.roster r !! lower n = None →
  ∃ s' : State,
    MUCClient._onXPresence prs s = (Ok tt, s')
    ∧ hooks (self s') = hooks (self s) ++ [Hook "userJoinedRoom" [VRoom room; VUser (User.init n)]]
    ∧ room_store (proc s') !! room = Some (Room.addUser r (User.init n))
    ∧ Room.getUser (Room.addUser r (User.init n)) (Some n) = Ok (Some (User.init n))
    ∧ (∀ a, a ≠ room → room_store (proc s') !! a = room_store (proc s) !! a)
    ∧ rooms (proc s') = rooms (proc s)
    ∧ output (self s') = output (self s).
Proof.
  unfold room_key. intros Hfrom Hj Hres Hroom Hr Hn.
  unfold MUCClient._onXPresence, MUCClient._getRoom, MUCClient.deref, MUCClient.update,
    MUCClient.call_hook.
  destruct (from_present prs frm Hfrom) as [-> _]. rewrite Hfrom.
  unfold bind, lift, gets, modify. cbn -[jid.internJID]. rewrite Hj, Hroom, Hr, Hres. cbn.
  rewrite Hn. unfold Room.inRoster. cbn. rewrite Hn.
  rewrite bool_decide_eq_false_2 by (by intros [? ?]).
  eexists. split; [reflexivity|]. cbn. split; [done|].
  split; [by rewrite list_lookup_alter_eq, Hr|].
  split; [by rewrite lookup_insert_eq|].
  split; [|done]. intros a Ha. by rewrite list_lookup_alter_ne.
Qed.

Lemma occupant_joins_witness :
  let prs := muc.UserPresence None None (Some "test@conference.example.org/Nick")
               (Some "member") (Some "participant") in
  ∃ s' : State,
    MUCClient._onXPresence prs fixtures.room_ready = (Ok tt, s')
    ∧ hooks (self s')
      = hooks (self fixtures.room_ready)
        ++ [Hook "userJoinedRoom" [VRoom 0; VUser (User.init "Nick")]].
Proof.
  intros prs.
  destruct (occupant_joins prs "test@conference.example.org/Nick" "Nick"
              fixtures.occupantJID 0
              (Room.mk None "test" "conference.example.org" "Nick" (Room.StatusInt 0)
                       fixtures.occupantJID ∅)
              fixtures.room_ready)
    as (s' & Hrun & Hhooks & _); try (vm_compute; reflexivity).
  by exists s'.
Defined.

(** X9: an available presence from an occupant that is in the roster
    leaves the roster as it is. It is reported through
    [userUpdatedStatus], with the [show] and [status] children of the
    presence, unless the MUC extension of the presence has a [status]
    child: then no hook is called and nothing changes at all. *)
Theorem occupant_updates `{jid.Facility} (prs : domish.Element) (frm n : string)
    (j : jid.JID) (room : nat) (r : Room.t) (u : User.t) (s : State) :
  domish.getAttribute prs "from" = Some frm →
  jid.internJID frm = Ok j →
  jid.resource j = Some n →
  rooms (proc s) !! room_key j = Some room →
  room_store (proc s) !! room = Some r →
  roster_keys_lowered r →
  Room.roster r !! lower n = Some u →
  MUCClient._onXPresence prs s
  = (Ok tt,
     match echo_status prs with
     | Some _ => s
     | None =>
         hook_called "userUpdatedStatus"
           [VRoom room; VUser u; MUCClient.opt_element (domish.child prs "show");
            MUCClient.opt_element (domish.child prs "status")] s
     end).
Proof.
  unfold room_key. intros Hfrom Hj Hres Hroom Hr Hkeys Hu.
  destruct (inRoster_of_key r u n Hkeys Hu) as [_ Hin].
  unfold MUCClient._onXPresence, MUCClient._getRoom, MUCClient.deref, MUCClient.update,
    MUCClient.call_hook.
  destruct (from_present prs frm Hfrom) as [-> _]. rewrite Hfrom.
  unfold bind, lift, gets, modify. cbn -[jid.internJID]. rewrite Hj, Hroom, Hr, Hres. cbn.
  rewrite Hu, Hin. unfold echo_status. by destruct (_ ≫= _).
Qed.

Lemma occupant_updates_witness :
  MUCClient._onXPresence (fixtures.created "test@conference.example.org/NICK")
    fixtures.with_user
  = (Ok tt, fixtures.with_user).
Proof.
  refine (occupant_updates (fixtures.created "test@conference.example.org/NICK")
            "test@conference.example.org/NICK" "NICK"
            (jid.mk (Some "test") "conference.example.org" (Some "NICK")) 0
            (Room.addUser
               (Room.mk None "test" "conference.example.org" "Nick" (Room.StatusInt 0)
                        fixtures.occupantJID ∅)
               (User.init fixtures.nick))
            (User.init fixtures.nick) fixtures.with_user _ _ _ _ _ _ _);
    try (vm_compute; reflexivity).
  apply map_Forall_insert_2; [reflexivity | apply map_Forall_empty].
Defined.

(** ** Inbound groupchat messages *)

Lemma last_filter_none {A} (P : A → Prop) `{∀ x, Decision (P x)} (l : list A) :
  Forall (λ x, ¬ P x) l → last (filter P l) = None.
Proof.
  intros Hl. replace (filter P l) with (@nil A); [done|].
  symmetry. induction Hl as [|x l Hx Hl IH]; [done|]. by rewrite filter_cons_False.
Qed.

Lemma last_filter_split {A} (P : A → Prop) `{∀ x, Decision (P x)} (l1 l2 : list A) (x : A) :
  P x → Forall (λ x, ¬ P x) l2 → last (filter P (l1 ++ x :: l2)) = Some x.
Proof.
  intros Hx Hl2. rewrite filter_app, filter_cons_True by done.
  replace (filter P l2) with (@nil A); [by rewrite last_snoc|].
  symmetry. induction Hl2 as [|y l Hy Hl IH]; [done|]. by rewrite filter_cons_False.
Qed.

Section GroupChat.
Context `{jid.Facility}.

Lemma onGroupChat_runs (msg : domish.Element) (frm n : string) (j : jid.JID) (room : nat)
    (r : Room.t) (s : State) :
  domish.getAttribute msg "from" = Some frm →
  jid.internJID frm = Ok j →
  jid.resource j = Some n →
  rooms (proc s) !! room_key j = Some room →
  room_store (proc s) !! room = Some r →
  MUCClient._onGroupChat msg s
  = match last (filter (λ e, MUCClient.is_delay e = true) (domish.elements msg)) with
    | None =>
        if has_receivedGroupChat (self s) then
          (Ok tt,
           hook_called "receivedGroupChat"
             [VRoom room; MUCClient.opt_user (Room.roster r !! lower n);
              VStr (domish.unicode (domish.child msg "body"))] s)
        else (Raise (AttributeError "receivedGroupChat"), s)
    | Some delay =>
        match domish.getAttribute delay "stamp" with
        | Some stamp =>
            (Ok tt,
             hook_called "receivedHistory"
               [VRoom room; MUCClient.opt_user (Room.roster r !! lower n);
                VStr (domish.unicode (domish.child msg "body")); VStr stamp;
                MUCClient.opt_str (domish.getAttribute delay "from")] s)
        | None => (Raise (KeyError "stamp"), s)
        end
    end.
Proof.
  unfold room_key. intros Hfrom Hj Hres Hroom Hr.
  unfold MUCClient._onGroupChat, MUCClient._getRoom, MUCClient.deref,
    MUCClient.receivedGroupChat, MUCClient.call_hook.
  destruct (from_present msg frm Hfrom) as [-> _]. rewrite Hfrom.
  unfold bind, lift, gets, modify, raise. cbn -[jid.internJID]. rewrite Hj, Hroom, Hr, Hres.
  cbn [Room.getUser].
  destruct (last _) as [delay|]; [|by destruct (has_receivedGroupChat (self s))].
  unfold domish.getitem, domish.getAttribute. by destruct (domish.attributes delay !! "stamp").
Qed.

Lemma onGroupChat_last_delay (msg delay : domish.Element)
    (before after : list domish.Element) (frm n : string)
    (j : jid.JID) (room : nat) (r : Room.t) (s : State) :
  domish.getAttribute msg "from" = Some frm →
  jid.internJID frm = Ok j →
  jid.resource j = Some n →
  rooms (proc s) !! room_key j = Some room →
  room_store (proc s) !! room = Some r →
  domish.elements msg = before ++ delay :: after →
  domish.uri delay = Some NS_DELAY ∨ domish.uri delay = Some NS_JABBER_DELAY →
  Forall (λ e, domish.uri e ≠ Some NS_DELAY ∧ domish.uri e ≠ Some NS_JABBER_DELAY) after →
  MUCClient._onGroupChat msg s
  = match domish.getAttribute delay "stamp" with
    | Some stamp =>
        (Ok tt,
         hook_called "receivedHistory"
           [VRoom room; MUCClient.opt_user (Room.roster r !! lower n);
            VStr (domish.unicode (domish.child msg "body")); VStr stamp;
            MUCClient.opt_str (domish.getAttribute delay "from")] s)
    | None => (Raise (KeyError "stamp"), s)
    end.
Proof.
  intros Hfrom Hj Hres Hroom Hr Helements Hdelay Hafter.
  rewrite (onGroupChat_runs msg frm n j room r s Hfrom Hj Hres Hroom Hr).
  rewrite Helements, last_filter_split; [done | |].
  - unfold MUCClient.is_delay.
    destruct Hdelay as [Hd | Hd];
      [by rewrite (bool_decide_eq_true_2 _ Hd)
      | by rewrite (bool_decide_eq_true_2 _ Hd), orb_true_r].
  - eapply Forall_impl; [exact Hafter|]. intros e [H1 H2]. unfold MUCClient.is_delay.
    by rewrite !bool_decide_eq_false_2.
Qed.

End GroupChat.

(** X10: a groupchat message, from an occupant address of a registered
    room, none of whose child elements is in one of the two delay
    namespaces is never reported through [receivedHistory]. On a handler
    the host has put a [receivedGroupChat] on, that hook is called
    once, with the occupant the roster has for the lower-cased nickname,
    or [None], and the text of the body. The class defines no
    [receivedGroupChat]: on a handler without one the call raises the
    attribute error, and nothing has changed. *)
Theorem groupchat_without_delay `{jid.Facility} (msg : domish.Element) (frm n : string)
    (j : jid.JID) (room : nat) (r : Room.t) (s : State) :
  domish.getAttribute msg "from" = Some frm →
  jid.internJID frm = Ok j →
  jid.resource j = Some n →
  rooms (proc s) !! room_key j = Some room →
  room_store (proc s) !! room = Some r →
  Forall (λ e, domish.uri e ≠ Some NS_DELAY ∧ domish.uri e ≠ Some NS_JABBER_DELAY)
         (domish.elements msg) →
  MUCClient._onGroupChat msg s
  = if has_receivedGroupChat (self s) then
      (Ok tt,
       hook_called "receivedGroupChat"
         [VRoom room; MUCClient.opt_user (Room.roster r !! lower n);
          VStr (domish.unicode (domish.child msg "body"))] s)
    else (Raise (AttributeError "receivedGroupChat"), s).
Proof.
  intros Hfrom Hj Hres Hroom Hr Hplain.
  rewrite (onGroupChat_runs msg frm n j room r s Hfrom Hj Hres Hroom Hr).
  rewrite last_filter_none; [done|].
  eapply Forall_impl; [exact Hplain|]. intros e [H1 H2]. unfold MUCClient.is_delay.
  by rewrite !bool_decide_eq_false_2.
Qed.

Lemma groupchat_without_delay_witness :
  let msg :=
    fixtures.groupchat "test@conference.example.org/Stranger" [fixtures.body "test"] in
  MUCClient._onGroupChat msg (fixtures.hosted fixtures.with_user)
  = (Ok tt,
     hook_called "receivedGroupChat" [VRoom 0; VNone; VStr "test"]
       (fixtures.hosted fixtures.with_user))
  ∧ MUCClient._onGroupChat msg fixtures.with_user
    = (Raise (AttributeError "receivedGroupChat"), fixtures.with_user).
Proof.
  intros msg.
  assert (Hroom : ∀ s, proc s = proc fixtures.with_user →
            MUCClient._onGroupChat msg s
            = if has_receivedGroupChat (self s) then
                (Ok tt, hook_called "receivedGroupChat" [VRoom 0; VNone; VStr "test"] s)
              else (Raise (AttributeError "receivedGroupChat"), s)).
  { intros s Hs.
    refine (groupchat_without_delay msg "test@conference.example.org/Stranger" "Stranger"
              (jid.mk (Some "test") "conference.example.org" (Some "Stranger")) 0
              (Room.addUser
                 (Room.mk None "test" "conference.example.org" "Nick" (Room.StatusInt 0)
                          fixtures.occupantJID ∅)
                 (User.init fixtures.nick))
              s _ _ _ _ _ _); rewrite ?Hs; try (vm_compute; reflexivity).
    repeat constructor; discriminate. }
  split; [exact (Hroom (fixtures.hosted fixtures.with_user) eq_refl)
         | exact (Hroom fixtures.with_user eq_refl)].
Defined.

(** X11: of the child elements in a delay namespace, the modern or the
    legacy one, the last decides: the message is reported through
    [receivedHistory] with the [stamp] of that child and its [from], or
    [None] without one; when that child has no [stamp] the handler
    raises [KeyError] and calls no hook. *)
Theorem last_delay_decides `{jid.Facility} (msg delay : domish.Element)
    (before after : list domish.Element) (frm n : string)
    (j : jid.JID) (room : nat) (r : Room.t) (s : State) :
  domish.getAttribute msg "from" = Some frm →
  jid.internJID frm = Ok j →
  jid.resource j = Some n →
  rooms (proc s) !! room_key j = Some room →
  room_store (proc s) !! room = Some r →
  domish.elements msg = before ++ delay :: after →
  domish.uri delay = Some NS_DELAY ∨ domish.uri delay = Some NS_JABBER_DELAY →
  Forall (λ e, domish.uri e ≠ Some NS_DELAY ∧ domish.uri e ≠ Some NS_JABBER_DELAY) after →
  MUCClient._onGroupChat msg s
  = match domish.getAttribute delay "stamp" with
    | Some stamp =>
        (Ok tt,
         hook_called "receivedHistory"
           [VRoom room; MUCClient.opt_user (Room.roster r !! lower n);
            VStr (domish.unicode (domish.child msg "body")); VStr stamp;
            MUCClient.opt_str (domish.getAttribute delay "from")] s)
    | None => (Raise (KeyError "stamp"), s)
    end.
Proof. apply onGroupChat_last_delay. Qed.

Lemma last_delay_decides_witness :
  MUCClient._onGroupChat
    (fixtures.groupchat "test@conference.example.org/Nick"
       [fixtures.delay "20021013T23:58:37" "a@example.org"; fixtures.body "test";
        domish.NElem (domish.Elem "x" (Some NS_JABBER_DELAY) ∅ [])])
    fixtures.with_user
  = (Raise (KeyError "stamp"), fixtures.with_user).
Proof.
  refine (last_delay_decides
            (fixtures.groupchat "test@conference.example.org/Nick"
               [fixtures.delay "20021013T23:58:37" "a@example.org"; fixtures.body "test";
                domish.NElem (domish.Elem "x" (Some NS_JABBER_DELAY) ∅ [])])
            (domish.Elem "x" (Some NS_JABBER_DELAY) ∅ [])
            [_; _] [] "test@conference.example.org/Nick" "Nick" fixtures.occupantJID 0
            (Room.addUser
               (Room.mk None "test" "conference.example.org" "Nick" (Room.StatusInt 0)
                        fixtures.occupantJID ∅)
               (User.init fixtures.nick))
            fixtures.with_user _ _ _ _ _ _ _ _); try (vm_compute; reflexivity).
  - by right.
  - constructor.
Defined.

(** ** What is sent and how it is read back *)

Lemma relayed_from (frm : string) (msg : domish.Element) :
  domish.getAttribute (relayed frm msg) "from" = Some frm.
Proof. unfold relayed, domish.getAttribute. cbn. apply lookup_insert_eq. Qed.

Lemma relayed_other (frm k : string) (msg : domish.Element) :
  k ≠ "from" → domish.getAttribute (relayed frm msg) k = domish.getAttribute msg k.
Proof. intros Hk. unfold relayed, domish.getAttribute. cbn. by apply lookup_insert_ne. Qed.

Lemma relayed_children (frm : string) (msg : domish.Element) :
  domish.name (relayed frm msg) = domish.name msg
  ∧ domish.elements (relayed frm msg) = domish.elements msg
  ∧ ∀ k, domish.child (relayed frm msg) k = domish.child msg k.
Proof. done. Qed.

Lemma GroupChat_attributes (to : muc.Address) (body subject : option string) :
  domish.name (muc.GroupChat to body subject None) = "message"
  ∧ domish.getAttribute (muc.GroupChat to body subject None) "type" = Some "groupchat"
  ∧ domish.getAttribute (muc.GroupChat to body subject None) "to"
    = Some (match to with muc.AddrJID j => jid.userhost j | muc.AddrStr a => a end).
Proof.
  unfold muc.GroupChat, domish.getAttribute.
  destruct (truthy body), (truthy subject); cbn;
    (split; [done|]); (split; [by rewrite lookup_insert_ne, lookup_insert_eq
                              | by rewrite lookup_insert_eq]).
Qed.

Lemma matches_relayed_GroupChat (to : muc.Address) (body subject : option string)
    (frm : string) :
  matches_groupchat (relayed frm (muc.GroupChat to body subject None)) = truthy body
  ∧ matches_subject (relayed frm (muc.GroupChat to body subject None)) = truthy subject.
Proof.
  destruct (GroupChat_attributes to body subject) as (Hname & Htype & _).
  destruct (relayed_children frm (muc.GroupChat to body subject None)) as (Hn & _ & Hchild).
  unfold matches_groupchat, matches_subject, is_stanza.
  rewrite Hn, Hname, relayed_other, Htype, !Hchild, !bool_decide_eq_true_2 by done.
  cbn [andb]. unfold muc.GroupChat.
  destruct body as [[|a b]|], subject as [[|a' b']|]; by vm_compute.
Qed.

(** X12: what [groupChat] sends for a text that is not empty is, once
    the room has relayed it, a stanza for the groupchat observer and not
    for the subject observer, and on a handler the host has put a
    [receivedGroupChat] on, [_onGroupChat] reports it through that hook
    with the text that was sent. *)
Theorem groupChat_round_trip `{jid.Facility} (to : muc.Address) (message frm n : string)
    (j : jid.JID) (room : nat) (r : Room.t) (s0 s : State) :
  message ≠ "" →
  jid.internJID frm = Ok j →
  jid.resource j = Some n →
  rooms (proc s) !! room_key j = Some room →
  room_store (proc s) !! room = Some r →
  has_receivedGroupChat (self s) = true →
  ∃ msg : domish.Element,
    Messaging.groupChat to message None s0 = (Ok tt, sent [msg] s0)
    ∧ matches_groupchat (relayed frm msg) = true
    ∧ matches_subject (relayed frm msg) = false
    ∧ MUCClient._onGroupChat (relayed frm msg) s
      = (Ok tt,
         hook_called "receivedGroupChat"
           [VRoom room; MUCClient.opt_user (Room.roster r !! lower n); VStr message] s).
Proof.
  intros Hmessage Hj Hres Hroom Hr Hhosted.
  exists (muc.GroupChat to (Some message) None None). split; [done|].
  destruct (matches_relayed_GroupChat to (Some message) None frm) as [-> ->].
  destruct message as [|a m]; [done|]. split; [done|]. split; [done|].
  rewrite (onGroupChat_runs _ frm n j room r s (relayed_from _ _) Hj Hres Hroom Hr).
  cbn. by rewrite Hhosted.
Qed.

Lemma groupChat_round_trip_witness :
  ∃ msg : domish.Element,
    Messaging.groupChat (muc.AddrJID fixtures.roomJID) "This is a test" None
      fixtures.connected
    = (Ok tt, sent [msg] fixtures.connected)
    ∧ MUCClient._onGroupChat (relayed "test@conference.example.org/Nick" msg)
        (fixtures.hosted fixtures.with_user)
      = (Ok tt,
         hook_called "receivedGroupChat"
           [VRoom 0; VUser (User.init "Nick"); VStr "This is a test"]
           (fixtures.hosted fixtures.with_user)).
Proof.
  destruct (groupChat_round_trip (muc.AddrJID fixtures.roomJID) "This is a test"
              "test@conference.example.org/Nick" "Nick" fixtures.occupantJID 0
              (Room.addUser
                 (Room.mk None "test" "conference.example.org" "Nick" (Room.StatusInt 0)
                          fixtures.occupantJID ∅)
                 (User.init fixtures.nick))
              fixtures.connected (fixtures.hosted fixtures.with_user))
    as (msg & Hsent & _ & _ & Hread); try (vm_compute; reflexivity); [done|].
  exists msg. split; [exact Hsent | exact Hread].
Defined.

(** X13: [groupChat] with the empty text sends a groupchat message
    without a body; relayed, it is a stanza for none of the two message
    observers, so that no hook is called for it. *)
Theorem groupChat_empty_text (to : muc.Address) (frm : string) (s0 : State) :
  ∃ msg : domish.Element,
    Messaging.groupChat to "" None s0 = (Ok tt, sent [msg] s0)
    ∧ domish.children msg = []
    ∧ matches_groupchat (relayed frm msg) = false
    ∧ matches_subject (relayed frm msg) = false.
Proof.
  exists (muc.GroupChat to (Some "") None None). split; [done|]. split; [done|].
  by destruct (matches_relayed_GroupChat to (Some "") None frm) as [-> ->].
Qed.

(** X14: what [subject] sends for a text that is not empty is, once
    relayed, a stanza for the subject observer and not for the groupchat
    observer, and [_onSubject] hands the text to [receivedSubject]. *)
Theorem subject_round_trip `{jid.Facility} (to : muc.Address) (text frm : string)
    (j : jid.JID) (room : nat) (s0 s : State) :
  text ≠ "" →
  jid.internJID frm = Ok j →
  rooms (proc s) !! room_key j = Some room →
  ∃ msg : domish.Element,
    Messaging.subject to text s0 = (Ok tt, sent [msg] s0)
    ∧ matches_subject (relayed frm msg) = true
    ∧ matches_groupchat (relayed frm msg) = false
    ∧ MUCClient._onSubject (relayed frm msg) s
      = (Ok tt, hook_called "receivedSubject" [VJID j; VStr text] s).
Proof.
  unfold room_key. intros Htext Hj Hroom.
  exists (muc.GroupChat to None (Some text) None). split; [done|].
  destruct (matches_relayed_GroupChat to None (Some text) frm) as [-> ->].
  destruct text as [|a m]; [done|]. split; [done|]. split; [done|].
  unfold MUCClient._onSubject, MUCClient._getRoom, MUCClient.call_hook.
  destruct (from_present _ frm (relayed_from frm (muc.GroupChat to None (Some (String a m)) None)))
    as [-> ->].
  unfold bind, lift, gets, modify. cbn -[jid.internJID]. by rewrite Hj, Hroom.
Qed.

Lemma subject_round_trip_witness :
  ∃ msg : domish.Element,
    Messaging.subject (muc.AddrJID fixtures.roomJID) "This is a test" fixtures.connected
    = (Ok tt, sent [msg] fixtures.connected)
    ∧ MUCClient._onSubject (relayed "test@conference.example.org/Nick" msg)
        fixtures.with_user
      = (Ok tt,
         hook_called "receivedSubject"
           [VJID fixtures.occupantJID; VStr "This is a test"] fixtures.with_user).
Proof.
  destruct (subject_round_trip (muc.AddrJID fixtures.roomJID) "This is a test"
              "test@conference.example.org/Nick" fixtures.occupantJID 0
              fixtures.connected fixtures.with_user)
    as (msg & Hsent & _ & _ & Hread); try (vm_compute; reflexivity); [done|].
  exists msg. split; [exact Hsent | exact Hread].
Defined.

(** X15: a [HistoryMessage] with a body, once relayed, is reported by
    [_onGroupChat] through [receivedHistory] and not through
    [receivedGroupChat], with the stamp it was built with and with the
    original sender when one was given, [None] otherwise. *)
Theorem HistoryMessage_round_trip `{jid.Facility} (to : muc.Address)
    (stamp body frm n : string) (subject h_frm : option string)
    (j : jid.JID) (room : nat) (r : Room.t) (s : State) :
  body ≠ "" →
  jid.internJID frm = Ok j →
  jid.resource j = Some n →
  rooms (proc s) !! room_key j = Some room →
  room_store (proc s) !! room = Some r →
  MUCClient._onGroupChat
    (relayed frm (muc.HistoryMessage to stamp (Some body) subject None h_frm)) s
  = (Ok tt,
     hook_called "receivedHistory"
       [VRoom room; MUCClient.opt_user (Room.roster r !! lower n); VStr body; VStr stamp;
        if truthy h_frm then MUCClient.opt_str h_frm else VNone] s).
Proof.
  intros Hbody Hj Hres Hroom Hr.
  rewrite (onGroupChat_runs _ frm n j room r s (relayed_from _ _) Hj Hres Hroom Hr).
  destruct body as [|a b]; [done|].
  destruct (relayed_children frm
              (muc.HistoryMessage to stamp (Some (String a b)) subject None h_frm))
    as (_ & -> & ->).
  unfold muc.HistoryMessage, muc.GroupChat.
  destruct subject as [[|a' b']|], h_frm as [[|a'' b'']|]; cbn;
    unfold domish.getAttribute; cbn;
    rewrite ?lookup_insert_eq, ?lookup_insert_ne by done; by rewrite ?lookup_insert_eq.
Qed.

Lemma HistoryMessage_round_trip_witness :
  MUCClient._onGroupChat
    (relayed "test@conference.example.org/Nick"
       (muc.HistoryMessage (muc.AddrJID fixtures.roomJID) "20021013T23:58:37"
          (Some "test") None None (Some "test@example.org/Testing")))
    fixtures.with_user
  = (Ok tt,
     hook_called "receivedHistory"
       [VRoom 0; VUser (User.init "Nick"); VStr "test"; VStr "20021013T23:58:37";
        VStr "test@example.org/Testing"] fixtures.with_user).
Proof.
  refine (HistoryMessage_round_trip (muc.AddrJID fixtures.roomJID) "20021013T23:58:37"
            "test" "test@conference.example.org/Nick" "Nick" None
            (Some "test@example.org/Testing") fixtures.occupantJID 0
            (Room.addUser
               (Room.mk None "test" "conference.example.org" "Nick" (Room.StatusInt 0)
                        fixtures.occupantJID ∅)
               (User.init fixtures.nick))
            fixtures.with_user _ _ _ _ _); try (vm_compute; reflexivity). done.
Defined.

(** ** Resending an archive *)

Lemma sent_sent (l1 l2 : list domish.Element) (s : State) :
  sent l2 (sent l1 s) = sent (l1 ++ l2) s.
Proof. unfold sent, with_self, set_output. cbn. by rewrite app_assoc. Qed.

Lemma sent_nil (s : State) : sent [] s = s.
Proof. unfold sent, with_self, set_output. rewrite app_nil_r. by destruct s as [p []]. Qed.

Lemma for_each_app {A} (l1 l2 : list A) (body : A → M unit) (s : State) :
  for_each (l1 ++ l2) body s = bind (for_each l1 body) (λ _, for_each l2 body) s.
Proof.
  revert s. induction l1 as [|x l1 IH]; intros s; [done|].
  cbn. unfold bind in *. destruct (body x s) as [[[]|e] s1]; [apply IH | done].
Qed.

Section History.
Context `{jid.Facility}.

Lemma history_entry_runs (to mto : string) (m : domish.Element) (s : State) :
  domish.getAttribute m "to" = Some mto →
  ∃ e delay : domish.Element,
    MUCClient.history_entry to (EntryStanza m) s = (Ok tt, sent [e] s)
    ∧ domish.name e = domish.name m
    ∧ domish.getAttribute e "type" = Some "groupchat"
    ∧ domish.getAttribute e "to" = Some to
    ∧ domish.elements e = domish.elements m ++ [delay]
    ∧ domish.name delay = "delay"
    ∧ domish.uri delay = Some NS_DELAY
    ∧ domish.getAttribute delay "stamp" = Some (datetime.strftime_compact (now (proc s)))
    ∧ domish.getAttribute delay "from" = Some mto.
Proof.
  intros Hto. unfold domish.getAttribute in Hto.
  unfold MUCClient.history_entry, MUCClient._makeTimeStamp, MUCClient.send, domish.getitem,
    bind, lift, gets, modify, ret.
  cbn. rewrite lookup_insert_ne by done. rewrite Hto.
  eexists _, _. split; [reflexivity|]. split; [done|].
  split; [cbn; rewrite lookup_insert_ne by done; apply lookup_insert_eq|].
  split; [cbn; apply lookup_insert_eq|].
  split; [unfold domish.elements; cbn; by rewrite omap_app|].
  split; [done|]. split; [done|].
  split; [cbn; rewrite lookup_insert_ne by done; apply lookup_insert_eq|].
  cbn. apply lookup_insert_eq.
Qed.

Lemma history_well_formed (to : string) (l : list ArchiveEntry) (s : State) :
  Forall (λ m, ∃ e mto, m = EntryStanza e ∧ domish.getAttribute e "to" = Some mto) l →
  ∃ stanzas : list domish.Element,
    MUCClient.history to l s = (Ok tt, sent stanzas s)
    ∧ length stanzas = length l
    ∧ Forall (λ e, domish.getAttribute e "type" = Some "groupchat"
                   ∧ domish.getAttribute e "to" = Some to) stanzas.
Proof.
  unfold MUCClient.history. intros Hl. revert s.
  induction Hl as [|m l (e & mto & -> & Hto) Hl IH]; intros s.
  - exists []. by rewrite sent_nil.
  - destruct (history_entry_runs to mto e s Hto)
      as (e' & delay & Hrun & _ & Htype & Hto' & _).
    destruct (IH (sent [e'] s)) as (stanzas & Hrest & Hlen & Hall).
    exists (e' :: stanzas). cbn [for_each]. unfold bind. rewrite Hrun, Hrest, sent_sent.
    split; [done|]. split; [cbn; by rewrite Hlen|]. by constructor.
Qed.

End History.

(** X16: when every entry of the archive is a message element with a
    [to], [history] sends one stanza for each, in a row and nothing else
    changes; each is of type groupchat and addressed to the room. *)
Theorem history_sends_each `{jid.Facility} (to : string) (l : list ArchiveEntry)
    (s : State) :
  Forall (λ m, ∃ e mto, m = EntryStanza e ∧ domish.getAttribute e "to" = Some mto) l →
  ∃ stanzas : list domish.Element,
    MUCClient.history to l s = (Ok tt, sent stanzas s)
    ∧ length stanzas = length l
    ∧ Forall (λ e, domish.getAttribute e "type" = Some "groupchat"
                   ∧ domish.getAttribute e "to" = Some to) stanzas.
Proof. apply history_well_formed. Qed.

Lemma history_sends_each_witness :
  ∃ stanzas : list domish.Element,
    MUCClient.history "test@conference.example.org"
      [EntryStanza fixtures.archived1; EntryStanza fixtures.archived2] fixtures.connected
    = (Ok tt, sent stanzas fixtures.connected)
    ∧ length stanzas = 2.
Proof.
  destruct (history_sends_each "test@conference.example.org"
              [EntryStanza fixtures.archived1; EntryStanza fixtures.archived2]
              fixtures.connected)
    as (stanzas & Hrun & Hlen & _).
  - repeat constructor; eexists _, _; (split; [reflexivity | vm_compute; reflexivity]).
  - by exists stanzas.
Defined.

(** X17: [history] stops at the first entry that has no [to], a
    dictionary of stanza and timestamp for one: it raises [KeyError],
    the entries before it were sent and those after it are not. *)
Theorem history_stops_at_first_bad `{jid.Facility} (to : string)
    (good rest : list ArchiveEntry) (bad : ArchiveEntry) (s : State) :
  Forall (λ m, ∃ e mto, m = EntryStanza e ∧ domish.getAttribute e "to" = Some mto) good →
  match bad with
  | EntryStanza e => domish.getAttribute e "to" = None
  | EntryRecord _ _ => True
  end →
  ∃ stanzas : list domish.Element,
    MUCClient.history to (good ++ bad :: rest) s = (Raise (KeyError "to"), sent stanzas s)
    ∧ length stanzas = length good.
Proof.
  intros Hgood Hbad.
  destruct (history_well_formed to good s Hgood) as (stanzas & Hrun & Hlen & _).
  exists stanzas. split; [|done].
  unfold MUCClient.history in *. rewrite for_each_app. unfold bind at 1. rewrite Hrun.
  cbn [for_each]. unfold bind.
  destruct bad as [e|stanza timestamp]; [|done].
  unfold MUCClient.history_entry, domish.getitem, domish.getAttribute, bind, lift in *.
  cbn. rewrite lookup_insert_ne by done. by rewrite Hbad.
Qed.

Lemma history_stops_at_first_bad_witness :
  ∃ stanzas : list domish.Element,
    MUCClient.history "test@conference.example.org"
      [EntryStanza fixtures.archived1;
       EntryRecord fixtures.archived2 fixtures.stamp2;
       EntryStanza fixtures.archived2] fixtures.connected
    = (Raise (KeyError "to"), sent stanzas fixtures.connected)
    ∧ length stanzas = 1.
Proof.
  refine (history_stops_at_first_bad "test@conference.example.org"
            [EntryStanza fixtures.archived1] [EntryStanza fixtures.archived2]
            (EntryRecord fixtures.archived2 fixtures.stamp2) fixtures.connected _ I).
  repeat constructor; eexists _, _; (split; [reflexivity | vm_compute; reflexivity]).
Defined.

(** X18: what [history] sends for an archived message is, once relayed,
    read by [_onGroupChat] as history, whatever delay children the
    message had: [receivedHistory] gets the body of the message, the
    reading of the clock at the time of the resending as the stamp, and
    the original recipient as the original sender. *)
Theorem history_round_trip `{jid.Facility} (to mto frm n : string) (m : domish.Element)
    (j : jid.JID) (room : nat) (r : Room.t) (s0 s : State) :
  domish.getAttribute m "to" = Some mto →
  jid.internJID frm = Ok j →
  jid.resource j = Some n →
  rooms (proc s) !! room_key j = Some room →
  room_store (proc s) !! room = Some r →
  ∃ e : domish.Element,
    MUCClient.history to [EntryStanza m] s0 = (Ok tt, sent [e] s0)
    ∧ MUCClient._onGroupChat (relayed frm e) s
      = (Ok tt,
         hook_called "receivedHistory"
           [VRoom room; MUCClient.opt_user (Room.roster r !! lower n);
            VStr (domish.unicode (domish.child m "body"));
            VStr (datetime.strftime_compact (now (proc s0))); VStr mto] s).
Proof.
  intros Hto Hj Hres Hroom Hr.
  destruct (history_entry_runs to mto m s0 Hto)
    as (e & delay & Hrun & _ & _ & _ & Helements & Hname & Huri & Hstamp & Hfrom).
  exists e. split.
  { unfold MUCClient.history. cbn [for_each]. unfold bind. by rewrite Hrun. }
  rewrite (onGroupChat_last_delay (relayed frm e) delay (domish.elements m) [] frm n j room r s
             (relayed_from _ _) Hj Hres Hroom Hr Helements (or_introl Huri)
             (Forall_nil_2 _)).
  rewrite Hstamp, Hfrom. cbn [MUCClient.opt_str]. do 4 f_equal.
  unfold domish.child. destruct (relayed_children frm e) as (_ & -> & _).
  rewrite Helements, filter_app.
  rewrite (filter_cons_False _ delay) by (rewrite Hname; done).
  by rewrite filter_nil, app_nil_r.
Qed.

Lemma history_round_trip_witness :
  ∃ e : domish.Element,
    MUCClient.history "test@conference.example.org" [EntryStanza fixtures.archived1]
      fixtures.connected
    = (Ok tt, sent [e] fixtures.connected)
    ∧ MUCClient._onGroupChat (relayed "test@conference.example.org/Nick" e)
        fixtures.with_user
      = (Ok tt,
         hook_called "receivedHistory"
           [VRoom 0; VUser (User.init "Nick"); VStr "test"; VStr "20090314T15:09:26";
            VStr "testing@example.com"] fixtures.with_user).
Proof.
  refine (history_round_trip "test@conference.example.org" "testing@example.com"
            "test@conference.example.org/Nick" "Nick" fixtures.archived1
            fixtures.occupantJID 0
            (Room.addUser
               (Room.mk None "test" "conference.example.org" "Nick" (Room.StatusInt 0)
                        fixtures.occupantJID ∅)
               (User.init fixtures.nick))
            fixtures.connected fixtures.with_user _ _ _ _ _); vm_compute; reflexivity.
Defined.

(** ** The operations that await nothing *)

Lemma PrivateChat_type (to : string) (body : option string) :
  domish.attributes (muc.PrivateChat to body None) !! "type" = Some "chat".
Proof.
  unfold muc.PrivateChat. destruct (truthy body); cbn;
    by rewrite lookup_insert_ne, lookup_insert_eq.
Qed.

(** X19: [groupChat], [chat], [invite], [password] and [subject] never
    raise; each sends one stanza and leaves everything else as it was: no
    deferred is made, no timer set and no observer registered. *)
Theorem sends_one_stanza (to : muc.Address) (occupant : jid.JID) (address text : string)
    (reason full_jid : option string) (children : option (list domish.Element))
    (s : State) :
  (∃ msg, Messaging.groupChat to text children s = (Ok tt, sent [msg] s))
  ∧ (∃ msg, Messaging.chat address text children s = (Ok tt, sent [msg] s))
  ∧ (∃ msg, Messaging.invite address reason full_jid s = (Ok tt, sent [msg] s))
  ∧ (∃ p, Messaging.password occupant text s = (Ok tt, sent [p] s))
  ∧ (∃ msg, Messaging.subject to text s = (Ok tt, sent [msg] s)).
Proof.
  split; [by eexists|]. split; [by eexists|]. split; [|split; [|by eexists]].
  - unfold Messaging.invite, muc.InviteMessage, muc.delitem, res_bind, bind, lift.
    rewrite PrivateChat_type. by eexists.
  - by eexists.
Qed.

(** X20: the stanza [invite] sends has no [type]; it carries the
    invitation in an [invite] child of an [x] child, both in the MUC
    user namespace: the invitee in its [to] when one is given, and the
    reason as the text of a [reason] child when one is given. *)
Theorem invite_stanza (to : string) (reason full_jid : option string) (s : State) :
  ∃ msg x invite : domish.Element,
    Messaging.invite to reason full_jid s = (Ok tt, sent [msg] s)
    ∧ domish.name msg = "message"
    ∧ domish.getAttribute msg "type" = None
    ∧ domish.getAttribute msg "to" = Some to
    ∧ domish.elements msg = [x]
    ∧ (domish.name x, domish.uri x) = ("x", Some NS_MUC_USER)
    ∧ domish.elements x = [invite]
    ∧ (domish.name invite, domish.uri invite) = ("invite", Some NS_MUC_USER)
    ∧ domish.getAttribute invite "to" = (if truthy full_jid then full_jid else None)
    ∧ domish.child invite "reason"
      = (if truthy reason
         then Some (domish.Elem "reason" (Some NS_MUC_USER) ∅ [domish.NText (default "" reason)])
         else None).
Proof.
  unfold Messaging.invite, muc.InviteMessage, muc.delitem, res_bind, bind, lift.
  rewrite PrivateChat_type.
  destruct full_jid as [[|a b]|], reason as [[|a' b']|];
    (eexists _, _, _; split; [reflexivity|]; unfold domish.getAttribute; cbn;
     rewrite lookup_delete_eq, lookup_delete_ne, lookup_insert_eq by done;
     rewrite ?lookup_insert_eq; repeat split; reflexivity).
Qed.

(** X21: [PasswordPresence] always finds the [x] child it puts the
    password in: the presence [password] sends is addressed to the
    occupant address in full and has the password as the text of a
    [password] child of its MUC extension, in the MUC namespace, and not
    as a child of its own. *)
Theorem password_stanza (to : jid.JID) (secret : string) (s : State) :
  secret ≠ "" →
  ∃ p x : domish.Element,
    Messaging.password to secret s = (Ok tt, sent [p] s)
    ∧ domish.getAttribute p "to" = Some (jid.full to)
    ∧ domish.getAttribute p "type" = None
    ∧ domish.elements p = [x]
    ∧ (domish.name x, domish.uri x) = ("x", Some NS_MUC)
    ∧ domish.children x
      = [domish.NElem (domish.Elem "password" (Some NS_MUC) ∅ [domish.NText secret])].
Proof.
  intros Hsecret. destruct secret as [|a b]; [done|].
  eexists _, _. split; [reflexivity|]. unfold domish.getAttribute. cbn.
  split; [by rewrite lookup_insert_eq|]. split; [by rewrite lookup_insert_ne|].
  done.
Qed.

Lemma password_stanza_witness :
  ∃ p x : domish.Element,
    Messaging.password fixtures.occupantJID "secret" fixtures.connected
    = (Ok tt, sent [p] fixtures.connected)
    ∧ domish.elements p = [x]
    ∧ domish.children x
      = [domish.NElem (domish.Elem "password" (Some NS_MUC) ∅ [domish.NText "secret"])].
Proof.
  destruct (password_stanza fixtures.occupantJID "secret" fixtures.connected)
    as (p & x & Hsent & _ & _ & Hx & _ & Hpassword); [done|].
  by exists p, x.
Defined.

(** ** Error conditions *)

(** X22: [BadRequest(mucCondition, text)] hands its text on in the place
    of the feature: the error it builds has no text, and a text that is
    not empty is the [feature] attribute of its application condition,
    as the feature of an [Unsupported] error is. *)
Theorem BadRequest_text_is_feature (mucCondition text : string) :
  text ≠ "" →
  error.text (muc.BadRequest mucCondition (Some text)) = None
  ∧ error.condition (muc.BadRequest mucCondition (Some text)) = "bad-request"
  ∧ (error.appCondition (muc.BadRequest mucCondition (Some text))
       ≫= λ e, domish.getAttribute e "feature") = Some text
  ∧ (error.appCondition (muc.Unsupported (Some text) None)
       ≫= λ e, domish.getAttribute e "feature") = Some text.
Proof.
  intros Htext. destruct text as [|a b]; [done|].
  unfold domish.getAttribute. cbn. by rewrite lookup_insert_eq.
Qed.

Lemma BadRequest_text_is_feature_witness :
  error.text (muc.BadRequest "jid-malformed" (Some "Nick is not valid")) = None
  ∧ (error.appCondition (muc.BadRequest "jid-malformed" (Some "Nick is not valid"))
       ≫= λ e, domish.getAttribute e "feature") = Some "Nick is not valid".
Proof.
  destruct (BadRequest_text_is_feature "jid-malformed" "Nick is not valid")
    as (Htext & _ & Hfeature & _); [done|]. by split.
Defined.

(** ** Replies and timeouts *)

(** X23: the observer [leave] registers is called on unavailable
    presences only, so that the reply it hands to [_leftRoom] is never
    an error: [_leftRoom] never fails the deferred of a leave with a
    stanza, it fulfils it or leaves it uncalled. *)
Theorem leave_reply_never_an_error `{jid.Facility} (frm : string) (prs : domish.Element)
    (d : nat) (s : State) :
  matches (PresenceFromUnavailable frm) prs = true →
  deferred_store (proc s) !! d = Some None →
  MUCClient.is_error prs = false
  ∧ (deferred_store (proc (MUCClient._leftRoom d prs s).2) !! d = Some None
     ∨ deferred_store (proc (MUCClient._leftRoom d prs s).2) !! d
       = Some (Some (Success (VBool true)))).
Proof.
  intros Hq Hd. cbn in Hq. apply andb_prop in Hq as [_ Htype%bool_decide_eq_true_1].
  assert (Herror : MUCClient.is_error prs = false).
  { unfold MUCClient.is_error. rewrite Htype. by rewrite andb_false_r. }
  split; [exact Herror|].
  unfold MUCClient._leftRoom. rewrite Herror.
  unfold MUCClient._getRoom, MUCClient._removeRoom, defer.callback, defer.fire,
    defer.cancelTimeout, bind, lift, gets, modify, raise.
  destruct (domish.getitem prs "from") as [frm'|e]; [|by left].
  destruct (jid.internJID frm') as [room_jid|e]; [|by left].
  destruct (rooms (proc s) !! lower (jid.userhost room_jid)) as [room|] eqn:Hroom;
    [|by left].
  assert (Hsome : bool_decide (is_Some (rooms (proc s) !! lower (jid.userhost room_jid)))
                  = true) by (apply bool_decide_eq_true_2; by eexists).
  cbn. rewrite !Hsome. cbn. rewrite Hd. cbn. right. rewrite Hsome. cbn.
  apply list_lookup_insert_eq. by eapply lookup_lt_Some.
Qed.

Lemma leave_reply_never_an_error_witness :
  let s := (MUCClient.leave fixtures.roomJID fixtures.room_ready).2 in
  let prs := fixtures.unavailable "test@conference.example.org/Nick" in
  MUCClient.is_error prs = false
  ∧ (deferred_store (proc (MUCClient._leftRoom 0 prs s).2) !! 0 = Some None
     ∨ deferred_store (proc (MUCClient._leftRoom 0 prs s).2) !! 0
       = Some (Some (Success (VBool true)))).
Proof.
  intros s prs.
  apply (leave_reply_never_an_error "test@conference.example.org/Nick" prs 0 s);
    vm_compute; reflexivity.
Defined.

(** X24: a reply to a join that comes after the deferred of the join was
    called, as it is once the join has timed out, still marks the room
    as joined; the deferred keeps the outcome it had and [_joinedRoom]
    raises [AlreadyCalledError]. *)
Theorem late_reply_to_join `{jid.Facility} (d a : nat) (prs : domish.Element) (j : jid.JID)
    (r : Room.t) (o : Outcome) (s : State) :
  domish.getAttribute prs "from" = Some (jid.full j) →
  jid.internJID (jid.full j) = Ok j →
  domish.getAttribute prs "type" ≠ Some "error" →
  rooms (proc s) !! room_key j = Some a →
  room_store (proc s) !! a = Some r →
  deferred_store (proc s) !! d = Some (Some o) →
  ∃ s' : State,
    MUCClient._joinedRoom d prs s = (Raise AlreadyCalledError, s')
    ∧ room_store (proc s') !! a = Some (joined_room prs r)
    ∧ Room.state (joined_room prs r) = Some "joined"
    ∧ deferred_store (proc s') = deferred_store (proc s).
Proof.
  unfold room_key. intros Hfrom Hj Htype Hroom Hr Hd. unfold domish.getAttribute in Hfrom.
  unfold MUCClient._joinedRoom, MUCClient._getRoom, MUCClient.update, MUCClient.is_error,
    defer.callback, defer.fire, defer.cancelTimeout, domish.getitem,
    bind, lift, gets, modify, ret, raise.
  rewrite Hfrom, Hj, (bool_decide_eq_false_2 _ Htype), andb_false_r. cbn. rewrite Hroom.
  fold (echo_status prs).
  assert (Hstate : Room.state (joined_room prs r) = Some "joined")
    by (unfold joined_room; by destruct (echo_status prs)).
  destruct (echo_status prs) as [status|] eqn:Hstatus; cbn; rewrite Hd; cbn.
  - eexists. split; [reflexivity|]. cbn. split; [|done].
    rewrite !list_lookup_alter_eq, Hr. cbn. unfold joined_room. by rewrite Hstatus.
  - eexists. split; [reflexivity|]. cbn. split; [|done].
    rewrite !list_lookup_alter_eq, Hr. cbn. unfold joined_room. by rewrite Hstatus.
Qed.

Lemma late_reply_to_join_witness :
  let s := (MUCClient.advance DEFER_TIMEOUT
              (MUCClient.join fixtures.service fixtures.roomIdentifier fixtures.nick
                 fixtures.connected).2).2 in
  ∃ s' : State,
    MUCClient._joinedRoom 0 (fixtures.joined "test@conference.example.org/Nick") s
    = (Raise AlreadyCalledError, s')
    ∧ Room.state <$> room_store (proc s') !! 0 = Some (Some "joined")
    ∧ deferred_store (proc s') !! 0 = Some (Some timed_out).
Proof.
  intros s.
  destruct (late_reply_to_join 0 0 (fixtures.joined "test@conference.example.org/Nick")
              fixtures.occupantJID
              (Room.mk (Some "joining") "test" "conference.example.org" "Nick"
                       (Room.StatusInt 0) fixtures.occupantJID ∅)
              timed_out s)
    as (s' & Hrun & Hroom & Hstate & Hstore); try (vm_compute; reflexivity).
  - vm_compute. discriminate.
  - exists s'. split; [exact Hrun|]. split; [by rewrite Hroom|]. by rewrite Hstore.
Defined.

(** X25: [nick] changes the nickname of the room before it computes the
    new occupant address: with a nickname that makes the address one the
    parser rejects it raises what the parser raised, nothing is sent and
    no deferred is made, and the room is left with the new nickname and
    the old occupant address. *)
Theorem nick_rejected_by_parser `{jid.Facility} (room_jid : jid.JID) (new_nick : string)
    (room : nat) (r : Room.t) (exn : Exn) (s : State) :
  rooms (proc s) !! room_key room_jid = Some room →
  room_store (proc s) !! room = Some r →
  jid.internJID (Room.name r +:+ "@" +:+ Room.server r +:+ "/" +:+ new_nick) = Raise exn →
  ∃ s' : State,
    MUCClient.nick room_jid new_nick s = (Raise exn, s')
    ∧ room_store (proc s') !! room = Some (Room.set_nick new_nick r)
    ∧ Room.entity_id (Room.set_nick new_nick r) = Room.entity_id r
    ∧ self s' = self s
    ∧ deferred_store (proc s') = deferred_store (proc s)
    ∧ _deferreds (proc s') = _deferreds (proc s).
Proof.
  unfold room_key. intros Hroom Hr Hj.
  unfold MUCClient.nick, MUCClient._getRoom, MUCClient.entityId, MUCClient.update,
    MUCClient.deref, Room.entityId, res_bind, bind, lift, gets, modify.
  rewrite Hroom. cbn. rewrite list_lookup_alter_eq, Hr. cbn. rewrite Hj.
  eexists. split; [reflexivity|]. cbn. by rewrite list_lookup_alter_eq, Hr.
Qed.

Lemma nick_rejected_by_parser_witness :
  let bell := String (ascii_of_nat 7) "" in
  ∃ s' : State,
    @MUCClient.nick strict_jid.facility fixtures.roomJID bell fixtures.room_ready
    = (Raise (InvalidFormat ("test@conference.example.org/" +:+ bell)), s')
    ∧ room_store (proc s') !! 0
      = Some (Room.set_nick bell
                (Room.mk None "test" "conference.example.org" "Nick" (Room.StatusInt 0)
                         fixtures.occupantJID ∅)).
Proof.
  intros bell.
  destruct (@nick_rejected_by_parser strict_jid.facility fixtures.roomJID bell 0
              (Room.mk None "test" "conference.example.org" "Nick" (Room.StatusInt 0)
                       fixtures.occupantJID ∅)
              (InvalidFormat ("test@conference.example.org/" +:+ bell)) fixtures.room_ready)
    as (s' & Hrun & Hroom & _); try (vm_compute; reflexivity).
  by exists s'.
Defined.

(** ** The list of pending deferreds *)

#[export] Instance pending_grows_Frame : Frame pending_grows.
Proof.
  split; unfold pending_grows.
  - done.
  - intros s1 s2 s3 H12 H23. by etrans.
  - done.
  - done.
Qed.

Lemma pending_same (s s' : State) :
  _deferreds (proc s') = _deferreds (proc s) → pending_grows s s'.
Proof. unfold pending_grows. by intros ->. Qed.

Lemma keeps_reply_pending {A} (m : M A) : keeps reply_frame m → keeps pending_grows m.
Proof. intros Hm s. destruct (Hm s) as (_ & Hl & _). by apply pending_same. Qed.

Section Pending.
Context `{jid.Facility}.

Lemma pending_modify (f : State → State) :
  (∀ s, _deferreds (proc (f s)) = _deferreds (proc s)) → keeps pending_grows (modify f).
Proof. intros Hf s. apply pending_same, Hf. Qed.

Lemma pending_deref (room : nat) : keeps pending_grows (MUCClient.deref room).
Proof. apply keeps_reply_pending, reply_deref. Qed.

Lemma pending_fire (d : nat) (o : Outcome) : keeps pending_grows (defer.fire d o).
Proof. intros s. apply pending_same, fire_deferreds. Qed.

Lemma pending_run_callback (cb : Callback) (obj : domish.Element) :
  keeps pending_grows (MUCClient.run_callback cb obj).
Proof.
  destruct cb as [d|d room_jid|d]; cbn [MUCClient.run_callback].
  - unfold MUCClient._joinedRoom.
    apply keeps_bind; [apply _ | apply keeps_lift, _ |]. intros frm.
    apply keeps_bind; [apply _ | apply keeps_lift, _ |]. intros room_jid.
    case_match; [apply pending_fire|].
    apply keeps_bind; [apply _ | apply keeps_gets, _ |].
    intros [r|]; [|apply keeps_raise, _].
    apply keeps_bind; [apply _ | by apply pending_modify | intros _].
    apply keeps_bind; [apply _ | | intros _; apply pending_fire].
    destruct (_ ≫= _); [by apply pending_modify | apply keeps_ret, _].
  - unfold MUCClient._changed.
    apply keeps_bind; [apply _ | apply keeps_gets, _ |]. intros r. apply pending_fire.
  - unfold MUCClient._leftRoom.
    apply keeps_bind; [apply _ | apply keeps_lift, _ |]. intros frm.
    apply keeps_bind; [apply _ | apply keeps_lift, _ |]. intros room_jid.
    case_match; [apply pending_fire|].
    apply keeps_bind; [apply _ | apply keeps_gets, _ |].
    intros [r|]; [|apply keeps_raise, _].
    apply keeps_bind; [apply _ | | intros _; apply pending_fire].
    apply pending_modify. intros s. cbn. by case_match.
Qed.

Lemma pending_deliver (obj : domish.Element) : keeps pending_grows (MUCClient.deliver obj).
Proof.
  unfold MUCClient.deliver, MUCClient.call_onetime.
  apply keeps_bind; [apply _ | | intros _; apply keeps_reply_pending, reply_call_observers].
  apply keeps_bind; [apply _ | apply keeps_gets, _ |]. intros pending.
  apply keeps_bind; [apply _ | by apply pending_modify | intros _].
  apply keeps_for_each; [apply _|]. intros o.
  apply keeps_protect; [apply _|]. apply pending_run_callback.
Qed.

Lemma pending_sendDeferred (obj : domish.Element) (timeout : nat) :
  keeps pending_grows (MUCClient.sendDeferred obj timeout).
Proof. intros s. by apply prefix_app_r. Qed.

Lemma pending_entityId (room : nat) : keeps pending_grows (MUCClient.entityId room).
Proof.
  unfold MUCClient.entityId.
  apply keeps_bind; [apply _ | apply pending_deref |]. intros r.
  apply keeps_bind; [apply _ | apply keeps_lift, _ |]. intros res.
  apply keeps_bind; [apply _ | by apply pending_modify | intros _; apply keeps_ret, _].
Qed.

Lemma pending_await (p : domish.Element) (k : nat → M unit) :
  (∀ d s, _deferreds (proc (k d s).2) = _deferreds (proc s)) →
  keeps pending_grows
    (bind (MUCClient.sendDeferred p DEFER_TIMEOUT) (λ d, bind (k d) (λ _, ret d))).
Proof.
  intros Hk. apply keeps_bind; [apply _ | apply pending_sendDeferred |]. intros d.
  apply keeps_bind; [apply _ | | intros _; apply keeps_ret, _].
  intros s. apply pending_same, Hk.
Qed.

Lemma pending_run (ev : Event) (s : State) :
  match ev with Advance _ => False | _ => True end →
  pending_grows s (run ev s).
Proof.
  destruct ev; intros Hev; try done; cbn [run].
  - apply (keeps_bind pending_grows); [by apply pending_modify|].
    intros _. apply keeps_call_hook, _.
  - unfold MUCClient.join, MUCClient.new_room, MUCClient._setRoom.
    apply (keeps_bind pending_grows).
    { apply keeps_bind; [apply _ | apply keeps_lift, _ |]. intros r.
      apply keeps_bind; [apply _ | apply keeps_gets, _ |]. intros ref.
      apply keeps_bind; [apply _ | by apply pending_modify | intros _; apply keeps_ret, _]. }
    intros r. apply keeps_bind; [apply _ | | intros _].
    { apply keeps_bind; [apply _ | apply pending_deref |]. intros room_obj.
      by apply pending_modify. }
    apply keeps_bind; [apply _ | apply pending_deref |]. intros room_obj.
    by apply pending_await.
  - unfold MUCClient.nick.
    apply (keeps_bind pending_grows); [apply keeps_gets, _|].
    intros [r|]; [|apply keeps_raise, _].
    apply keeps_bind; [apply _ | by apply pending_modify | intros _].
    apply keeps_bind; [apply _ | apply pending_entityId |]. intros entity_id.
    apply keeps_bind; [apply _ | apply pending_sendDeferred |]. intros d.
    apply keeps_bind; [apply _ | apply pending_deref |]. intros room_obj.
    apply keeps_bind; [apply _ | by apply pending_modify | intros _; apply keeps_ret, _].
  - unfold MUCClient.leave.
    apply (keeps_bind pending_grows); [apply keeps_gets, _|].
    intros [r|]; [|apply keeps_raise, _].
    apply keeps_bind; [apply _ | apply pending_deref |]. intros room_obj.
    by apply pending_await.
  - unfold MUCClient.status.
    apply (keeps_bind pending_grows); [apply keeps_gets, _|].
    intros [r|]; [|apply keeps_raise, _].
    apply keeps_bind; [apply _ | apply pending_entityId |]. intros entity_id.
    apply keeps_bind; [apply _ | apply pending_sendDeferred |]. intros d.
    apply keeps_bind; [apply _ | apply pending_deref |]. intros room_obj.
    apply keeps_bind; [apply _ | by apply pending_modify | intros _; apply keeps_ret, _].
  - unfold MUCClient.history.
    apply (keeps_for_each pending_grows). intros [m|stanza timestamp]; [|apply keeps_raise, _].
    unfold MUCClient.history_entry, MUCClient._makeTimeStamp.
    apply keeps_bind; [apply _ | apply keeps_lift, _ |]. intros mto.
    apply keeps_bind; [apply _ | | intros stamp; by apply pending_modify].
    apply keeps_bind; [apply _ | apply keeps_gets, _ | intros stamp; apply keeps_ret, _].
  - apply pending_deliver.
Qed.

(** What the timeout of a deferred leaves alone: the handler with its
    stream and hooks, the registry and the rooms. *)
Lemma onTimeout_loop_handler (d fuel i : nat) (s : State) :
  self (MUCClient.onTimeout_loop fuel i d s).2 = self s
  ∧ rooms (proc (MUCClient.onTimeout_loop fuel i d s).2) = rooms (proc s)
  ∧ room_store (proc (MUCClient.onTimeout_loop fuel i d s).2) = room_store (proc s).
Proof.
  revert i s. induction fuel as [|fuel IH]; intros i s; [done|].
  cbn [MUCClient.onTimeout_loop].
  unfold bind, gets, modify, ret, defer.errback, defer.fire, defer.cancelTimeout, raise.
  cbn beta.
  destruct (_deferreds (proc s) !! i) as [xd|]; [|done].
  case_bool_decide; [|apply IH]. cbn.
  destruct (deferred_store (proc s) !! d) as [[o|]|]; cbn; [done | | done].
  destruct (IH (S i) (with_proc
                        (λ p, set_delayed (filter (λ c, c.2 ≠ d) (delayed p)) p)
                        (with_proc
                           (λ p, set_deferred_store
                                   (<[d := Some (Failure (VExn (TimeoutError
                                       "Timeout waiting for response.")))]>
                                      (deferred_store p)) p)
                           (with_proc (λ p, set_deferreds (delete i (_deferreds p)) p) s))))
    as (H1 & H2 & H3).
  by rewrite H1, H2, H3.
Qed.

Lemma timeouts_handler (calls : list (nat * nat)) (s : State) :
  self (foldl (run_protected (λ c, MUCClient.onTimeout c.2)) s calls) = self s
  ∧ rooms (proc (foldl (run_protected (λ c, MUCClient.onTimeout c.2)) s calls))
    = rooms (proc s)
  ∧ room_store (proc (foldl (run_protected (λ c, MUCClient.onTimeout c.2)) s calls))
    = room_store (proc s).
Proof.
  revert s. induction calls as [|c calls IH]; intros s; [done|]. cbn [foldl].
  destruct (IH (run_protected (λ c, MUCClient.onTimeout c.2) s c)) as (-> & -> & ->).
  unfold run_protected, protect, MUCClient.onTimeout, bind, gets.
  pose proof (onTimeout_loop_handler c.2 (length (_deferreds (proc s))) 0 s) as Hloop.
  by destruct (MUCClient.onTimeout_loop _ _ _ _) as [[[]|e] s'].
Qed.

End Pending.

(** X26: no call of an operation and no stanza that comes in takes a
    deferred from the list of pending deferreds: the list only grows at
    its end. A deferred that was answered stays in it; only time passing,
    through [onTimeout], removes one. *)
Theorem pending_only_grows `{jid.Facility} (ev : Event) (s : State) :
  match ev with Advance _ => False | _ => True end →
  _deferreds (proc s) `prefix_of` _deferreds (proc (run ev s)).
Proof. apply pending_run. Qed.

Lemma pending_only_grows_witness :
  let s := (MUCClient.join fixtures.service fixtures.roomIdentifier fixtures.nick
              fixtures.connected).2 in
  let echo := fixtures.joined "test@conference.example.org/Nick" in
  deferred_store (proc (run (Deliver echo) s)) !! 0 = Some (Some (Success (VRoom 0)))
  ∧ [0] `prefix_of` _deferreds (proc (run (Deliver echo) s)).
Proof.
  intros s echo. split; [vm_compute; reflexivity|].
  exact (pending_only_grows (Deliver echo) s I).
Defined.

(** X27: time passing, with the timeouts it runs, never changes the
    handler or the rooms: no stanza is sent, no hook is called, the
    registry and the rooms stay as they are, and the one-time observer of
    a request that has timed out stays registered. *)
Theorem timeout_keeps_observers `{jid.Facility} (amount : nat) (s : State) :
  self (MUCClient.advance amount s).2 = self s
  ∧ rooms (proc (MUCClient.advance amount s).2) = rooms (proc s)
  ∧ room_store (proc (MUCClient.advance amount s).2) = room_store (proc s).
Proof.
  rewrite advance_runs. cbn [snd].
  by destruct (timeouts_handler
                 (filter (λ c, c.1 ≤ seconds (proc s) + amount) (delayed (proc s)))
                 (with_proc (set_delayed (filter (λ c, ¬ c.1 ≤ seconds (proc s) + amount)
                                                 (delayed (proc s))))
                    (with_proc (λ p, set_seconds (seconds p + amount) p) s)))
    as (-> & -> & ->).
Qed.

(** ** Requests and their replies *)

Section Replies.
Context `{jid.Facility}.

Lemma call_observers_stranger (prs : domish.Element) (frm : string) (j : jid.JID)
    (s : State) :
  domish.getAttribute prs "from" = Some frm →
  jid.internJID frm = Ok j →
  rooms (proc s) !! room_key j = None →
  MUCClient.call_observers prs s = (Ok tt, s).
Proof.
  intros Hfrom Hj Hroom.
  destruct (observers_ignore prs s) as (H1 & H2 & H3 & H4 & H5);
    [right; by exists frm, j|].
  unfold MUCClient.call_observers, MUCClient.when, bind, gets, protect, ret.
  destruct (observing (self s)); [|done].
  destruct (matches_x_presence prs); rewrite ?H1;
    destruct (matches_unavailable prs); rewrite ?H2;
    destruct (matches_presence_error prs); rewrite ?H3;
    destruct (matches_groupchat prs); rewrite ?H4;
    destruct (matches_subject prs); by rewrite ?H5.
Qed.

Lemma errback_runs (d : nat) (v : Value) (s : State) :
  deferred_store (proc s) !! d = Some None →
  ∃ s' : State,
    defer.errback d v s = (Ok tt, s')
    ∧ deferred_store (proc s') !! d = Some (Some (Failure v))
    ∧ rooms (proc s') = rooms (proc s)
    ∧ room_store (proc s') = room_store (proc s)
    ∧ self s' = self s.
Proof.
  intros Hd. unfold defer.errback, defer.fire, defer.cancelTimeout, bind, gets, modify.
  rewrite Hd. eexists. split; [reflexivity|]. cbn.
  split; [|done]. apply list_lookup_insert_eq. by eapply lookup_lt_Some.
Qed.

Lemma callback_runs (d : nat) (v : Value) (s : State) :
  deferred_store (proc s) !! d = Some None →
  ∃ s' : State,
    defer.callback d v s = (Ok tt, s')
    ∧ deferred_store (proc s') !! d = Some (Some (Success v))
    ∧ rooms (proc s') = rooms (proc s)
    ∧ room_store (proc s') = room_store (proc s)
    ∧ self s' = self s.
Proof.
  intros Hd. unfold defer.callback, defer.fire, defer.cancelTimeout, bind, gets, modify.
  rewrite Hd. eexists. split; [reflexivity|]. cbn.
  split; [|done]. apply list_lookup_insert_eq. by eapply lookup_lt_Some.
Qed.

Lemma joinedRoom_error_runs (d : nat) (prs : domish.Element) (frm : string) (j : jid.JID)
    (s : State) :
  domish.getAttribute prs "from" = Some frm →
  jid.internJID frm = Ok j →
  domish.getAttribute prs "type" = Some "error" →
  deferred_store (proc s) !! d = Some None →
  ∃ s' : State,
    MUCClient._joinedRoom d prs s = (Ok tt, s')
    ∧ deferred_store (proc s') !! d = Some (Some (Failure (VElement prs)))
    ∧ rooms (proc s') = rooms (proc s)
    ∧ room_store (proc s') = room_store (proc s)
    ∧ self s' = self s.
Proof.
  intros Hfrom Hj Htype Hd.
  destruct (from_present prs frm Hfrom) as [_ Hitem].
  unfold MUCClient._joinedRoom, MUCClient.is_error, domish.hasAttribute.
  unfold domish.getAttribute in Htype. unfold domish.getAttribute.
  rewrite Hitem, Htype. unfold bind at 1 2, lift. rewrite Hj.
  rewrite !bool_decide_eq_true_2 by (done || by eexists). cbn [andb].
  by apply errback_runs.
Qed.

Lemma nick_runs (room_jid : jid.JID) (new_nick : string) (room : nat) (r : Room.t)
    (j : jid.JID) (s : State) :
  rooms (proc s) !! room_key room_jid = Some room →
  room_store (proc s) !! room = Some r →
  jid.internJID (Room.name r +:+ "@" +:+ Room.server r +:+ "/" +:+ new_nick) = Ok j →
  ∃ s1 : State,
    let d := length (deferred_store (proc s)) in
    MUCClient.nick room_jid new_nick s = (Ok d, s1)
    ∧ rooms (proc s1) = rooms (proc s)
    ∧ room_store (proc s1) !! room = Some (Room.set_entity_id j (Room.set_nick new_nick r))
    ∧ deferred_store (proc s1) = deferred_store (proc s) ++ [None]
    ∧ output (self s1) = output (self s) ++ [BasicPresence (Some j)]
    ∧ onetime (self s1)
      = onetime (self s) ++ [(PresenceFrom (jid.full j), CbChanged d room_jid)]
    ∧ hooks (self s1) = hooks (self s).
Proof.
  unfold room_key. intros Hroom Hr Hj.
  unfold MUCClient.nick, MUCClient._getRoom, MUCClient.entityId, MUCClient.update,
    MUCClient.deref, MUCClient.sendDeferred, MUCClient.addOnetimeObserver, MUCClient.send,
    reactor.callLater, defer.Deferred, Room.entityId, res_bind, bind, lift, gets, modify, ret.
  rewrite Hroom. cbn. rewrite list_lookup_alter_eq, Hr. cbn. rewrite Hj. cbn.
  rewrite !list_lookup_alter_eq, Hr. cbn.
  eexists. split; [reflexivity|]. cbn. by rewrite !list_lookup_alter_eq, Hr.
Qed.

Lemma leave_runs (room_jid : jid.JID) (room : nat) (r : Room.t) (s : State) :
  rooms (proc s) !! room_key room_jid = Some room →
  room_store (proc s) !! room = Some r →
  ∃ s1 : State,
    let d := length (deferred_store (proc s)) in
    MUCClient.leave room_jid s = (Ok d, s1)
    ∧ rooms (proc s1) = rooms (proc s)
    ∧ deferred_store (proc s1) = deferred_store (proc s) ++ [None]
    ∧ output (self s1)
      = output (self s) ++ [xmppim.UnavailablePresence (Some (Room.entity_id r))]
    ∧ onetime (self s1)
      = onetime (self s)
        ++ [(PresenceFromUnavailable (jid.full (Room.entity_id r)), CbLeftRoom d)]
    ∧ hooks (self s1) = hooks (self s)
    ∧ observing (self s1) = observing (self s).
Proof.
  unfold room_key. intros Hroom Hr.
  unfold MUCClient.leave, MUCClient._getRoom, MUCClient.deref, MUCClient.sendDeferred,
    MUCClient.addOnetimeObserver, MUCClient.send, reactor.callLater, defer.Deferred,
    bind, lift, gets, modify, ret.
  rewrite Hroom, Hr. cbn. rewrite ?Hr. by eexists.
Qed.

Lemma leftRoom_runs (d : nat) (prs : domish.Element) (j : jid.JID) (room : nat)
    (s : State) :
  domish.getAttribute prs "from" = Some (jid.full j) →
  jid.internJID (jid.full j) = Ok j →
  domish.getAttribute prs "type" = Some "unavailable" →
  rooms (proc s) !! room_key j = Some room →
  deferred_store (proc s) !! d = Some None →
  ∃ s' : State,
    MUCClient._leftRoom d prs s = (Ok tt, s')
    ∧ deferred_store (proc s') !! d = Some (Some (Success (VBool true)))
    ∧ rooms (proc s') = delete (room_key j) (rooms (proc s))
    ∧ self s' = self s.
Proof.
  unfold room_key. intros Hfrom Hj Htype Hroom Hd.
  destruct (from_present prs _ Hfrom) as [_ Hitem].
  unfold MUCClient._leftRoom, MUCClient.is_error.
  rewrite Hitem, Htype. unfold bind at 1 2, lift. rewrite Hj.
  rewrite (bool_decide_eq_false_2 (Some "unavailable" = Some "error")) by done.
  rewrite andb_false_r.
  unfold MUCClient._getRoom, MUCClient._removeRoom, bind, gets, modify. rewrite Hroom.
  set (s0 := with_proc _ s).
  assert (Hrooms : rooms (proc s0) = delete (lower (jid.userhost j)) (rooms (proc s))).
  { subst s0. cbn. by rewrite bool_decide_eq_true_2 by (by eexists). }
  assert (Hd0 : deferred_store (proc s0) !! d = Some None).
  { subst s0. cbn. by case_bool_decide. }
  destruct (callback_runs d (VBool true) s0 Hd0) as (s' & Hrun & Hd' & Hrooms' & _ & Hself).
  exists s'. split; [exact Hrun|]. split; [exact Hd'|]. split; [congruence|].
  by rewrite Hself.
Qed.

End Replies.

(** X28: when the reply to a join is an error presence from the occupant
    address, the deferred of the join is failed with that stanza; the
    room stays in the registry, in state "joining". *)
Theorem join_then_error `{jid.Facility} (s : State) (server room nick : string)
    (j : jid.JID) (prs : domish.Element) :
  jid.internJID (room +:+ "@" +:+ server +:+ "/" +:+ nick) = Ok j →
  domish.name prs = "presence" →
  domish.getAttribute prs "from" = Some (jid.full j) →
  jid.internJID (jid.full j) = Ok j →
  domish.getAttribute prs "type" = Some "error" →
  Forall (λ o, matches o.1 prs = false) (onetime (self s)) →
  ∃ (s1 s2 : State) (r2 : Room.t),
    let a := length (room_store (proc s)) in
    let d := length (deferred_store (proc s)) in
    MUCClient.join server room nick s = (Ok d, s1)
    ∧ MUCClient.deliver prs s1 = (Ok tt, s2)
    ∧ deferred_store (proc s2) !! d = Some (Some (Failure (VElement prs)))
    ∧ rooms (proc s2) !! room_key j = Some a
    ∧ room_store (proc s2) !! a = Some r2
    ∧ Room.state r2 = Some "joining".
Proof.
  unfold room_key. intros Hj Hname Hfrom Hfull Htype Hpending.
  set (a := length (room_store (proc s))).
  set (d := length (deferred_store (proc s))).
  set (s1 := after_join server room nick j s).
  assert (Hroom : rooms (proc s1) !! lower (jid.userhost j) = Some a)
    by apply lookup_insert_eq.
  assert (Hr : room_store (proc s1) !! a = Some (joining_room server room nick j))
    by (by apply list_lookup_middle).
  assert (Hd : deferred_store (proc s1) !! d = Some None)
    by (by apply list_lookup_middle).
  assert (Hq : matches (PresenceFrom (jid.full j)) prs = true).
  { cbn. by rewrite !bool_decide_eq_true_2. }
  destruct (joinedRoom_error_runs d prs (jid.full j) j
              (with_self (set_onetime (onetime (self s))) s1) Hfrom Hfull Htype Hd)
    as (s2 & Hrun & Hd2 & Hrooms2 & Hstore2 & _).
  pose proof (reply_call_observers prs s2) as (Hd3 & _ & _ & _ & Hrooms3 & _ & Hstore3).
  assert (Hr2 : room_store (proc s2) !! a = Some (joining_room server room nick j))
    by (by rewrite Hstore2).
  destruct (Hstore3 a _ Hr2) as (r3 & Hr3 & Hstate3 & _).
  exists s1, (MUCClient.call_observers prs s2).2, r3.
  split; [by apply join_runs|].
  split.
  { unfold MUCClient.deliver, bind.
    rewrite (call_onetime_runs prs (PresenceFrom (jid.full j)) (CbJoinedRoom d)
               (onetime (self s)) s1 eq_refl Hpending Hq).
    unfold protect. cbn [MUCClient.run_callback]. rewrite Hrun. cbn [snd].
    apply call_observers_returns. }
  split; [by rewrite Hd3|].
  split; [by rewrite Hrooms3, Hrooms2|].
  split; [exact Hr3|]. by rewrite Hstate3.
Qed.

Lemma join_then_error_witness :
  let prs :=
    muc.PresenceError
      (fixtures.element "error" None [("type", "auth")]
         [domish.NElem (fixtures.element "forbidden"
                          (Some "urn:ietf:params:xml:ns:xmpp-stanzas") [] [])])
      None (Some (jid.full fixtures.occupantJID)) in
  ∃ (s1 s2 : State) (r2 : Room.t),
    MUCClient.join fixtures.service fixtures.roomIdentifier fixtures.nick fixtures.busy
      = (Ok (length (deferred_store (proc fixtures.busy))), s1)
    ∧ MUCClient.deliver prs s1 = (Ok tt, s2)
    ∧ deferred_store (proc s2) !! length (deferred_store (proc fixtures.busy))
      = Some (Some (Failure (VElement prs)))
    ∧ room_store (proc s2) !! length (room_store (proc fixtures.busy)) = Some r2
    ∧ Room.state r2 = Some "joining".
Proof.
  intros prs.
  destruct (join_then_error fixtures.busy fixtures.service fixtures.roomIdentifier
              fixtures.nick fixtures.occupantJID prs)
    as (s1 & s2 & r2 & Hjoin & Hdeliver & Hd & _ & Hr2 & Hstate);
    try (vm_compute; reflexivity).
  - repeat constructor.
  - by exists s1, s2, r2.
Defined.

(** X29: [nick] gives the room its new nickname and occupant address
    and sends a presence to that address; when a presence then comes
    from that address that no other pending one-time observer of the
    handler is called on, it fulfils the deferred with the room, an
    error presence as well: [_changed] never fails it. *)
Theorem nick_then_reply `{jid.Facility} (room_jid : jid.JID) (new_nick : string)
    (room : nat) (r : Room.t) (j : jid.JID) (prs : domish.Element) (s : State) :
  rooms (proc s) !! room_key room_jid = Some room →
  room_store (proc s) !! room = Some r →
  jid.internJID (Room.name r +:+ "@" +:+ Room.server r +:+ "/" +:+ new_nick) = Ok j →
  domish.name prs = "presence" →
  domish.getAttribute prs "from" = Some (jid.full j) →
  Forall (λ o, matches o.1 prs = false) (onetime (self s)) →
  ∃ s1 s2 : State,
    let d := length (deferred_store (proc s)) in
    MUCClient.nick room_jid new_nick s = (Ok d, s1)
    ∧ room_store (proc s1) !! room = Some (Room.set_entity_id j (Room.set_nick new_nick r))
    ∧ output (self s1) = output (self s) ++ [BasicPresence (Some j)]
    ∧ MUCClient.deliver prs s1 = (Ok tt, s2)
    ∧ deferred_store (proc s2) !! d = Some (Some (Success (VRoom room))).
Proof.
  intros Hroom Hr Hj Hname Hfrom Hpending.
  destruct (nick_runs room_jid new_nick room r j s Hroom Hr Hj)
    as (s1 & Hnick & Hrooms1 & Hr1 & Hstore1 & Hout1 & Hobs1 & _).
  set (d := length (deferred_store (proc s))) in *.
  assert (Hq : matches (PresenceFrom (jid.full j)) prs = true).
  { cbn. by rewrite !bool_decide_eq_true_2. }
  set (s1' := with_self (set_onetime (onetime (self s))) s1).
  assert (Hd : deferred_store (proc s1') !! d = Some None).
  { subst s1'. cbn. rewrite Hstore1. by apply list_lookup_middle. }
  destruct (callback_runs d (VRoom room) s1' Hd) as (s2 & Hrun & Hd2 & _).
  pose proof (reply_call_observers prs s2) as (Hd3 & _).
  exists s1, (MUCClient.call_observers prs s2).2.
  split; [exact Hnick|]. split; [exact Hr1|]. split; [exact Hout1|]. split.
  { unfold MUCClient.deliver, bind.
    rewrite (call_onetime_runs prs (PresenceFrom (jid.full j)) (CbChanged d room_jid)
               (onetime (self s)) s1 Hobs1 Hpending Hq).
    unfold protect. cbn [MUCClient.run_callback].
    unfold MUCClient._changed, MUCClient._getRoom, bind at 1, gets.
    fold s1'. change (rooms (proc s1')) with (rooms (proc s1)).
    unfold room_key in Hroom. rewrite Hrooms1, Hroom.
    unfold defer.callback in Hrun. unfold defer.callback. rewrite Hrun. cbn [snd].
    apply call_observers_returns. }
  by rewrite Hd3.
Qed.

Lemma nick_then_reply_witness :
  let s := (MUCClient.join fixtures.service "other" fixtures.nick fixtures.room_ready).2 in
  let conflict :=
    fixtures.element "presence" None
      [("from", "test@conference.example.org/newNick"); ("type", "error")]
      [domish.NElem (fixtures.element "error" None [("type", "cancel")] [])] in
  length (onetime (self s)) = 1
  ∧ ∃ s1 s2 : State,
      MUCClient.nick fixtures.roomJID "newNick" s = (Ok 1, s1)
      ∧ MUCClient.deliver conflict s1 = (Ok tt, s2)
      ∧ deferred_store (proc s2) !! 1 = Some (Some (Success (VRoom 0))).
Proof.
  intros s conflict. split; [reflexivity|].
  destruct (nick_then_reply fixtures.roomJID "newNick" 0
              (Room.mk None "test" "conference.example.org" "Nick" (Room.StatusInt 0)
                       fixtures.occupantJID ∅)
              (jid.mk (Some "test") "conference.example.org" (Some "newNick"))
              conflict s)
    as (s1 & s2 & Hnick & _ & _ & Hdeliver & Hd); try (vm_compute; reflexivity).
  - repeat constructor.
  - by exists s1, s2.
Defined.

(** X30: [leave] sends an unavailable presence to the occupant address
    of the room; when the unavailable presence from that address comes
    back and no other pending one-time observer of the handler is called
    on it, the room is out of the registry, the deferred of the leave is
    fulfilled with [True], and no hook is called: the handler does not
    report its own leaving through [userLeftRoom]. *)
Theorem leave_then_echo `{jid.Facility} (room_jid : jid.JID) (room : nat) (r : Room.t)
    (prs : domish.Element) (s : State) :
  rooms (proc s) !! room_key room_jid = Some room →
  room_store (proc s) !! room = Some r →
  room_key (Room.entity_id r) = room_key room_jid →
  jid.internJID (jid.full (Room.entity_id r)) = Ok (Room.entity_id r) →
  domish.name prs = "presence" →
  domish.getAttribute prs "from" = Some (jid.full (Room.entity_id r)) →
  domish.getAttribute prs "type" = Some "unavailable" →
  Forall (λ o, matches o.1 prs = false) (onetime (self s)) →
  ∃ s1 s2 : State,
    let d := length (deferred_store (proc s)) in
    MUCClient.leave room_jid s = (Ok d, s1)
    ∧ output (self s1)
      = output (self s) ++ [xmppim.UnavailablePresence (Some (Room.entity_id r))]
    ∧ MUCClient.deliver prs s1 = (Ok tt, s2)
    ∧ deferred_store (proc s2) !! d = Some (Some (Success (VBool true)))
    ∧ rooms (proc s2) !! room_key room_jid = None
    ∧ hooks (self s2) = hooks (self s).
Proof.
  intros Hroom Hr Hkey Hfull Hname Hfrom Htype Hpending.
  destruct (leave_runs room_jid room r s Hroom Hr)
    as (s1 & Hleave & Hrooms1 & Hstore1 & Hout1 & Hobs1 & Hhooks1 & _).
  set (d := length (deferred_store (proc s))) in *.
  set (j := Room.entity_id r) in *.
  assert (Hq : matches (PresenceFromUnavailable (jid.full j)) prs = true).
  { cbn. by rewrite !bool_decide_eq_true_2. }
  set (s1' := with_self (set_onetime (onetime (self s))) s1).
  assert (Hd : deferred_store (proc s1') !! d = Some None).
  { subst s1'. cbn. rewrite Hstore1. by apply list_lookup_middle. }
  assert (Hroom1 : rooms (proc s1') !! room_key j = Some room).
  { subst s1'. cbn. by rewrite Hrooms1, Hkey. }
  destruct (leftRoom_runs d prs j room s1' Hfrom Hfull Htype Hroom1 Hd)
    as (s2 & Hrun & Hd2 & Hrooms2 & Hself2).
  assert (Hgone : rooms (proc s2) !! room_key j = None).
  { rewrite Hrooms2. apply lookup_delete_eq. }
  exists s1, s2.
  split; [exact Hleave|]. split; [exact Hout1|]. split.
  { unfold MUCClient.deliver, bind.
    rewrite (call_onetime_runs prs (PresenceFromUnavailable (jid.full j)) (CbLeftRoom d)
               (onetime (self s)) s1 Hobs1 Hpending Hq).
    unfold protect. cbn [MUCClient.run_callback]. fold s1'. rewrite Hrun. cbn [snd].
    by apply (call_observers_stranger prs (jid.full j) j). }
  split; [exact Hd2|]. split; [by rewrite <- Hkey|].
  rewrite Hself2. subst s1'. cbn. exact Hhooks1.
Qed.

Lemma leave_then_echo_witness :
  let s := (MUCClient.join fixtures.service "other" fixtures.nick fixtures.with_user).2 in
  length (onetime (self s)) = 1
  ∧ ∃ s1 s2 : State,
      MUCClient.leave fixtures.roomJID s = (Ok 1, s1)
      ∧ MUCClient.deliver (fixtures.unavailable "test@conference.example.org/Nick") s1
        = (Ok tt, s2)
      ∧ deferred_store (proc s2) !! 1 = Some (Some (Success (VBool true)))
      ∧ rooms (proc s2) !! room_key fixtures.roomJID = None
      ∧ hooks (self s2) = hooks (self s).
Proof.
  intros s. split; [reflexivity|].
  destruct (leave_then_echo fixtures.roomJID 0
              (Room.addUser
                 (Room.mk None "test" "conference.example.org" "Nick" (Room.StatusInt 0)
                          fixtures.occupantJID ∅)
                 (User.init fixtures.nick))
              (fixtures.unavailable "test@conference.example.org/Nick") s)
    as (s1 & s2 & Hleave & _ & Hdeliver & Hd & Hgone & Hhooks);
    try (vm_compute; reflexivity).
  - repeat constructor.
  - by exists s1, s2.
Defined.
